(** * ArbGUI: data mapping, contract checking and refresh-scoped caching

    A shallow embedding of [streamlit_app.py] and [scripts/check_api.py].
    Python values are JSON-like terms, Python exceptions are an explicit
    error result, a JSON object is the list of its items in insertion
    order, the session caches are finite maps, and every effect (network,
    session state, standard output) is passed explicitly. *)

From Stdlib Require Import ZArith QArith Qabs Qround Qminmax String Ascii List Permutation Lia.
From stdpp Require Import base option list gmap strings pretty.

Local Open Scope string_scope.
Local Open Scope Z_scope.

(** ** Python results *)

Module Py.

(** The exception classes the two programs can meet.  [HTTPError] is a
    subclass of [URLError] and is listed apart from it; it carries the
    status code and [exc.fp], which is absent, or holds bytes that are
    not UTF-8, or holds a text.  [UnicodeDecodeError] and
    [JSONDecodeError] are subclasses of [ValueError] and are
    represented by it.  [OSError] stands for the errors of that class
    outside [URLError], such as a connection that is reset or times
    out while the response is read. *)
Inductive exn : Type :=
| HTTPError (code : Z) (fp : option (option string))
| URLError
| ValueError
| TypeError
| KeyError
| IndexError
| AttributeError
| OverflowError
| OSError.

Inductive outcome (A : Type) : Type :=
| Returned (a : A)
| Raised (e : exn).
Arguments Returned {A} a.
Arguments Raised {A} e.

Definition bind {A B} (m : outcome A) (k : A -> outcome B) : outcome B :=
  match m with
  | Returned a => k a
  | Raised e => Raised e
  end.

Definition returns {A} (m : outcome A) : Prop := exists a, m = Returned a.

(** *** Values

    What [json.loads] produces, which is also all the two programs
    build: [None], [bool], [int], [float], [str], [list] and [dict].
    A [float] is represented by the rational it denotes and arithmetic
    on it is exact, so neither binary rounding nor [nan] and [inf]
    are modelled: where Python rounds a product to binary64 before
    [round], the figure of the model can differ from Python's in the
    last digit kept.  What is proved of figures is stated for integers,
    on which Python is exact as well.  A [dict] keeps its items in
    insertion order. *)
#[local] Set Warnings "-register-all".
Inductive json : Type :=
| JNull
| JBool (b : bool)
| JInt (z : Z)
| JFloat (q : Q)
| JStr (s : string)
| JArr (items : list json)
| JObj (fields : list (string * json)).

Definition dict : Type := list (string * json).

(** [x is None]. *)
Definition is_none (x : json) : bool :=
  match x with JNull => true | _ => false end.

(** [isinstance(x, dict)], [isinstance(x, list)]. *)
Definition is_dict (x : json) : bool :=
  match x with JObj _ => true | _ => false end.

Definition is_list (x : json) : bool :=
  match x with JArr _ => true | _ => false end.

(** The numeric value of an [int], a [float] or a [bool] ([bool] is a
    subclass of [int]). *)
Definition as_number (x : json) : option Q :=
  match x with
  | JBool b => Some (if b then 1 else 0)%Q
  | JInt z => Some (inject_Z z)
  | JFloat q => Some q
  | _ => None
  end.

Definition as_int (x : json) : option Z :=
  match x with
  | JBool b => Some (if b then 1 else 0)
  | JInt z => Some z
  | _ => None
  end.

(** [isinstance(x, (int, float))]. *)
Definition is_number (x : json) : bool :=
  match as_number x with Some _ => true | None => false end.

Definition Qis_zero (q : Q) : bool := (Qnum q =? 0)%Z.
Definition Qltb (p q : Q) : bool :=
  match (p ?= q)%Q with Lt => true | _ => false end.

(** [x] is a number whose value equals [q]. *)
Definition valued (x : json) (q : Q) : Prop :=
  exists q', as_number x = Some q' /\ (q' == q)%Q.

(** [bool(x)]: [None], [False], zero and empty containers are false. *)
Definition truthy (x : json) : bool :=
  match x with
  | JNull => false
  | JBool b => b
  | JInt z => negb (z =? 0)%Z
  | JFloat q => negb (Qis_zero q)
  | JStr s => negb (String.eqb s "")
  | JArr items => match items with [] => false | _ => true end
  | JObj fields => match fields with [] => false | _ => true end
  end.

(** [key in d], [d.get(key, default)] and [d.get(key)].  The keys of a
    dictionary are distinct, so at most one item answers. *)
Fixpoint lookup (d : dict) (key : string) : option json :=
  match d with
  | [] => None
  | (k, v) :: rest => if String.eqb k key then Some v else lookup rest key
  end.

Definition contains (d : dict) (key : string) : bool :=
  match lookup d key with Some _ => true | None => false end.

Definition get_default (d : dict) (key : string) (default : json) : json :=
  match lookup d key with Some v => v | None => default end.

Definition get (d : dict) (key : string) : json := get_default d key JNull.

(** [x[i]] on a list. *)
Definition item (x : json) (i : nat) : outcome json :=
  match x with
  | JArr items =>
      match nth_error items i with
      | Some v => Returned v
      | None => Raised IndexError
      end
  | _ => Raised TypeError
  end.

(** [a == b]. *)
Fixpoint eq (a b : json) {struct a} : bool :=
  match a, b with
  | JNull, JNull => true
  | JStr s, JStr t => String.eqb s t
  | JArr l, JArr m =>
      (fix items (l m : list json) {struct l} : bool :=
         match l, m with
         | [], [] => true
         | x :: l', y :: m' => eq x y && items l' m'
         | _, _ => false
         end) l m
  | JObj f, JObj g =>
      (length f =? length g)%nat &&
      (fix fields (f : dict) {struct f} : bool :=
         match f with
         | [] => true
         | (k, v) :: f' =>
             match lookup g k with
             | Some v' => eq v v' && fields f'
             | None => false
             end
         end) f
  | _, _ =>
      match as_number a, as_number b with
      | Some p, Some q => Qeq_bool p q
      | _, _ => false
      end
  end.

(** [s < t] on strings: lexicographic on code points, which for
    UTF-8 is lexicographic on bytes. *)
Fixpoint str_lt (s t : string) : bool :=
  match s, t with
  | _, EmptyString => false
  | EmptyString, String _ _ => true
  | String c s', String d t' =>
      let m := nat_of_ascii c in
      let n := nat_of_ascii d in
      if (m <? n)%nat then true
      else if (n <? m)%nat then false
      else str_lt s' t'
  end.

(** [a < b]; operands of unordered types raise [TypeError]. *)
Fixpoint lt (a b : json) {struct a} : outcome bool :=
  match a, b with
  | JStr s, JStr t => Returned (str_lt s t)
  | JArr l, JArr m =>
      (fix items (l m : list json) {struct l} : outcome bool :=
         match l, m with
         | [], [] => Returned false
         | [], _ :: _ => Returned true
         | _ :: _, [] => Returned false
         | x :: l', y :: m' => if eq x y then items l' m' else lt x y
         end) l m
  | _, _ =>
      match as_number a, as_number b with
      | Some p, Some q => Returned (Qltb p q)
      | _, _ => Raised TypeError
      end
  end.

(** [min(a, b)] keeps [a] unless [b < a]. *)
Definition min (a b : json) : outcome json :=
  match lt b a with
  | Returned c => Returned (if c then b else a)
  | Raised e => Raised e
  end.

(** [abs(x)], [a - b], [a * b] on numbers.  [int] stays [int]. *)
Definition abs (x : json) : outcome json :=
  match x with
  | JFloat q => Returned (JFloat (Qabs q))
  | _ => match as_int x with
         | Some z => Returned (JInt (Z.abs z))
         | None => Raised TypeError
         end
  end.

Definition arith (fz : Z -> Z -> Z) (fq : Q -> Q -> Q) (a b : json) : outcome json :=
  match as_int a, as_int b with
  | Some x, Some y => Returned (JInt (fz x y))
  | _, _ =>
      match as_number a, as_number b with
      | Some p, Some q => Returned (JFloat (fq p q))
      | _, _ => Raised TypeError
      end
  end.

Definition sub : json -> json -> outcome json := arith Z.sub Qminus.

Definition repeat_zero (n : nat) : string := string_of_list_ascii (repeat "0"%char n).

Fixpoint repeat_str (s : string) (n : nat) : string :=
  match n with O => "" | S n' => s ++ repeat_str s n' end.

Fixpoint repeat_list {A} (l : list A) (n : nat) : list A :=
  match n with O => [] | S n' => (l ++ repeat_list l n')%list end.

(** [a * b]: product of numbers, repetition of a sequence by an
    [int], [TypeError] otherwise. *)
Definition mul (a b : json) : outcome json :=
  match a, as_int b, as_int a, b with
  | JStr s, Some n, _, _ | _, _, Some n, JStr s => Returned (JStr (repeat_str s (Z.to_nat n)))
  | JArr l, Some n, _, _ | _, _, Some n, JArr l => Returned (JArr (repeat_list l (Z.to_nat n)))
  | _, _, _, _ => arith Z.mul Qmult a b
  end.

(** Rounding to the nearest integer, ties to the even one. *)
Definition Qround_half_even (q : Q) : Z :=
  let f := Qfloor q in
  match ((q - inject_Z f) ?= (1 # 2))%Q with
  | Lt => f
  | Gt => f + 1
  | Eq => if Z.even f then f else f + 1
  end.

(** [round(x, ndigits)] for [ndigits >= 0]: an [int] is returned as
    it is, a [float] is rounded to [ndigits] decimals. *)
Definition round (x : json) (ndigits : nat) : outcome json :=
  match x with
  | JFloat q =>
      let scale := inject_Z (10 ^ Z.of_nat ndigits) in
      Returned (JFloat (inject_Z (Qround_half_even (q * scale)) / scale))
  | _ => match as_int x with
         | Some z => Returned (JInt z)
         | None => Raised TypeError
         end
  end.

(** [int(x)] on a number: truncation towards zero. *)
Definition Qtruncate (q : Q) : Z := Z.quot (Qnum q) (Zpos (Qden q)).

Definition int (x : json) : outcome json :=
  match x with
  | JFloat q => Returned (JInt (Qtruncate q))
  | _ => match as_int x with
         | Some z => Returned (JInt z)
         | None => Raised TypeError
         end
  end.

End Py.
Import Py.

Declare Scope outcome_scope.
Delimit Scope outcome_scope with outcome.
Notation "x <- m ;; k" := (Py.bind m (fun x => k))
  (at level 100, m at next level, right associativity) : outcome_scope.

(** ** The refresh-scoped caches of [main]

    [st.session_state] holds, for the order books and for the
    opportunities, one dictionary of values and one dictionary of the
    refresh tick each value was computed at. *)

Module RefreshCache.

Record t (V : Type) : Type := Build {
  cache : gmap string V;
  cache_ver : gmap string Z
}.
Arguments Build {V} cache cache_ver.
Arguments cache {V} _.
Arguments cache_ver {V} _.

(** [st.session_state.setdefault("..._cache", {})] on a new session. *)
Definition initial {V} : t V := Build ∅ ∅.

(** Every key that carries a tick also carries a value. *)
Definition consistent {V} (c : t V) : Prop :=
  forall key, is_Some (cache_ver c !! key) -> is_Some (cache c !! key).

(** The condition under which a value is computed anew, in the words
    of the specification: no entry, or an entry of another tick. *)
Definition miss {V} (c : t V) (key : string) (generation : Z) : Prop :=
  cache c !! key = None \/ cache_ver c !! key ≠ Some generation.

Section Steps.
Context {V W : Type}.

(** The world [W] is whatever the computation reads or changes: the
    network, a counter, a log. *)
Definition computation : Type := W -> V * W.

(** [ver.get(key) != refresh_tick]: an absent key gives [None],
    which differs from every integer. *)
Definition stale (c : t V) (key : string) (refresh_tick : Z) : bool :=
  bool_decide (cache_ver c !! key ≠ Some refresh_tick).

(** The two assignments of the refresh branch. *)
Definition store (c : t V) (key : string) (refresh_tick : Z) (v : V) : t V :=
  Build (<[key := v]> (cache c)) (<[key := refresh_tick]> (cache_ver c)).

Definition refresh (key : string) (refresh_tick : Z) (computeFn : computation)
    (c : t V) (w : W) : t V * W :=
  if stale c key refresh_tick
  then let '(v, w') := computeFn w in (store c key refresh_tick v, w')
  else (c, w).

(** Order books, lines 546-549: the value is read with
    [ob_cache[ob_key]], which raises [KeyError] on an absent key. *)
Definition get_or_compute (key : string) (refresh_tick : Z)
    (computeFn : computation) (c : t V) (w : W) : outcome V * t V * W :=
  let '(c', w') := refresh key refresh_tick computeFn c w in
  (match cache c' !! key with
   | Some v => Returned v
   | None => Raised KeyError
   end, c', w').

(** Opportunities, lines 518-523: the value is read with
    [opp_cache.get(opp_key, [])]. *)
Definition get_or_compute_default (default : V) (key : string) (refresh_tick : Z)
    (computeFn : computation) (c : t V) (w : W) : V * t V * W :=
  let '(c', w') := refresh key refresh_tick computeFn c w in
  (match cache c' !! key with
   | Some v => v
   | None => default
   end, c', w').

(** Instrumentation: the computation run for [key] leaves its key in
    a log next to the world. *)
Definition logged (key : string) (computeFn : computation)
    : W * list string -> V * (W * list string) :=
  fun '(w, log) => let '(v, w') := computeFn w in (v, (w', (log ++ [key])%list)).

End Steps.

End RefreshCache.

(** ** Standard output and the network *)

Module IO.

(** A command reads nothing but may print lines and may raise; the
    lines printed before an exception stay printed. *)
Definition io (A : Type) : Type := list string -> outcome A * list string.

Definition ret {A} (a : A) : io A := fun out => (Returned a, out).

Definition bind {A B} (m : io A) (k : A -> io B) : io B :=
  fun out =>
    match m out with
    | (Returned a, out') => k a out'
    | (Raised e, out') => (Raised e, out')
    end.

Definition lift {A} (m : outcome A) : io A := fun out => (m, out).

Definition print (line : string) : io unit :=
  fun out => (Returned tt, (out ++ [line])%list).

Definition run {A} (m : io A) : outcome A * list string := m [].

End IO.

Declare Scope io_scope.
Delimit Scope io_scope with io.
Notation "x <- m ;; k" := (IO.bind m (fun x => k))
  (at level 100, m at next level, right associativity) : io_scope.

Module Net.

(** What [urllib.request.Request(url, ...)],
    [urllib.request.urlopen(req, timeout=...)] and
    [resp.read().decode("utf-8")] do for a URL.  [Request] finds no
    scheme in a URL such as [example.com/api] or the empty one and
    raises [ValueError] ("unknown url type") without anything being
    sent: [UnknownUrlType].  Otherwise the request is built and
    [urlopen] answers or raises.  A body that is not valid UTF-8 has no
    text ([UnicodeDecodeError], a [ValueError]). *)
Inductive reply : Type :=
| Response (status : Z) (text : option string)
| Failure (e : exn)
| UnknownUrlType.

(** The environment of one run: the network, and [json.loads], which
    raises [JSONDecodeError] (a [ValueError]) on [None]. *)
Record env : Type := Env {
  urlopen : string -> reply;
  json_loads : string -> option json
}.

Definition decode (text : option string) : outcome string :=
  match text with Some s => Returned s | None => Raised ValueError end.

Definition loads (E : env) (body : string) : outcome json :=
  match json_loads E body with Some v => Returned v | None => Raised ValueError end.

(** The [with] block shared by both fetchers:
    [status = resp.getcode(); body = resp.read().decode("utf-8");
     return status, json.loads(body) if body else None]. *)
Definition read_response (E : env) (status : Z) (text : option string)
    : outcome (Z * json) :=
  (body <- decode text;;
   if String.eqb body "" then Returned (status, JNull)
   else data <- loads E body;; Returned (status, data))%outcome.

(** [try: ... except cls: ...] *)
Definition catch {A} (m : outcome A) (handler : exn -> option (outcome A)) : outcome A :=
  match m with
  | Returned a => Returned a
  | Raised e => match handler e with Some h => h | None => Raised e end
  end.

(** Sample environments: a host that refuses every connection, and a
    server that answers every request with the same status and body,
    read as [data]. *)
Definition refusing : env := Env (fun _ => Failure URLError) (fun _ => None).

Definition answering (status : Z) (data : json) : env :=
  Env (fun _ => Response status (Some "{}")) (fun _ => Some data).

(** [req = urllib.request.Request(url, headers=...)], the statement
    before the [try] of both fetchers. *)
Definition request (E : env) (url : string) : outcome unit :=
  match urlopen E url with
  | UnknownUrlType => Raised ValueError
  | _ => Returned tt
  end.

(** The body of the [try] block, which is entered with the request
    built. *)
Definition attempt (E : env) (url : string) : outcome (Z * json) :=
  match urlopen E url with
  | Response status text => read_response E status text
  | Failure e => Raised e
  | UnknownUrlType => Raised ValueError
  end.

End Net.

(** ** [scripts/check_api.py] *)

Module CheckApi.
Import IO Net.

(** [fetch_json]: only [HTTPError] is handled. *)
Definition fetch_json (E : env) (url : string) : outcome (Z * json) :=
  (_ <- request E url;;
   catch (attempt E url) (fun exc =>
     match exc with
     | HTTPError code fp =>
         Some (body <- match fp with
                       | Some text => decode text
                       | None => Returned ""
                       end;;
               Returned (code, JStr body))
     | _ => None
     end))%outcome.

(** [s.startswith(p)] and [p in s] on strings. *)
Fixpoint is_prefix (p s : string) : bool :=
  match p, s with
  | EmptyString, _ => true
  | String a p', String b s' => Ascii.eqb a b && is_prefix p' s'
  | String _ _, EmptyString => false
  end.

Fixpoint is_substring (p s : string) : bool :=
  is_prefix p s ||
  match s with
  | EmptyString => false
  | String _ s' => is_substring p s'
  end.

(** [k in obj]: a key of a [dict], an element of a [list], a
    substring of a [str]; the other values are not iterable. *)
Definition py_in (k : string) (obj : json) : outcome bool :=
  match obj with
  | JObj fields => Returned (contains fields k)
  | JArr items => Returned (existsb (Py.eq (JStr k)) items)
  | JStr s => Returned (is_substring k s)
  | _ => Raised TypeError
  end.

(** [ensure_keys]: [[k for k in keys if k not in obj]]. *)
Fixpoint ensure_keys (obj : json) (keys : list string) : outcome (list string) :=
  match keys with
  | [] => Returned []
  | k :: rest =>
      (present <- py_in k obj;;
       missing <- ensure_keys obj rest;;
       Returned (if present then missing else k :: missing))%outcome
  end.

Definition ensure_list (obj : json) : bool := is_list obj.

(** The conditional expression that lines 85, 127, 152, 175, 198 and
    249 repeat on the first element of an array:
    [ensure_keys(d, required) if isinstance(d, dict) else required]. *)
Definition missing_keys (document : json) (required_keys : list string)
    : outcome (list string) :=
  if is_dict document then ensure_keys document required_keys
  else Returned required_keys.

Definition print_result (ok : bool) (label detail : string) : io unit :=
  let status := if ok then "OK" else "NG" in
  if negb (String.eqb detail "")
  then print ("[" ++ status ++ "] " ++ label ++ ": " ++ detail)
  else print ("[" ++ status ++ "] " ++ label).

Definition join (sep : string) (parts : list string) : string :=
  String.concat sep parts.

Definition is_empty {A} (l : list A) : bool :=
  match l with [] => true | _ => false end.

Definition status_detail (status : Z) : string := "status=" ++ pretty status.

(** The block repeated for every endpoint that answers with an
    object: the new value of [failures]. *)
Definition check_object (E : env) (url label : string) (required : list string)
    (failures : nat) : io nat :=
  (response <- lift (fetch_json E url);;
   let '(status, data) := response in
   if negb (status =? 200)%Z || negb (is_dict data) then
     _ <- print_result false label (status_detail status);;
     ret (failures + 1)%nat
   else
     missing <- lift (ensure_keys data required);;
     _ <- print_result (is_empty missing) (label ++ " keys") (join "," missing);;
     ret (failures + (if is_empty missing then 0 else 1))%nat)%io.

(** The block repeated for every endpoint that answers with an
    array; [keys_label] is the label of the key check. *)
Definition check_array (E : env) (url label keys_label : string)
    (required : list string) (failures : nat) : io nat :=
  (response <- lift (fetch_json E url);;
   let '(status, data) := response in
   if negb (status =? 200)%Z || negb (ensure_list data) then
     _ <- print_result false label (status_detail status);;
     ret (failures + 1)%nat
   else if truthy data then
     first <- lift (item data 0);;
     missing <- lift (missing_keys first required);;
     _ <- print_result (is_empty missing) keys_label (join "," missing);;
     ret (failures + (if is_empty missing then 0 else 1))%nat
   else
     _ <- print_result true label "empty list";;
     ret failures)%io.

(** The health check of [test_openapi]. *)
Definition check_health (E : env) (url : string) (failures : nat) : io nat :=
  (response <- lift (fetch_json E url);;
   let '(status, data) := response in
   ok <- lift (if negb (status =? 200)%Z then Returned false
               else if negb (is_dict data) then Returned false
               else py_in "status" data);;
   _ <- print_result ok "health" (status_detail status);;
   ret (failures + (if ok then 0 else 1))%nat)%io.

(** [urllib.parse.quote(s, safe=...)]: letters, digits, [_.-~] and
    the characters of [safe] are kept, every other byte becomes
    [%XX]. *)
Definition hex_digit (n : nat) : ascii :=
  ascii_of_nat (if (n <? 10)%nat then 48 + n else 55 + n).

Definition always_safe (c : ascii) : bool :=
  let n := nat_of_ascii c in
  ((65 <=? n) && (n <=? 90) || (97 <=? n) && (n <=? 122) ||
   (48 <=? n) && (n <=? 57))%nat ||
  is_substring (String c "") "_.-~".

Fixpoint quote (s safe : string) : string :=
  match s with
  | EmptyString => ""
  | String c s' =>
      if always_safe c || is_substring (String c "") safe
      then String c (quote s' safe)
      else let n := nat_of_ascii c in
           String "%" (String (hex_digit (n / 16)) (String (hex_digit (n mod 16))
             (quote s' safe)))
  end.

Definition test_arbgui (E : env) (base_url exchange symbol : string) : io nat :=
  let failures := 0%nat in
  let symbol_path := quote symbol "" in
  (failures <- check_object E
     (base_url ++ "/v1/orderbook/" ++ exchange ++ "/" ++ symbol_path ++ "/latest")
     "orderbook latest"
     ["exchange"; "symbol"; "timestamp"; "bids"; "asks"; "best_bid"; "best_ask";
      "mid_price"; "spread"] failures;;
   failures <- check_array E (base_url ++ "/v1/opportunities/latest")
     "opportunities latest" "opportunities keys"
     ["timestamp"; "base_symbol"; "buy_exchange"; "sell_exchange"; "buy_price";
      "sell_price"; "spread_bps"; "estimated_size_jpy"; "expected_profit_jpy"]
     failures;;
   failures <- check_object E (base_url ++ "/v1/portfolio") "portfolio"
     ["updated_at"; "total_value_jpy"; "exchanges"] failures;;
   ret failures)%io.

Definition orderbook_keys : list string :=
  ["exchange"; "symbol"; "timestamp"; "bids"; "asks"].

Definition opportunity_keys : list string :=
  ["symbol"; "buy_exchange"; "sell_exchange"; "buy_price"; "sell_price";
   "spread_jpy"; "spread_pct"; "timestamp"].

Definition test_openapi (E : env) (base_url exchange symbol : string) : io nat :=
  let failures := 0%nat in
  let symbol_qs := quote symbol "" in
  let symbol_path := quote symbol "" in
  (failures <- check_health E (base_url ++ "/api/v1/health") failures;;
   failures <- check_array E
     (base_url ++ "/api/v1/orderbooks?" ++ "exchange=" ++ quote exchange "/" ++
      "&symbol=" ++ symbol_qs ++ "&depth=5")
     "orderbooks list" "orderbooks keys" orderbook_keys failures;;
   failures <- check_object E
     (base_url ++ "/api/v1/orderbooks/" ++ quote exchange "/" ++ "/" ++
      symbol_path ++ "?depth=5")
     "orderbooks single" orderbook_keys failures;;
   failures <- check_array E (base_url ++ "/api/v1/orderbooks/history?limit=5")
     "orderbooks history" "orderbooks history keys" orderbook_keys failures;;
   failures <- check_array E (base_url ++ "/api/v1/opportunities")
     "opportunities" "opportunities keys" opportunity_keys failures;;
   failures <- check_array E (base_url ++ "/api/v1/opportunities/history?limit=5")
     "opportunities history" "opportunities history keys" opportunity_keys failures;;
   failures <- check_object E (base_url ++ "/api/v1/portfolio") "portfolio"
     ["balances"; "total_value_jpy"; "last_updated"] failures;;
   failures <- check_object E (base_url ++ "/api/v1/executions/summary")
     "executions summary"
     ["active_orders"; "recent_executions"; "total_trades"; "successful_trades";
      "failed_trades"; "total_profit_jpy"] failures;;
   failures <- check_array E (base_url ++ "/api/v1/executions/history?limit=5")
     "executions history" "executions history keys"
     ["id"; "opportunity"; "buy_order_id"; "sell_order_id"; "status";
      "created_at"; "one_sided_risk"] failures;;
   failures <- check_object E (base_url ++ "/api/v1/stats") "stats"
     ["total_orderbooks"; "orderbook_history_size"; "current_opportunities";
      "opportunity_history_size"; "active_orders"; "execution_history_size";
      "total_trades"; "successful_trades"; "failed_trades"; "total_profit_jpy"]
     failures;;
   failures <- check_object E (base_url ++ "/api/v1/data/all") "data all"
     ["orderbooks"; "opportunities"; "execution_summary"; "timestamp"] failures;;
   ret failures)%io.

(** [s.rstrip("/")]. *)
Fixpoint rstrip_slash (s : string) : string :=
  match s with
  | EmptyString => ""
  | String c s' =>
      match rstrip_slash s' with
      | EmptyString => if Ascii.eqb c "/" then "" else String c ""
      | rest => String c rest
      end
  end.

Definition newline : string := String (ascii_of_nat 10) "".

(** The parsed command line. *)
Record args : Type := Args {
  base_url : string;
  mode : string;
  exchange : string;
  symbol : string
}.

Definition default_args : args := Args "http://0.0.0.0:8000" "arbgui" "bitbank" "XRP/JPY".

Definition main (E : env) (a : args) : io Z :=
  (failures <- (if String.eqb (mode a) "arbgui"
                then test_arbgui E (rstrip_slash (base_url a)) (exchange a) (symbol a)
                else test_openapi E (rstrip_slash (base_url a)) (exchange a) (symbol a));;
   if negb (failures =? 0)%nat then
     _ <- print (newline ++ "FAILED: " ++ pretty failures ++ " check(s) failed.");;
     ret 1
   else
     _ <- print (newline ++ "SUCCESS: all checks passed.");;
     ret 0)%io.

(** [sys.exit(main())]: the exit status and what was printed.  An
    exception that reaches the top level ends the process with
    status 1. *)
Definition script (E : env) (a : args) : Z * list string :=
  match run (main E a) with
  | (Returned code, out) => (code, out)
  | (Raised _, out) => (1, out)
  end.

(** The number of checks a mode consists of. *)
Definition checks (m : string) : nat := if String.eqb m "arbgui" then 3 else 11.

(** Checks run one after the other on the failure counter, as both
    tests chain them. *)
Fixpoint run_checks (steps : list (nat -> io nat)) (failures : nat) : io nat :=
  match steps with
  | [] => ret failures
  | step :: rest => (failures <- step failures;; run_checks rest failures)%io
  end.

(** A printed line that reports a failed check. *)
Definition is_ng (line : string) : bool := is_prefix "[NG]" line.

(** A check that prints one line and counts a failure exactly when the
    line says [NG]. *)
Definition one_line (step : nat -> io nat) : Prop :=
  forall n out, exists line,
    step n out = (Returned (n + (if is_ng line then 1 else 0))%nat, (out ++ [line])%list).

(** A server whose opportunities endpoint refuses the connection and
    whose other endpoints answer 200 with an empty object. *)
Definition opportunities_down : env :=
  Env (fun url => if is_substring "/opportunities" url then Failure URLError
                  else Response 200 (Some "{}"))
      (fun _ => Some (JObj [])).

End CheckApi.

(** ** The part of [datetime] that [format_time_label] uses *)

Module Datetime.

(** An offset from UTC in microseconds; [tzinfo] is absent on a naive
    value. *)
Record t : Type := Make {
  year : Z; month : Z; day : Z;
  hour : Z; minute : Z; second : Z; microsecond : Z;
  tzinfo : option Z
}.

Definition is_leap (y : Z) : bool :=
  (y mod 4 =? 0) && (negb (y mod 100 =? 0) || (y mod 400 =? 0)).

Definition days_before_year (y : Z) : Z :=
  let p := y - 1 in p * 365 + p / 4 - p / 100 + p / 400.

Definition days_in_month (y m : Z) : Z :=
  if m =? 2 then (if is_leap y then 29 else 28)
  else if (m =? 4) || (m =? 6) || (m =? 9) || (m =? 11) then 30 else 31.

Definition days_before_month (y m : Z) : Z :=
  fold_right Z.add 0 (map (days_in_month y) (map Z.of_nat (seq 1 (Z.to_nat (m - 1))))).

(** The proleptic Gregorian ordinal: 1 is 0001-01-01. *)
Definition ymd2ord (y m d : Z) : Z :=
  days_before_year y + days_before_month y m + d.

(** The month of day [n] (counted from 0) of year [y], and the day in
    it. *)
Fixpoint month_of (y : Z) (n : Z) (m : Z) (fuel : nat) : Z * Z :=
  match fuel with
  | O => (m, n + 1)
  | S fuel' =>
      let len := days_in_month y m in
      if n <? len then (m, n + 1) else month_of y (n - len) (m + 1) fuel'
  end.

Definition ord2ymd (ordinal : Z) : Z * Z * Z :=
  let n := ordinal - 1 in
  let n400 := n / 146097 in
  let n := n mod 146097 in
  let n100 := n / 36524 in
  let n := n mod 36524 in
  let n4 := n / 1461 in
  let n := n mod 1461 in
  let n1 := n / 365 in
  let n := n mod 365 in
  let y := n400 * 400 + 1 + n100 * 100 + n4 * 4 + n1 in
  if (n1 =? 4) || (n100 =? 4) then (y - 1, 12, 31)
  else let '(m, d) := month_of y n 1 11 in (y, m, d).

Definition second_us : Z := 1000000.
Definition hour_us : Z := 3600 * second_us.
Definition day_us : Z := 24 * hour_us.

(** Microseconds since the start of day 0 (the day before
    0001-01-01), on the value's own clock. *)
Definition to_us (dt : t) : Z :=
  ymd2ord (year dt) (month dt) (day dt) * day_us +
  hour dt * hour_us + minute dt * 60 * second_us + second dt * second_us +
  microsecond dt.

Definition of_us (us : Z) (tz : option Z) : t :=
  let '(y, m, d) := ord2ymd (us / day_us) in
  let r := us mod day_us in
  Make y m d (r / hour_us) (r mod hour_us / (60 * second_us))
       (r mod (60 * second_us) / second_us) (r mod second_us) tz.

Definition MAXORDINAL : Z := 3652059.

(** [dt + timedelta(microseconds=delta)]: [OverflowError] outside
    years 1 to 9999. *)
Definition add (dt : t) (delta : Z) : outcome t :=
  let us := to_us dt + delta in
  let days := us / day_us in
  if (0 <? days) && (days <=? MAXORDINAL) then Returned (of_us us (tzinfo dt))
  else Raised OverflowError.

(** [dt.replace(tzinfo=tz)]. *)
Definition replace_tzinfo (dt : t) (tz : option Z) : t :=
  Make (year dt) (month dt) (day dt) (hour dt) (minute dt) (second dt)
       (microsecond dt) tz.

(** [dt.astimezone(tz)] for an aware [dt] and a fixed-offset [tz]
    that is another object than [dt.tzinfo]: the value is moved to
    UTC, then [tz.fromutc] adds the new offset. *)
Definition astimezone (dt : t) (tz : Z) : outcome t :=
  (utc <- add dt (- default 0 (tzinfo dt));;
   local <- add (replace_tzinfo utc (Some tz)) tz;;
   Returned local)%outcome.

Definition pad (width : nat) (n : Z) : string :=
  let digits := pretty n in
  Py.repeat_zero (width - String.length digits) ++ digits.

(** [dt.strftime("%Y-%m-%d %H:%M:%S")] and [dt.strftime("%H:%M:%S")].
    The year is written with four digits. *)
Definition strftime (dt : t) (with_date : bool) : string :=
  let clock := pad 2 (hour dt) ++ ":" ++ pad 2 (minute dt) ++ ":" ++ pad 2 (second dt) in
  if with_date
  then pad 4 (year dt) ++ "-" ++ pad 2 (month dt) ++ "-" ++ pad 2 (day dt) ++ " " ++ clock
  else clock.

(** A parser for the timestamps written [YYYY-MM-DD],
    [YYYY-MM-DD*HH:MM:SS] and [YYYY-MM-DD*HH:MM:SS+HH:MM] (or
    [-HH:MM]), where [*] is any character.  [datetime.fromisoformat]
    reads these strings this way in every version that has it; it
    also reads other strings, which this parser rejects. *)
Definition digit (c : ascii) : option Z :=
  let n := nat_of_ascii c in
  if ((48 <=? n) && (n <=? 57))%nat then Some (Z.of_nat (n - 48)) else None.

Fixpoint digits (cs : list ascii) (acc : Z) : option Z :=
  match cs with
  | [] => Some acc
  | c :: rest => match digit c with
                 | Some d => digits rest (10 * acc + d)
                 | None => None
                 end
  end.

Definition field (cs : list ascii) (start len : nat) : option Z :=
  let part := firstn len (skipn start cs) in
  if (length part =? len)%nat then digits part 0 else None.

Definition mark (cs : list ascii) (i : nat) (c : ascii) : option unit :=
  match nth_error cs i with
  | Some d => if Ascii.eqb c d then Some tt else None
  | None => None
  end.

Definition between (lo x hi : Z) : option unit :=
  if (lo <=? x) && (x <=? hi) then Some tt else None.

Definition parse_date (cs : list ascii) : option (Z * Z * Z) :=
  y ← field cs 0 4; _ ← mark cs 4 "-"; m ← field cs 5 2; _ ← mark cs 7 "-";
  d ← field cs 8 2;
  _ ← between 1 y 9999; _ ← between 1 m 12; _ ← between 1 d (days_in_month y m);
  Some (y, m, d).

Definition parse_clock (cs : list ascii) : option (Z * Z * Z) :=
  h ← field cs 11 2; _ ← mark cs 13 ":"; mi ← field cs 14 2; _ ← mark cs 16 ":";
  s ← field cs 17 2;
  _ ← between 0 h 23; _ ← between 0 mi 59; _ ← between 0 s 59;
  Some (h, mi, s).

Definition parse_offset (cs : list ascii) : option Z :=
  sign ← match nth_error cs 19 with
         | Some "+"%char => Some 1
         | Some "-"%char => Some (-1)
         | _ => None
         end;
  h ← field cs 20 2; _ ← mark cs 22 ":"; mi ← field cs 23 2;
  _ ← between 0 h 23; _ ← between 0 mi 59;
  Some (sign * (h * hour_us + mi * 60 * second_us)).

Definition fromisoformat_basic (s : string) : outcome t :=
  let cs := list_ascii_of_string s in
  let parsed :=
    '(y, m, d) ← parse_date cs;
    match length cs with
    | 10%nat => Some (Make y m d 0 0 0 0 None)
    | 19%nat => '(h, mi, sec) ← parse_clock cs; Some (Make y m d h mi sec 0 None)
    | 25%nat => '(h, mi, sec) ← parse_clock cs; offset ← parse_offset cs;
                Some (Make y m d h mi sec 0 (Some offset))
    | _ => None
    end in
  match parsed with
  | Some dt => Returned dt
  | None => Raised ValueError
  end.

End Datetime.

(** ** [streamlit_app.py] *)

Module StreamlitApp.
Import Net.

(** *** API helpers *)

(** [request_json]: the request is built before the [try], so the
    [ValueError] of [Request] reaches the caller; inside the [try] an
    [HTTPError] keeps its code, a [URLError] or a [ValueError] gives
    status 0, and the body is [None] in both cases. *)
Definition request_json (E : env) (url : string) : outcome (Z * json) :=
  (_ <- request E url;;
   catch (attempt E url) (fun exc =>
     match exc with
     | HTTPError code _ => Some (Returned (code, JNull))
     | URLError | ValueError => Some (Returned (0, JNull))
     | _ => None
     end))%outcome.

Definition normalize_base_url (api_base_url : string) : string :=
  CheckApi.rstrip_slash api_base_url.

(** [fetch_orderbook]: [None] unless the answer is a 200 with an
    object. *)
Definition fetch_orderbook (E : env) (api_base_url exchange symbol : string)
    (depth : Z) : outcome json :=
  let base := normalize_base_url api_base_url in
  let symbol_path := CheckApi.quote symbol "" in
  let url := base ++ "/api/v1/orderbooks/" ++ CheckApi.quote exchange "/" ++ "/" ++
             symbol_path ++ "?depth=" ++ pretty depth in
  (response <- request_json E url;;
   let '(status, data) := response in
   if negb (status =? 200) || negb (is_dict data) then Returned JNull
   else Returned data)%outcome.

(** [fetch_opportunities]; [params] is the query string that
    [urllib.parse.urlencode] makes of the two thresholds. *)
Definition fetch_opportunities (E : env) (api_base_url params : string)
    : outcome json :=
  let base := normalize_base_url api_base_url in
  let url := base ++ "/api/v1/opportunities?" ++ params in
  (response <- request_json E url;;
   let '(status, data) := response in
   if negb (status =? 200) || negb (is_list data) then Returned (JArr [])
   else Returned data)%outcome.

Definition fetch_portfolio (E : env) (api_base_url : string) : outcome json :=
  let base := normalize_base_url api_base_url in
  let url := base ++ "/api/v1/portfolio" in
  (response <- request_json E url;;
   let '(status, data) := response in
   if negb (status =? 200) || negb (is_dict data) then Returned JNull
   else Returned data)%outcome.

(** *** Data mapping helpers *)

(** [s.replace("Z", "+00:00")]: every occurrence is replaced. *)
Fixpoint replace_Z (s : string) : string :=
  match s with
  | EmptyString => ""
  | String c s' =>
      if Ascii.eqb c "Z" then "+00:00" ++ replace_Z s' else String c (replace_Z s')
  end.

Section Library.

(** [datetime.fromisoformat], whose grammar depends on the
    interpreter's version, and [repr] for the values whose text is
    not spelled out below. *)
Variable fromisoformat : string -> outcome Datetime.t.
Variable repr : json -> string.

(** [str(x)]. *)
Definition str (x : json) : string :=
  match x with
  | JStr s => s
  | JNull => "None"
  | JBool true => "True"
  | JBool false => "False"
  | JInt z => pretty z
  | _ => repr x
  end.

Definition JST : Z := 9 * Datetime.hour_us.

(** [if dt.tzinfo is None: dt = dt.replace(tzinfo=timezone.utc)] *)
Definition aware (dt : Datetime.t) : Datetime.t :=
  match Datetime.tzinfo dt with
  | None => Datetime.replace_tzinfo dt (Some 0)
  | Some _ => dt
  end.

(** [format_time_label]: the [try] block, and the handler that
    only [ValueError] enters. *)
Definition format_time_label (timestamp : string) (with_date : bool) : outcome string :=
  catch
    (let ts := replace_Z timestamp in
     dt <- fromisoformat ts;;
     let dt := aware dt in
     dt <- Datetime.astimezone dt JST;;
     Returned (Datetime.strftime dt with_date))%outcome
    (fun exc => match exc with
                | ValueError => Some (Returned timestamp)
                | _ => None
                end).

Definition placeholder : json := JStr "—".

(** The derived metrics of lines 220 to 231, one definition per
    conditional expression. *)

(** [min(buy_amount, sell_amount) if buy_amount and sell_amount else None] *)
Definition min_available (buy_amount sell_amount : json) : outcome json :=
  if truthy buy_amount && truthy sell_amount
  then Py.min buy_amount sell_amount
  else Returned JNull.

(** [round(spread_pct * 100, 2) if isinstance(spread_pct, (int, float)) else None] *)
Definition spread_bps (spread_pct : json) : outcome json :=
  if is_number spread_pct
  then (product <- mul spread_pct (JInt 100);; round product 2)%outcome
  else Returned JNull.

(** [round(min_amount * min(buy_price, sell_price), 0)
     if min_amount and buy_price and sell_price else None] *)
Definition estimated_size_jpy (min_amount buy_price sell_price : json) : outcome json :=
  if truthy min_amount && truthy buy_price && truthy sell_price
  then (price <- Py.min buy_price sell_price;;
        product <- mul min_amount price;;
        round product 0)%outcome
  else Returned JNull.

(** [round(spread_jpy * min_amount, 2) if min_amount and spread_jpy else None] *)
Definition expected_profit_jpy (spread_jpy min_amount : json) : outcome json :=
  if truthy min_amount && truthy spread_jpy
  then (product <- mul spread_jpy min_amount;; round product 2)%outcome
  else Returned JNull.

(** [int(est_size_jpy) if isinstance(est_size_jpy, (int, float)) else "—"] *)
Definition size_cell (est_size_jpy : json) : outcome json :=
  if is_number est_size_jpy then int est_size_jpy else Returned placeholder.

(** [expected_profit_jpy if expected_profit_jpy is not None else "—"] *)
Definition profit_cell (expected_profit_jpy : json) : json :=
  match expected_profit_jpy with
  | JNull => placeholder
  | v => v
  end.

(** One iteration of the loop of [build_opportunity_rows]: the row
    appended for the dictionary [opp]. *)
Definition opportunity_row_of (opp : dict) : outcome dict :=
  let buy_amount := get opp "buy_available_amount" in
  let sell_amount := get opp "sell_available_amount" in
  (min_amount <- min_available buy_amount sell_amount;;
   let buy_price := get opp "buy_price" in
   let sell_price := get opp "sell_price" in
   let spread_pct := get opp "spread_pct" in
   spread_bps <- spread_bps spread_pct;;
   let spread_jpy := get opp "spread_jpy" in
   est_size_jpy <- estimated_size_jpy min_amount buy_price sell_price;;
   expected_profit_jpy <- expected_profit_jpy spread_jpy min_amount;;
   label <- format_time_label (str (get_default opp "timestamp" (JStr ""))) false;;
   size <- size_cell est_size_jpy;;
   Returned
     [("時刻", JStr label);
      ("通貨", get_default opp "symbol" (JStr ""));
      ("買い取引所", get_default opp "buy_exchange" (JStr ""));
      ("売り取引所", get_default opp "sell_exchange" (JStr ""));
      ("買値", buy_price);
      ("売値", sell_price);
      ("スプレッド(bps)", spread_bps);
      ("スプレッド(円)", spread_jpy);
      ("想定サイズ", size);
      ("推定利益", profit_cell expected_profit_jpy);
      ("_buy_exchange", get opp "buy_exchange");
      ("_sell_exchange", get opp "sell_exchange");
      ("_buy_price", buy_price);
      ("_sell_price", sell_price)])%outcome.

(** The inputs of the derived metrics that the code multiplies and
    compares: a record is well typed when each is absent ([None]) or
    a number. *)
Definition absent_or_number (x : json) : bool := is_none x || is_number x.

Definition numeric_fields : list string :=
  ["buy_available_amount"; "sell_available_amount"; "buy_price"; "sell_price";
   "spread_jpy"].

Definition well_typed (opp : dict) : Prop :=
  Forall (fun k => absent_or_number (get opp k) = true) numeric_fields.

(** A derived metric is absent or a number, never another value. *)
Definition metric (v : json) : Prop := v = JNull \/ is_number v = true.

(** The label of a record's time stamp. *)
Definition label_of (opp : dict) : outcome string :=
  format_time_label (str (get_default opp "timestamp" (JStr ""))) false.

(** [opp.get] exists on a [dict] only. *)
Definition opportunity_row (opp : json) : outcome dict :=
  match opp with
  | JObj fields => opportunity_row_of fields
  | _ => Raised AttributeError
  end.

(** [build_opportunity_rows]: the rows in the order of the input;
    an exception in one iteration ends the call. *)
Fixpoint build_opportunity_rows (opportunities : list json) : outcome (list dict) :=
  match opportunities with
  | [] => Returned []
  | opp :: rest =>
      (row <- opportunity_row opp;;
       rows <- build_opportunity_rows rest;;
       Returned (row :: rows))%outcome
  end.

End Library.

(** A record whose available amount arrives as a string, as APIs that
    keep decimals exact send it. *)
Definition stringly : json :=
  JObj [("symbol", JStr "XRP/JPY"); ("buy_available_amount", JStr "1000");
        ("sell_available_amount", JInt 1500)].

(** *** The highlighted level of [render_orderbook_table] *)

(** [abs(level.get("price", 0) - highlight_price)]. *)
Definition distance (highlight_price : json) (level : dict) : outcome json :=
  (difference <- sub (get_default level "price" (JInt 0)) highlight_price;;
   Py.abs difference)%outcome.

(** [min(range(len(levels)), key=...)] from index [i] on, with the
    best index and key so far: a later index wins only with a
    strictly smaller key. *)
Fixpoint min_index_from (key : dict -> outcome json) (levels : list dict)
    (i best : nat) (best_key : json) : outcome nat :=
  match levels with
  | [] => Returned best
  | level :: rest =>
      (k <- key level;;
       smaller <- lt k best_key;;
       if smaller then min_index_from key rest (S i) i k
       else min_index_from key rest (S i) best best_key)%outcome
  end.

(** The key of [level] is a number of value [q]. *)
Definition keyed (key : dict -> outcome json) (level : dict) (q : Q) : Prop :=
  exists d, key level = Returned d /\ valued d q.

Definition min_index (key : dict -> outcome json) (levels : list dict) : outcome nat :=
  match levels with
  | [] => Raised ValueError
  | level :: rest =>
      (k <- key level;; min_index_from key rest 1 0 k)%outcome
  end.

(** What lines 383 to 387 compute for one side of the book: no index
    when the price is [None] or there is no level. *)
Definition nearest_level (levels : list dict) (highlight_price : json)
    : outcome (option nat) :=
  if negb (is_none highlight_price) && negb (CheckApi.is_empty levels)
  then (i <- min_index (distance highlight_price) levels;; Returned (Some i))%outcome
  else Returned None.

(** A level of the given price. *)
Definition level_at (price : Z) : dict := [("price", JInt price)].

(** [ask_hit_idx] and [bid_hit_idx] for the asks (best first in the
    order book, shown reversed), the bids and the highlight. *)
Definition hit_indices (asks_best_first bids : list dict) (highlight : option dict)
    : outcome (option nat * option nat) :=
  let asks := rev asks_best_first in
  let given := match highlight with
               | Some h => truthy (JObj h)
               | None => false
               end in
  let highlight_role := match highlight with
                        | Some h => if given then get h "role" else JNull
                        | None => JNull
                        end in
  let highlight_price := match highlight with
                         | Some h => if given then get h "price" else JNull
                         | None => JNull
                         end in
  if negb (is_none highlight_price) then
    (ask_hit_idx <- (if Py.eq highlight_role (JStr "buy") && negb (CheckApi.is_empty asks)
                     then i <- min_index (distance highlight_price) asks;;
                          Returned (Some i)
                     else Returned None);;
     bid_hit_idx <- (if Py.eq highlight_role (JStr "sell") && negb (CheckApi.is_empty bids)
                     then i <- min_index (distance highlight_price) bids;;
                          Returned (Some i)
                     else Returned None);;
     Returned (ask_hit_idx, bid_hit_idx))%outcome
  else Returned (None, None).

(** *** [build_portfolio_positions] *)

(** The row appended for the balance of [currency] at [ex]. *)
Definition position (ex currency : string) (balance : dict) : dict :=
  [("取引所", JStr ex);
   ("通貨", JStr currency);
   ("数量", get_default balance "total" (JFloat 0));
   ("価格(JPY)", get balance "price_jpy");
   ("評価額(JPY)", get balance "value_jpy")].

(** The inner loop, over the items of one exchange: a balance that is
    not a [dict] is passed over. *)
Fixpoint exchange_positions (ex : string) (ex_balances : dict) (positions : list dict)
    : list dict :=
  match ex_balances with
  | [] => positions
  | (currency, balance) :: rest =>
      match balance with
      | JObj fields =>
          exchange_positions ex rest (positions ++ [position ex currency fields])%list
      | _ => exchange_positions ex rest positions
      end
  end.

(** The outer loop, over the items of [balances]. *)
Fixpoint balances_positions (balances : dict) (positions : list dict) : list dict :=
  match balances with
  | [] => positions
  | (ex, ex_balances) :: rest =>
      match ex_balances with
      | JObj fields => balances_positions rest (exchange_positions ex fields positions)
      | _ => balances_positions rest positions
      end
  end.

(** [portfolio.get] and [balances.items] exist on a [dict] only. *)
Definition build_portfolio_positions (portfolio : json) : outcome (list dict) :=
  match portfolio with
  | JObj fields =>
      match get_default fields "balances" (JObj []) with
      | JObj balances => Returned (balances_positions balances [])
      | _ => Raised AttributeError
      end
  | _ => Raised AttributeError
  end.

(** *** The order book tab of [main] *)

(** [d[key] = v]: the value of a present key is replaced where it
    stands, a new key goes last. *)
Fixpoint setitem (d : dict) (key : string) (v : json) : dict :=
  match d with
  | [] => [(key, v)]
  | (k, x) :: rest =>
      if String.eqb k key then (k, v) :: rest else (k, x) :: setitem rest key v
  end.

(** [{**d, **items}]. *)
Definition update (d items : dict) : dict :=
  fold_left (fun acc item => setitem acc item.1 item.2) items d.

(** Line 539: [{"row": selected_idx, **top_opps[selected_idx]}]. *)
Definition highlight_state (selected_idx : nat) (row : dict) : dict :=
  update [("row", JInt (Z.of_nat selected_idx))] row.

(** Lines 558 to 564: the highlight handed to the table of exchange
    [ex], from the state [h_state] of the symbol. *)
Definition highlight (ex : string) (h_state : dict) : option dict :=
  if truthy (JObj h_state) then
    if Py.eq (JStr ex) (get h_state "買い取引所")
    then Some [("role", JStr "buy"); ("price", get h_state "買値")]
    else if Py.eq (JStr ex) (get h_state "売り取引所")
    then Some [("role", JStr "sell"); ("price", get h_state "売値")]
    else None
  else None.

(** *** The rows of [render_orderbook_table] *)

Section Table.
Variable repr : json -> string.

(** The row of an ask and of a bid; [{lvl.get('amount','')}] in an
    f-string is the [str] of the value. *)
Definition ask_row (is_hit : bool) (lvl : dict) : string :=
  let hit_class := if is_hit then " highlight" else "" in
  "<tr class='red-row" ++ hit_class ++ "'>" ++
  "<td class='cell amount red left col-amount'>" ++
    str repr (get_default lvl "amount" (JStr "")) ++ "</td>" ++
  "<td class='cell price red center col-price'>" ++
    str repr (get_default lvl "price" (JStr "")) ++ "</td>" ++
  "<td class='cell amount spacer col-amount'>&nbsp;</td>" ++
  "</tr>".

Definition bid_row (is_hit : bool) (lvl : dict) : string :=
  let hit_class := if is_hit then " highlight" else "" in
  "<tr class='green-row" ++ hit_class ++ "'>" ++
  "<td class='cell amount spacer col-amount'>&nbsp;</td>" ++
  "<td class='cell price green center col-price'>" ++
    str repr (get_default lvl "price" (JStr "")) ++ "</td>" ++
  "<td class='cell amount green right col-amount'>" ++
    str repr (get_default lvl "amount" (JStr "")) ++ "</td>" ++
  "</tr>".

(** The loop shared by [build_ask_rows] and [build_bid_rows]:
    [idx = len(rows)],
    [is_hit = hit_idx is not None and idx == hit_idx]. *)
Fixpoint build_rows (row : bool -> dict -> string) (hit_idx : option nat)
    (levels : list dict) (rows : list string) : list string :=
  match levels with
  | [] => rows
  | lvl :: rest =>
      let idx := length rows in
      let is_hit := match hit_idx with
                    | Some i => (idx =? i)%nat
                    | None => false
                    end in
      build_rows row hit_idx rest (rows ++ [row is_hit lvl])%list
  end.

Definition build_ask_rows (ask_hit_idx : option nat) (levels : list dict) : string :=
  CheckApi.join "" (build_rows ask_row ask_hit_idx levels []).

Definition build_bid_rows (bid_hit_idx : option nat) (levels : list dict) : string :=
  CheckApi.join "" (build_rows bid_row bid_hit_idx levels []).

End Table.

(** [f"{ex}:{sym}"] *)
Definition ob_key (ex sym : string) : string := ex ++ ":" ++ sym.

Section Orderbooks.
Context {W : Type}.

(** Lines 541 to 551: the loop over the selected exchanges that
    collects the order books to show.  [fetch ex] is the call
    [fetch_orderbook(api_base_url, ex, sym, depth=5)] as a computation
    on the world [W]. *)
Fixpoint available (fetch : string -> W -> json * W) (sym : string) (refresh_tick : Z)
    (exchanges : list string) (found : list (string * json))
    (c : RefreshCache.t json) (w : W)
    : outcome (list (string * json)) * RefreshCache.t json * W :=
  match exchanges with
  | [] => (Returned found, c, w)
  | ex :: rest =>
      let '(ob, c', w') :=
        RefreshCache.get_or_compute (ob_key ex sym) refresh_tick (fetch ex) c w in
      match ob with
      | Returned ob =>
          available fetch sym refresh_tick rest
            (if truthy ob then (found ++ [(ex, ob)])%list else found) c' w'
      | Raised e => (Raised e, c', w')
      end
  end.

(** The order books the session holds for a symbol at the given
    exchanges, those that are not [None] or empty. *)
Definition cached_books (c : RefreshCache.t json) (sym : string) (exchanges : list string)
    : list (string * json) :=
  omap (fun ex => match RefreshCache.cache c !! ob_key ex sym with
                  | Some ob => if truthy ob then Some (ex, ob) else None
                  | None => None
                  end) exchanges.

End Orderbooks.

Section Opportunities.
Variable fromisoformat : string -> outcome Datetime.t.
Variable repr : json -> string.

(** Line 520: [[opp for opp in all_opps if opp.get("symbol") == sym]]. *)
Fixpoint filtered (sym : string) (all_opps : list json) : outcome (list json) :=
  match all_opps with
  | [] => Returned []
  | opp :: rest =>
      match opp with
      | JObj fields =>
          (selected <- filtered sym rest;;
           Returned (if Py.eq (get fields "symbol") (JStr sym)
                     then opp :: selected else selected))%outcome
      | _ => Raised AttributeError
      end
  end.

(** The condition of the comprehension on one record. *)
Definition matches (sym : string) (opp : json) : bool :=
  match opp with
  | JObj fields => Py.eq (get fields "symbol") (JStr sym)
  | _ => false
  end.

(** Lines 520 and 521: the rows cached under [sym],
    [build_opportunity_rows(filtered)[:5]]. *)
Definition top_opps (sym : string) (all_opps : list json) : outcome (list dict) :=
  (selected <- filtered sym all_opps;;
   rows <- build_opportunity_rows fromisoformat repr selected;;
   Returned (take 5 rows))%outcome.

End Opportunities.

End StreamlitApp.

(** ** What the contract checker asks of an endpoint *)

Module Contract.
Import IO Net CheckApi.

(** The keys of a dictionary. *)
Definition keys (d : dict) : list string := d.*1.

(** The endpoint answers 200 with an object that has every required
    key. *)
Definition answers_object (E : env) (url : string) (required : list string) : Prop :=
  exists d, fetch_json E url = Returned (200, JObj d) /\
            forall k, k ∈ required -> k ∈ keys d.

(** The endpoint answers 200 with an array that is empty or whose
    first element is an object that has every required key. *)
Definition answers_array (E : env) (url : string) (required : list string) : Prop :=
  exists items, fetch_json E url = Returned (200, JArr items) /\
    match items with
    | [] => True
    | first :: _ => exists d, first = JObj d /\ forall k, k ∈ required -> k ∈ keys d
    end.

(** A check that passes, leaving the count of failures as it is and
    printing one line, exactly when [ok] holds, and otherwise counts
    one failure after printing one line or raises. *)
Definition decides (step : nat -> io nat) (ok : Prop) : Prop :=
  forall n out,
    (ok /\ exists line, step n out = (Returned n, (out ++ [line])%list)) \/
    (~ ok /\ ((exists line, step n out = (Returned (S n), (out ++ [line])%list)) \/
              (exists e out', step n out = (Raised e, out')))).

(** A URL of the scheme [http] or [https], for which [Request] builds
    a request; and an environment that raises the error of [Request]
    on no such URL. *)
Definition http_url (url : string) : bool :=
  is_prefix "http:" url || is_prefix "https:" url.

Definition builds_http_requests (E : env) : Prop :=
  forall url, http_url url = true -> urlopen E url <> UnknownUrlType.

(** The strings among the elements of a list. *)
Definition strings (items : list json) : list string :=
  omap (fun x => match x with JStr s => Some s | _ => None end) items.

(** Sample servers: one that is reachable and answers every request
    with 503 and an HTML page; one that serves the legacy contract
    (an empty list of opportunities, and an object with the keys of
    the order book and of the portfolio elsewhere); one that serves
    the OpenAPI contract the same way.  The text of an answer is the
    URL, from which [json_loads] picks the body. *)
Definition unavailable : env :=
  Env (fun _ => Failure (HTTPError 503 (Some (Some "<html>")))) (fun _ => None).

Definition with_keys (names : list string) : json :=
  JObj (map (fun k => (k, JNull)) names).

Definition legacy_server : env :=
  Env (fun url => Response 200 (Some url))
      (fun url => Some (if is_substring "/opportunities" url then JArr []
                        else with_keys ["exchange"; "symbol"; "timestamp"; "bids"; "asks";
                                        "best_bid"; "best_ask"; "mid_price"; "spread";
                                        "updated_at"; "total_value_jpy"; "exchanges"])).

Definition openapi_server : env :=
  Env (fun url => Response 200 (Some url))
      (fun url => Some (if is_substring "/history" url || is_substring "/orderbooks?" url
                           || is_substring "/opportunities" url
                        then JArr []
                        else with_keys ["status"; "exchange"; "symbol"; "timestamp";
                                        "bids"; "asks"; "balances"; "total_value_jpy";
                                        "last_updated"; "active_orders";
                                        "recent_executions"; "total_trades";
                                        "successful_trades"; "failed_trades";
                                        "total_profit_jpy"; "total_orderbooks";
                                        "orderbook_history_size"; "current_opportunities";
                                        "opportunity_history_size";
                                        "execution_history_size"; "orderbooks";
                                        "opportunities"; "execution_summary"])).

End Contract.

(** ** Strings *)

Module Text.

(** The last character of a string. *)
Fixpoint last_char (s : string) : option ascii :=
  match s with
  | EmptyString => None
  | String c EmptyString => Some c
  | String _ s' => last_char s'
  end.

(** The characters of a string. *)
Definition chars (s : string) : list ascii := list_ascii_of_string s.

End Text.


(** * Properties *)

(** ** The refresh cache *)

Module CacheProps.
Import RefreshCache.

Section Facts.
Context {V W : Type}.
Implicit Types (c : RefreshCache.t V) (key : string) (g : Z) (f : W -> V * W).

Lemma stale_true c key g : cache_ver c !! key ≠ Some g -> stale c key g = true.
Proof. intros H. unfold stale. by apply bool_decide_eq_true. Qed.

Lemma stale_false c key g : cache_ver c !! key = Some g -> stale c key g = false.
Proof. intros H. unfold stale. apply bool_decide_eq_false. auto. Qed.

Lemma refresh_miss key g f c (w : W) :
  cache_ver c !! key ≠ Some g ->
  refresh key g f c w = (store c key g (f w).1, (f w).2).
Proof. intros H. unfold refresh. rewrite stale_true by done. by destruct (f w). Qed.

Lemma refresh_hit key g f c (w : W) :
  cache_ver c !! key = Some g -> refresh key g f c w = (c, w).
Proof. intros H. unfold refresh. by rewrite stale_false. Qed.

Lemma store_fresh c key g v : cache_ver (store c key g v) !! key = Some g.
Proof. apply lookup_insert_eq. Qed.

Lemma store_value c key g v : cache (store c key g v) !! key = Some v.
Proof. apply lookup_insert_eq. Qed.

(** The invariant of the session: it holds on a new session and every
    refresh keeps it. *)
Lemma consistent_initial : consistent (@initial V).
Proof. intros key [x Hx]. simpl in Hx. by rewrite lookup_empty in Hx. Qed.

Lemma consistent_store c key g v : consistent c -> consistent (store c key g v).
Proof.
  intros Hc k. unfold store; simpl.
  destruct (decide (key = k)) as [->|Hne].
  - rewrite !lookup_insert_eq. eauto.
  - rewrite !lookup_insert_ne by done. apply Hc.
Qed.

Lemma consistent_refresh key g f c (w : W) :
  consistent c -> consistent (refresh key g f c w).1.
Proof.
  intros Hc. unfold refresh. destruct (stale c key g); [|done].
  destruct (f w). by apply consistent_store.
Qed.

Lemma miss_stale c key g : consistent c -> miss c key g -> cache_ver c !! key ≠ Some g.
Proof.
  intros Hc [Hnone|Hne]; [|done].
  intros Hver. destruct (Hc key) as [v Hv]; [by rewrite Hver|]. congruence.
Qed.

Lemma get_or_compute_miss key g f c (w : W) :
  cache_ver c !! key ≠ Some g ->
  get_or_compute key g f c w = (Returned (f w).1, store c key g (f w).1, (f w).2).
Proof.
  intros H. unfold get_or_compute. rewrite refresh_miss by done.
  by rewrite store_value.
Qed.

Lemma get_or_compute_hit key g f c (w : W) v :
  cache_ver c !! key = Some g -> cache c !! key = Some v ->
  get_or_compute key g f c w = (Returned v, c, w).
Proof.
  intros H Hv. unfold get_or_compute. rewrite refresh_hit by done. by rewrite Hv.
Qed.

Lemma get_or_compute_default_miss d key g f c (w : W) :
  cache_ver c !! key ≠ Some g ->
  get_or_compute_default d key g f c w = ((f w).1, store c key g (f w).1, (f w).2).
Proof.
  intros H. unfold get_or_compute_default. rewrite refresh_miss by done.
  by rewrite store_value.
Qed.

Lemma get_or_compute_default_hit d key g f c (w : W) v :
  cache_ver c !! key = Some g -> cache c !! key = Some v ->
  get_or_compute_default d key g f c w = (v, c, w).
Proof.
  intros H Hv. unfold get_or_compute_default. rewrite refresh_hit by done. by rewrite Hv.
Qed.

Lemma logged_run key f (w : W) log :
  logged key f (w, log) = ((f w).1, ((f w).2, (log ++ [key])%list)).
Proof. unfold logged. by destruct (f w). Qed.

Lemma refresh_other key g f c (w : W) other :
  other ≠ key ->
  cache (refresh key g f c w).1 !! other = cache c !! other /\
  cache_ver (refresh key g f c w).1 !! other = cache_ver c !! other.
Proof.
  intros Hne. unfold refresh. destruct (stale c key g); [|done].
  destruct (f w) as [v w']. simpl. by rewrite !lookup_insert_ne.
Qed.

Lemma refresh_logged key g f c (w : W) (log : list string) :
  exists ran, (refresh key g (logged key f) c (w, log)).2.2 = (log ++ ran)%list /\
              (ran = [] \/ ran = [key]).
Proof.
  unfold refresh. destruct (stale c key g).
  - rewrite logged_run. exists [key]. auto.
  - exists []. simpl. rewrite app_nil_r. auto.
Qed.

End Facts.

(** C1.  On a consistent session, a call for [key] at [generation]
    whose entry is absent or of another generation runs [computeFn]
    (its key is appended to the log once), stores the result and the
    generation under [key] and returns the result, with either way of
    reading the value; the same call repeated returns the same value
    with session, world and log unchanged, so two calls run
    [computeFn] once, and a call at another generation runs it again.
    When the entry is of this generation, the stored value is returned
    whatever computation is passed, and session, world and log stay as
    they were. *)
Theorem get_or_compute_generation {V W} (key : string) (generation : Z)
    (computeFn : W -> V * W) (c : RefreshCache.t V) (w : W) (log : list string) :
  consistent c ->
  let v := (computeFn w).1 in
  let w' := ((computeFn w).2, (log ++ [key])%list) in
  let c' := store c key generation v in
  (miss c key generation ->
     get_or_compute key generation (logged key computeFn) c (w, log) = (Returned v, c', w') /\
     get_or_compute_default v key generation (logged key computeFn) c (w, log) = (v, c', w') /\
     cache c' !! key = Some v /\ cache_ver c' !! key = Some generation /\
     get_or_compute key generation (logged key computeFn) c' w' = (Returned v, c', w') /\
     (forall generation', generation' ≠ generation ->
        get_or_compute key generation' (logged key computeFn) c' w' =
          (Returned (computeFn w'.1).1, store c' key generation' (computeFn w'.1).1,
           ((computeFn w'.1).2, (log ++ [key; key])%list)))) /\
  (~ miss c key generation ->
     exists stored, cache c !! key = Some stored /\
       forall (other : W * list string -> V * (W * list string)) default,
         get_or_compute key generation other c (w, log) = (Returned stored, c, (w, log)) /\
         get_or_compute_default default key generation other c (w, log)
           = (stored, c, (w, log))).
Proof.
  intros Hc v w' c'. split.
  - intros Hmiss. pose proof (miss_stale _ _ _ Hc Hmiss) as Hst.
    assert (Hv : cache c' !! key = Some v) by apply store_value.
    assert (Hg : cache_ver c' !! key = Some generation) by apply store_fresh.
    repeat split; try done.
    + rewrite get_or_compute_miss by done. by rewrite logged_run.
    + rewrite get_or_compute_default_miss by done. by rewrite logged_run.
    + by apply get_or_compute_hit.
    + intros g' Hne. rewrite get_or_compute_miss by (rewrite Hg; congruence).
      subst w'. rewrite logged_run. simpl. by rewrite <- app_assoc.
  - intros Hhit.
    assert (Hver : cache_ver c !! key = Some generation).
    { destruct (decide (cache_ver c !! key = Some generation)) as [|Hne]; [done|].
      exfalso. apply Hhit. by right. }
    destruct (Hc key) as [stored Hs]; [by rewrite Hver|].
    exists stored. split; [done|]. intros other default. split.
    + by apply get_or_compute_hit.
    + by apply get_or_compute_default_hit.
Qed.

Lemma get_or_compute_generation_witness :
  consistent (@initial Z) /\
  get_or_compute "bitbank:XRP/JPY" 1 (logged "bitbank:XRP/JPY" (fun w : nat => (7, S w)))
    initial (0%nat, [])
  = (Returned 7, store initial "bitbank:XRP/JPY" 1 7, (1%nat, ["bitbank:XRP/JPY"])).
Proof.
  split; [apply consistent_initial|].
  apply (get_or_compute_generation "bitbank:XRP/JPY" 1 (fun w : nat => (7, S w))
           initial 0%nat [] consistent_initial).
  left. apply lookup_empty.
Defined.

(** C9.  A call for [key] leaves the value and the generation stored
    under every other key as they were, with either way of reading the
    value, and the only computation it can run is the one of [key]:
    the log grows by nothing or by [key], never by another key. *)
Theorem get_or_compute_frame {V W} (computeFn : string -> W -> V * W)
    (key other : string) (generation : Z) (c : RefreshCache.t V) (w : W)
    (log : list string) (default : V) :
  other ≠ key ->
  let r := get_or_compute key generation (logged key (computeFn key)) c (w, log) in
  let r' := get_or_compute_default default key generation
              (logged key (computeFn key)) c (w, log) in
  cache r.1.2 !! other = cache c !! other /\
  cache_ver r.1.2 !! other = cache_ver c !! other /\
  r'.1.2 = r.1.2 /\ r'.2 = r.2 /\
  exists ran, r.2.2 = (log ++ ran)%list /\ (ran = [] \/ ran = [key]) /\ other ∉ ran.
Proof.
  intros Hne r r'. subst r r'. unfold get_or_compute, get_or_compute_default.
  pose proof (refresh_other key generation (logged key (computeFn key)) c (w, log) other Hne)
    as [Hc Hv].
  pose proof (refresh_logged key generation (computeFn key) c w log) as (ran & Hran & Hcase).
  destruct (refresh key generation (logged key (computeFn key)) c (w, log)) as [c' w'].
  simpl in *. repeat (split; [done|]).
  exists ran. split; [done|]. split; [done|].
  destruct Hcase as [-> | ->].
  - apply not_elem_of_nil.
  - intros Hin%list_elem_of_singleton. done.
Qed.

Lemma get_or_compute_frame_witness :
  "zaif:XRP/JPY" ≠ "bitbank:XRP/JPY" /\
  cache_ver (get_or_compute "bitbank:XRP/JPY" 1
               (logged "bitbank:XRP/JPY" (fun w : nat => (7, S w)))
               (store initial "zaif:XRP/JPY" 1 5) (0%nat, [])).1.2 !! "zaif:XRP/JPY"
    = Some 1.
Proof.
  split; [discriminate|].
  pose proof (get_or_compute_frame (fun (_ : string) (w : nat) => (7, S w))
                "bitbank:XRP/JPY" "zaif:XRP/JPY" 1 (store initial "zaif:XRP/JPY" 1 5)
                0%nat [] 0) as H.
  destruct H as (_ & H & _); [discriminate|].
  etransitivity; [exact H|]. apply lookup_insert_eq.
Defined.

End CacheProps.

(** ** The contract validator *)

Module ValidatorProps.
Import CheckApi.

Lemma lookup_Some_key (d : dict) (k : string) :
  is_Some (Py.lookup d k) <-> k ∈ d.*1.
Proof.
  induction d as [|[k' v] d IH]; simpl.
  - split; [intros [? ?]; discriminate | intros H; inversion H].
  - destruct (String.eqb k' k) eqn:E.
    + apply String.eqb_eq in E as ->. split; [intros _; left | eauto].
    + apply String.eqb_neq in E. rewrite IH. split.
      * intros H. by right.
      * intros H. inversion H; subst; [congruence | done].
Qed.

Lemma contains_true (d : dict) (k : string) : contains d k = true <-> k ∈ d.*1.
Proof.
  rewrite <- lookup_Some_key. unfold contains.
  destruct (Py.lookup d k); split; try done; eauto.
Qed.

Lemma contains_false (d : dict) (k : string) : contains d k = false <-> k ∉ d.*1.
Proof.
  rewrite <- contains_true. destruct (contains d k); split; try done.
Qed.

Lemma ensure_keys_dict (d : dict) (keys : list string) :
  ensure_keys (JObj d) keys = Returned (filter (λ k, k ∉ d.*1) keys).
Proof.
  induction keys as [|k keys IH]; [done|].
  simpl. rewrite IH. simpl. rewrite filter_cons.
  destruct (contains d k) eqn:E.
  - apply contains_true in E. by rewrite decide_False by auto.
  - apply contains_false in E. by rewrite decide_True.
Qed.

Lemma missing_keys_dict (d : dict) (keys : list string) :
  missing_keys (JObj d) keys = ensure_keys (JObj d) keys.
Proof. done. Qed.

Lemma missing_keys_returns (document : json) (required : list string) :
  returns (missing_keys document required).
Proof.
  unfold missing_keys. destruct document; simpl; try (by eexists).
  rewrite ensure_keys_dict. by eexists.
Qed.

(** C3.  On a mapping, [ensure_keys] (and so the validator) returns the
    required keys that are not keys of the document, in the order of the
    required list: the result is that list filtered, a subsequence of
    it, whose members are exactly the required keys absent from the
    document, and it is the same for every reordering of the document.
    The two examples of the specification evaluate as stated.  The
    function is pure: it returns a value and changes nothing. *)
Theorem ensure_keys_subsequence (document : dict) (required_keys : list string) :
  let missing := filter (λ k, k ∉ document.*1) required_keys in
  ensure_keys (JObj document) required_keys = Returned missing /\
  missing_keys (JObj document) required_keys = Returned missing /\
  sublist missing required_keys /\
  (forall k, k ∈ missing <-> k ∈ required_keys /\ k ∉ document.*1) /\
  (forall reordered, document ≡ₚ reordered ->
     ensure_keys (JObj reordered) required_keys = Returned missing) /\
  ensure_keys (JObj []) ["a"; "b"] = Returned ["a"; "b"] /\
  ensure_keys (JObj [("a", JInt 1)]) ["a"; "b"] = Returned ["b"].
Proof.
  intros missing.
  assert (Hmem : forall k, k ∈ missing <-> k ∈ required_keys /\ k ∉ document.*1).
  { intros k. unfold missing. rewrite list_elem_of_filter. tauto. }
  split; [apply ensure_keys_dict|].
  split; [rewrite missing_keys_dict; apply ensure_keys_dict|].
  split; [apply sublist_filter|].
  split; [exact Hmem|].
  split; [|split; reflexivity].
  intros reordered Hp. rewrite ensure_keys_dict. f_equal.
  apply list_filter_iff. intros k. by rewrite Hp.
Qed.

(** C7 as the specification states it fails: [ensure_keys] on a value
    that is not a mapping does not report every required key as
    missing.  [in] searches a list or a string, where a required key
    can be found, and fails on [None]. *)
Example ensure_keys_unguarded :
  ensure_keys (JArr [JStr "exchange"]) ["exchange"; "symbol"] = Returned ["symbol"] /\
  ensure_keys (JStr "exchange rate") ["exchange"; "symbol"] = Returned ["symbol"] /\
  ensure_keys JNull ["exchange"; "symbol"] = Raised TypeError.
Proof. repeat split. Qed.

End ValidatorProps.

(** ** The derived metrics *)

Module MetricProps.
Import StreamlitApp.

Lemma Qltb_lt (p q : Q) : Qltb p q = true <-> (p < q)%Q.
Proof.
  unfold Qltb. rewrite Qlt_alt. destruct (p ?= q)%Q; split; congruence.
Qed.

Lemma Qltb_ge (p q : Q) : Qltb p q = false <-> (q <= p)%Q.
Proof.
  rewrite <- not_true_iff_false, Qltb_lt. split.
  - apply Qnot_lt_le.
  - apply Qle_not_lt.
Qed.

Lemma Qis_zero_eq (q : Q) : Qis_zero q = true <-> (q == 0)%Q.
Proof. unfold Qis_zero, Qeq. simpl. rewrite Z.eqb_eq. lia. Qed.

Lemma truthy_number (x : json) (p : Q) :
  as_number x = Some p -> truthy x = false <-> (p == 0)%Q.
Proof.
  destruct x as [|b|z|q| | |]; simpl; intros H; inversion H; subst; clear H.
  - destruct b; split; done.
  - rewrite negb_false_iff, Z.eqb_eq. unfold Qeq, inject_Z. simpl. lia.
  - rewrite negb_false_iff. apply Qis_zero_eq.
Qed.

Lemma lt_numbers (a b : json) (p q : Q) :
  as_number a = Some p -> as_number b = Some q ->
  Py.lt a b = Returned (Qltb p q).
Proof.
  intros Ha Hb.
  destruct a; try discriminate Ha; destruct b; try discriminate Hb;
    simpl in *; congruence.
Qed.

Lemma min_numbers (a b : json) (p q : Q) :
  as_number a = Some p -> as_number b = Some q ->
  Py.min a b = Returned (if Qltb q p then b else a).
Proof. intros Ha Hb. unfold Py.min. by rewrite (lt_numbers b a q p). Qed.

Lemma lt_valued (a b : json) (p q : Q) :
  valued a p -> valued b q -> Py.lt a b = Returned (Qltb p q).
Proof.
  intros (p' & Ha & Hp) (q' & Hb & Hq). rewrite (lt_numbers a b p' q') by done.
  f_equal. unfold Qltb. by rewrite Hp, Hq.
Qed.

Lemma as_int_number (x : json) (z : Z) :
  as_int x = Some z -> as_number x = Some (inject_Z z).
Proof. destruct x as [|[]| | | | |]; simpl; intros H; inversion H; done. Qed.

(** C4.  For two amounts that are numbers other than zero,
    [min_available] returns one of the two, of value the smaller of
    their values.  When an amount is [None], or a number of value zero,
    it returns [None], which is not a number and does not equal [0].
    The three examples of the specification evaluate as stated. *)
Theorem min_available_both_or_none (buy_amount sell_amount : json) :
  (forall p q,
     as_number buy_amount = Some p -> as_number sell_amount = Some q ->
     ~ (p == 0)%Q -> ~ (q == 0)%Q ->
     exists m r,
       min_available buy_amount sell_amount = Returned m /\
       (m = buy_amount \/ m = sell_amount) /\
       as_number m = Some r /\ (r == Qmin p q)%Q) /\
  (buy_amount = JNull \/ sell_amount = JNull \/
   (exists p, as_number buy_amount = Some p /\ (p == 0)%Q) \/
   (exists q, as_number sell_amount = Some q /\ (q == 0)%Q) ->
   min_available buy_amount sell_amount = Returned JNull /\
   is_number JNull = false /\ Py.eq JNull (JInt 0) = false) /\
  min_available (JInt 3) (JInt 0) = Returned JNull /\
  min_available (JInt 3) (JInt 5) = Returned (JInt 3) /\
  min_available JNull (JInt 5) = Returned JNull.
Proof.
  split; [|split; [|repeat split]].
  - intros p q Hp Hq Hp0 Hq0. unfold min_available.
    assert (truthy buy_amount = true) as ->.
    { apply not_false_iff_true. by rewrite (truthy_number _ p). }
    assert (truthy sell_amount = true) as ->.
    { apply not_false_iff_true. by rewrite (truthy_number _ q). }
    simpl. rewrite (min_numbers _ _ p q) by done.
    destruct (Qltb q p) eqn:E.
    + exists sell_amount, q. repeat split; auto.
      apply Qltb_lt in E. symmetry. apply Q.min_r. by apply Qlt_le_weak.
    + exists buy_amount, p. repeat split; auto.
      apply Qltb_ge in E. symmetry. by apply Q.min_l.
  - intros H. split; [|done]. unfold min_available.
    assert (truthy buy_amount = false \/ truthy sell_amount = false) as [-> | ->].
    { destruct H as [-> | [-> | [(p & Hp & H0) | (q & Hq & H0)]]]; auto.
      - left. by apply (truthy_number _ p).
      - right. by apply (truthy_number _ q). }
    + done.
    + by rewrite andb_false_r.
Qed.

Lemma distance_valued (highlight_price : json) (level : dict) (t p : Q) :
  as_number highlight_price = Some t ->
  as_number (get_default level "price" (JInt 0)) = Some p ->
  exists d, distance highlight_price level = Returned d /\ valued d (Qabs (p - t)).
Proof.
  intros Ht Hp. unfold distance, sub, arith.
  remember (Qabs (p - t)) as target eqn:Et.
  destruct (as_int (get_default level "price" (JInt 0))) as [x|] eqn:Ex;
    [destruct (as_int highlight_price) as [y|] eqn:Ey|].
  - simpl. eexists. split; [reflexivity|].
    apply as_int_number in Ex, Ey. rewrite Ex in Hp. rewrite Ey in Ht.
    inversion Hp; inversion Ht; subst.
    exists (inject_Z (Z.abs (x - y))). split; [reflexivity|].
    change (inject_Z (Z.abs (x - y))) with (Qabs (inject_Z (x - y))).
    apply Qabs_wd. unfold Z.sub. rewrite inject_Z_plus, inject_Z_opp. reflexivity.
  - rewrite Hp, Ht. simpl. eexists. split; [reflexivity|].
    eexists. split; [reflexivity|]. subst target. reflexivity.
  - rewrite Hp, Ht. simpl. eexists. split; [reflexivity|].
    eexists. split; [reflexivity|]. subst target. reflexivity.
Qed.

Section MinIndex.
Variable key : dict -> outcome json.

(** The loop invariant of [min]: the answer is the best index so far,
    no later key being smaller, or the first later index whose key is
    the smallest of all. *)
Lemma min_index_from_first (rest : list dict) (qs : list Q) :
  Forall2 (keyed key) rest qs ->
  forall (i best : nat) (best_key : json) (qb : Q),
    valued best_key qb ->
    exists r, min_index_from key rest i best best_key = Returned r /\
      ((r = best /\ forall j e, qs !! j = Some e -> (qb <= e)%Q) \/
       (exists k q, r = (i + k)%nat /\ qs !! k = Some q /\ (q < qb)%Q /\
          (forall j e, qs !! j = Some e -> (q <= e)%Q) /\
          (forall j e, (j < k)%nat -> qs !! j = Some e -> (q < e)%Q))).
Proof.
  induction 1 as [|level q0 rest qs (d & Hd & Hv) _ IH]; intros i best bk qb Hb.
  - eexists. split; [reflexivity|]. left. split; [done|]. intros j e H. done.
  - simpl. rewrite Hd. simpl. rewrite (lt_valued d bk q0 qb) by done. simpl.
    destruct (Qltb q0 qb) eqn:E.
    + apply Qltb_lt in E.
      destruct (IH (S i) i d q0 Hv)
        as (r & Hr & [[-> Hmin] | (k & q & -> & Hk & Hlt & Hmin & Hfirst)]).
      * exists i. split; [done|]. right. exists 0%nat, q0.
        repeat split; auto; try lia.
        intros [|j] e He; simpl in He; [inversion He; apply Qle_refl | eauto].
      * eexists. split; [exact Hr|]. right. exists (S k), q.
        repeat split; auto; try lia.
        -- by apply Qlt_trans with q0.
        -- intros [|j] e He; simpl in He;
             [inversion He; subst; by apply Qlt_le_weak | eauto].
        -- intros [|j] e Hj He; simpl in He;
             [inversion He; by subst | apply (Hfirst j); [lia|done]].
    + apply Qltb_ge in E.
      destruct (IH (S i) best bk qb Hb)
        as (r & Hr & [[-> Hmin] | (k & q & -> & Hk & Hlt & Hmin & Hfirst)]).
      * exists best. split; [done|]. left. split; [done|].
        intros [|j] e He; simpl in He; [inversion He; by subst | eauto].
      * eexists. split; [exact Hr|]. right. exists (S k), q.
        repeat split; auto; try lia.
        -- intros [|j] e He; simpl in He; [inversion He; subst | eauto].
           apply Qlt_le_weak. by apply Qlt_le_trans with qb.
        -- intros [|j] e Hj He; simpl in He;
             [inversion He; subst | apply (Hfirst j); [lia|done]].
           by apply Qlt_le_trans with qb.
Qed.

Lemma min_index_first (levels : list dict) (qs : list Q) :
  Forall2 (keyed key) levels qs -> levels <> [] ->
  exists i q, min_index key levels = Returned i /\ qs !! i = Some q /\
    (forall j e, qs !! j = Some e -> (q <= e)%Q) /\
    (forall j e, (j < i)%nat -> qs !! j = Some e -> (q < e)%Q).
Proof.
  intros H Hne. destruct H as [|level q0 rest qs (d & Hd & Hv) Hrest]; [done|].
  simpl. rewrite Hd. simpl.
  destruct (min_index_from_first rest qs Hrest 1%nat 0%nat d q0 Hv)
    as (r & Hr & [[-> Hmin] | (k & q & -> & Hk & Hlt & Hmin & Hfirst)]).
  - exists 0%nat, q0. repeat split; auto.
    + intros [|j] e He; simpl in He; [inversion He; apply Qle_refl | eauto].
    + intros j e Hj. lia.
  - exists (S k), q. repeat split; auto.
    + intros [|j] e He; simpl in He;
        [inversion He; subst; by apply Qlt_le_weak | eauto].
    + intros [|j] e Hj He; simpl in He;
        [inversion He; by subst | apply (Hfirst j); [lia|done]].
Qed.

End MinIndex.

(** C5.  For levels whose prices are numbers (an absent price counts
    as 0) and a target that is a number, [nearest_level] on a
    non-empty list returns an index of the list whose distance to the
    target is at most the distance of every level and strictly below
    the distance of every level before it, that is the lowest index of
    minimal distance.  On an empty list, or when the target is
    [None], it returns no index.  The two examples of the
    specification evaluate as stated. *)
Theorem nearest_level_first_minimum (levels : list dict) (highlight_price : json) :
  (forall (t : Q) (prices : list Q),
     as_number highlight_price = Some t ->
     Forall2 (fun level p => as_number (get_default level "price" (JInt 0)) = Some p)
             levels prices ->
     levels <> [] ->
     exists i p,
       nearest_level levels highlight_price = Returned (Some i) /\
       prices !! i = Some p /\
       (forall j e, prices !! j = Some e -> (Qabs (p - t) <= Qabs (e - t))%Q) /\
       (forall j e, (j < i)%nat -> prices !! j = Some e ->
                    (Qabs (p - t) < Qabs (e - t))%Q)) /\
  nearest_level [] highlight_price = Returned None /\
  nearest_level levels JNull = Returned None /\
  nearest_level [level_at 100; level_at 105; level_at 110] (JInt 106)
    = Returned (Some 1%nat) /\
  nearest_level [level_at 100; level_at 110] (JInt 105) = Returned (Some 0%nat).
Proof.
  split; [|split; [|split; [|split; reflexivity]]].
  - intros t prices Ht Hp Hne.
    assert (Hk : Forall2 (keyed (distance highlight_price)) levels
                         ((fun p => Qabs (p - t)) <$> prices)).
    { clear Hne. induction Hp as [|level p levels prices Hl _ IH]; [constructor|].
      simpl. constructor; [|done].
      destruct (distance_valued highlight_price level t p Ht Hl) as (d & Hd & Hv).
      by exists d. }
    destruct (min_index_first _ _ _ Hk Hne) as (i & q & Hi & Hq & Hmin & Hfirst).
    apply list_lookup_fmap_Some_1 in Hq as (p & -> & Hpi).
    exists i, p. split.
    + unfold nearest_level. rewrite Hi.
      destruct highlight_price; try discriminate Ht; by destruct levels.
    + split; [done|]. split.
      * intros j e He. apply (Hmin j). by rewrite list_lookup_fmap, He.
      * intros j e Hj He. apply (Hfirst j); [done|]. by rewrite list_lookup_fmap, He.
  - unfold nearest_level. simpl. by rewrite andb_false_r.
  - reflexivity.
Qed.

Lemma nearest_level_first_minimum_witness :
  exists i p,
    nearest_level [level_at 100; level_at 110; []] (JFloat 105.0) = Returned (Some i) /\
    [inject_Z 100; inject_Z 110; inject_Z 0] !! i = Some p /\
    (forall j e, [inject_Z 100; inject_Z 110; inject_Z 0] !! j = Some e ->
                 (Qabs (p - 105.0) <= Qabs (e - 105.0))%Q) /\
    (forall j e, (j < i)%nat -> [inject_Z 100; inject_Z 110; inject_Z 0] !! j = Some e ->
                 (Qabs (p - 105.0) < Qabs (e - 105.0))%Q).
Proof.
  apply (proj1 (nearest_level_first_minimum [level_at 100; level_at 110; []]
                  (JFloat 105.0)) 105.0%Q [inject_Z 100; inject_Z 110; inject_Z 0]).
  - reflexivity.
  - repeat constructor.
  - discriminate.
Defined.

(** The highlighted rows of the order book are the nearest levels of
    the side the highlight names: the asks, reversed, for a buy and the
    bids for a sell. *)
Lemma hit_indices_nearest (asks bids : list dict) (highlight : dict) :
  highlight <> [] ->
  (Py.eq (get highlight "role") (JStr "buy") = true ->
   hit_indices asks bids (Some highlight) =
     (i <- nearest_level (rev asks) (get highlight "price");; Returned (i, None))%outcome) /\
  (Py.eq (get highlight "role") (JStr "sell") = true ->
   hit_indices asks bids (Some highlight) =
     (i <- nearest_level bids (get highlight "price");; Returned (None, i))%outcome).
Proof.
  intros Hne. destruct highlight as [|item highlight]; [done|].
  unfold hit_indices, nearest_level. cbn [truthy].
  split; intros Hrole.
  - assert (Py.eq (get (item :: highlight) "role") (JStr "sell") = false) as ->.
    { destruct (get (item :: highlight) "role"); try discriminate Hrole.
      simpl in *. apply String.eqb_eq in Hrole as ->. reflexivity. }
    rewrite Hrole. destruct (is_none _); simpl; [done|].
    destruct (CheckApi.is_empty (rev asks)); simpl; [done|].
    by destruct (min_index _ _).
  - assert (Py.eq (get (item :: highlight) "role") (JStr "buy") = false) as ->.
    { destruct (get (item :: highlight) "role"); try discriminate Hrole.
      simpl in *. apply String.eqb_eq in Hrole as ->. reflexivity. }
    rewrite Hrole. destruct (is_none _); simpl; [done|].
    destruct (CheckApi.is_empty bids); simpl; [done|].
    by destruct (min_index _ _).
Qed.

End MetricProps.

(** ** The two fetchers *)

Module FetchProps.
Import Net CheckApi StreamlitApp.

Lemma attempt_failure (E : env) (url : string) (e : exn) :
  urlopen E url = Failure e -> attempt E url = Raised e.
Proof. intros H. unfold attempt. by rewrite H. Qed.

(** The request is built unless the URL is of an unknown type. *)
Lemma request_failure (E : env) (url : string) (e : exn) :
  urlopen E url = Failure e -> request E url = Returned tt.
Proof. intros H. unfold request. by rewrite H. Qed.

Lemma request_response (E : env) (url : string) (status : Z) (text : option string) :
  urlopen E url = Response status text -> request E url = Returned tt.
Proof. intros H. unfold request. by rewrite H. Qed.

(** Reading a response keeps its status and raises [ValueError]
    only. *)
Lemma read_response_status (E : env) (status s : Z) (text : option string) (d : json) :
  read_response E status text = Returned (s, d) -> s = status.
Proof.
  unfold read_response, decode, loads. destruct text as [body|]; simpl; [|congruence].
  destruct (String.eqb body ""); [congruence|].
  destruct (json_loads E body); simpl; congruence.
Qed.

Lemma read_response_raises (E : env) (status : Z) (text : option string) (e : exn) :
  read_response E status text = Raised e -> e = ValueError.
Proof.
  unfold read_response, decode, loads. destruct text as [body|]; simpl; [|congruence].
  destruct (String.eqb body ""); [discriminate|].
  destruct (json_loads E body); simpl; congruence.
Qed.

Lemma attempt_malformed (E : env) (url body : string) (status : Z) :
  urlopen E url = Response status (Some body) -> body <> "" ->
  json_loads E body = None -> attempt E url = Raised ValueError.
Proof.
  intros H Hne Hl. unfold attempt, read_response, loads. rewrite H. simpl.
  apply String.eqb_neq in Hne. by rewrite Hne, Hl.
Qed.

Lemma attempt_parsed (E : env) (url body : string) (status : Z) (data : json) :
  urlopen E url = Response status (Some body) -> body <> "" ->
  json_loads E body = Some data -> attempt E url = Returned (status, data).
Proof.
  intros H Hne Hl. unfold attempt, read_response, loads. rewrite H. simpl.
  apply String.eqb_neq in Hne. by rewrite Hne, Hl.
Qed.

(** X6.  Where [request_json] reports status 0: with body [None] on a
    [URLError] and on a [ValueError] (a body that is not UTF-8 or not
    JSON), and otherwise only when the server's answer or the
    [HTTPError] itself carries the status 0, which no HTTP exchange
    does. *)
Lemma request_json_status_zero (E : env) (url : string) (body : json) :
  request_json E url = Returned (0, body) ->
  (body = JNull /\
   (urlopen E url = Failure URLError \/ attempt E url = Raised ValueError)) \/
  (exists fp, urlopen E url = Failure (HTTPError 0 fp)) \/
  (exists text, urlopen E url = Response 0 text).
Proof.
  unfold request_json, request, attempt.
  destruct (urlopen E url) as [status text|e|]; cbn [Py.bind]; [| |discriminate].
  - unfold catch. destruct (read_response E status text) as [[s d]|e] eqn:Hr.
    + rewrite (read_response_status _ _ _ _ _ Hr). intros [= -> ->].
      right. right. by exists text.
    + rewrite (read_response_raises _ _ _ _ Hr). intros [= <-].
      left. split; [done|]. by right.
  - unfold catch. destruct e; try discriminate; intros Heq; inversion Heq; subst; clear Heq.
    + right. left. by eexists.
    + left. split; [done|]. by left.
    + left. split; [done|]. by right.
Qed.

(** C2.  When the connection fails with [URLError] (a name that does
    not resolve, a refused connection, a time-out while connecting), or
    the body of the answer is not JSON, [request_json] returns
    [(0, None)], whereas [fetch_json] raises the exception to its
    caller.  On a 200 answer with a JSON body both return the status
    200 and the parsed body. *)
Theorem fetch_json_raises_on_transport_failure (E : env) (url : string) :
  (urlopen E url = Failure URLError ->
     request_json E url = Returned (0, JNull) /\
     fetch_json E url = Raised URLError) /\
  (forall body status,
     urlopen E url = Response status (Some body) -> body <> "" ->
     json_loads E body = None ->
     request_json E url = Returned (0, JNull) /\
     fetch_json E url = Raised ValueError) /\
  (forall body data,
     urlopen E url = Response 200 (Some body) -> body <> "" ->
     json_loads E body = Some data ->
     request_json E url = Returned (200, data) /\
     fetch_json E url = Returned (200, data)).
Proof.
  split; [|split].
  - intros H. unfold request_json, fetch_json.
    by rewrite (request_failure E url URLError), (attempt_failure E url URLError).
  - intros body status H Hne Hl. unfold request_json, fetch_json.
    by rewrite (request_response E url status (Some body)),
         (attempt_malformed E url body status).
  - intros body data H Hne Hl. unfold request_json, fetch_json.
    by rewrite (request_response E url 200 (Some body)),
         (attempt_parsed E url body 200 data).
Qed.

Lemma request_json_status_zero_witness :
  (JNull = JNull /\
   (urlopen refusing "http://localhost:8000/api/v1/portfolio" = Failure URLError \/
    attempt refusing "http://localhost:8000/api/v1/portfolio" = Raised ValueError)) \/
  (exists fp, urlopen refusing "http://localhost:8000/api/v1/portfolio"
              = Failure (HTTPError 0 fp)) \/
  (exists text, urlopen refusing "http://localhost:8000/api/v1/portfolio"
                = Response 0 text).
Proof.
  apply (request_json_status_zero refusing "http://localhost:8000/api/v1/portfolio" JNull).
  reflexivity.
Defined.

Lemma fetch_json_raises_on_transport_failure_witness :
  request_json refusing "http://0.0.0.0:8000/v1/portfolio" = Returned (0, JNull) /\
  fetch_json refusing "http://0.0.0.0:8000/v1/portfolio" = Raised URLError.
Proof.
  apply (fetch_json_raises_on_transport_failure refusing "http://0.0.0.0:8000/v1/portfolio").
  reflexivity.
Defined.

(** X4.  When [urlopen] fails with [URLError] on the URL a fetcher of
    the dashboard asks for (the connection is refused), the fetcher
    degrades: [fetch_opportunities] returns the empty list, of which
    the table of opportunities is empty, and [fetch_orderbook] and
    [fetch_portfolio] return [None]; so they do at the base URL
    [http://localhost:8000] against a host that refuses every
    connection.  A URL that [Request] refuses is no such failure: its
    [ValueError] is raised before the [try] and leaves the fetcher. *)
Lemma dashboard_degrades (fromisoformat : string -> outcome Datetime.t)
    (repr : json -> string) (E : env) (api_base_url params exchange symbol : string)
    (depth : Z) :
  (urlopen E (normalize_base_url api_base_url ++ "/api/v1/opportunities?" ++ params)
     = Failure URLError ->
   fetch_opportunities E api_base_url params = Returned (JArr [])) /\
  (urlopen E (normalize_base_url api_base_url ++ "/api/v1/orderbooks/" ++
              quote exchange "/" ++ "/" ++ quote symbol "" ++ "?depth=" ++ pretty depth)
     = Failure URLError ->
   fetch_orderbook E api_base_url exchange symbol depth = Returned JNull) /\
  (urlopen E (normalize_base_url api_base_url ++ "/api/v1/portfolio") = Failure URLError ->
   fetch_portfolio E api_base_url = Returned JNull) /\
  build_opportunity_rows fromisoformat repr [] = Returned [] /\
  fetch_opportunities refusing "http://localhost:8000"
    "min_spread_pct=0.0&min_profit_jpy=0.0" = Returned (JArr []) /\
  fetch_orderbook refusing "http://localhost:8000" exchange symbol depth = Returned JNull /\
  fetch_portfolio refusing "http://localhost:8000" = Returned JNull /\
  (urlopen E (normalize_base_url api_base_url ++ "/api/v1/opportunities?" ++ params)
     = UnknownUrlType ->
   fetch_opportunities E api_base_url params = Raised ValueError) /\
  (urlopen E (normalize_base_url api_base_url ++ "/api/v1/orderbooks/" ++
              quote exchange "/" ++ "/" ++ quote symbol "" ++ "?depth=" ++ pretty depth)
     = UnknownUrlType ->
   fetch_orderbook E api_base_url exchange symbol depth = Raised ValueError) /\
  (urlopen E (normalize_base_url api_base_url ++ "/api/v1/portfolio") = UnknownUrlType ->
   fetch_portfolio E api_base_url = Raised ValueError).
Proof.
  unfold fetch_opportunities, fetch_orderbook, fetch_portfolio, request_json, request,
    attempt.
  repeat split; try (intros H; by rewrite H).
Qed.

End FetchProps.

(** ** The contract checker *)

Module RunProps.
Import IO Net CheckApi ValidatorProps.

Lemma print_result_line ok label detail out :
  exists line, print_result ok label detail out = (Returned tt, (out ++ [line])%list) /\
               is_ng line = negb ok.
Proof.
  unfold print_result, print. destruct (negb (String.eqb detail ""));
    eexists; (split; [reflexivity|]); by destruct ok.
Qed.

Lemma count_missing (missing : list string) :
  (if is_empty missing then 0 else 1)%nat = (if negb (is_empty missing) then 1 else 0)%nat.
Proof. by destruct missing. Qed.

(** The line of the [print_result] call in the goal. *)
Ltac printed_line line Hng :=
  match goal with
  | |- context [print_result ?ok ?label ?detail ?out] =>
      destruct (print_result_line ok label detail out) as (line & -> & Hng)
  end.

Section Answers.
Variable E : env.
Hypothesis fetched : forall url, returns (fetch_json E url).

Lemma check_object_one_line url label required :
  one_line (check_object E url label required).
Proof.
  intros n out. unfold check_object, IO.bind, lift.
  destruct (fetched url) as [[status data] ->].
  destruct (negb (status =? 200) || negb (is_dict data)) eqn:Hc.
  - printed_line line Hng. exists line. by rewrite Hng.
  - apply orb_false_iff in Hc as [_ Hd]. apply negb_false_iff in Hd.
    destruct data; try discriminate Hd. rewrite ensure_keys_dict.
    printed_line line Hng. exists line. by rewrite Hng, count_missing.
Qed.

Lemma check_array_one_line url label keys_label required :
  one_line (check_array E url label keys_label required).
Proof.
  intros n out. unfold check_array, IO.bind, lift.
  destruct (fetched url) as [[status data] ->].
  destruct (negb (status =? 200) || negb (ensure_list data)) eqn:Hc.
  - printed_line line Hng. exists line. by rewrite Hng.
  - apply orb_false_iff in Hc as [_ Hd]. apply negb_false_iff in Hd.
    destruct data as [| | | | |items|]; try discriminate Hd.
    destruct items as [|first items]; cbn -[print_result missing_keys is_ng].
    + printed_line line Hng. exists line. rewrite Hng. simpl. by rewrite Nat.add_0_r.
    + destruct (missing_keys_returns first required) as [missing ->].
      printed_line line Hng. exists line. by rewrite Hng, count_missing.
Qed.

Lemma check_health_one_line url : one_line (check_health E url).
Proof.
  intros n out. unfold check_health, IO.bind, lift.
  destruct (fetched url) as [[status data] ->].
  assert (exists ok, (if negb (status =? 200) then Returned false
                      else if negb (is_dict data) then Returned false
                      else py_in "status" data) = Returned ok) as [ok ->].
  { destruct (negb (status =? 200)); [by eexists|].
    destruct data; simpl; by eexists. }
  printed_line line Hng. exists line. rewrite Hng. by destruct ok.
Qed.

Lemma run_checks_lines (steps : list (nat -> io nat)) :
  Forall one_line steps ->
  forall n out, exists lines,
    run_checks steps n out =
      (Returned (n + length (filter (fun l => is_ng l = true) lines))%nat,
       (out ++ lines)%list) /\
    length lines = length steps.
Proof.
  induction 1 as [|step steps Hstep _ IH]; intros n out.
  - exists []. simpl. unfold ret. by rewrite Nat.add_0_r, app_nil_r.
  - simpl. unfold IO.bind. destruct (Hstep n out) as [line ->].
    destruct (IH (n + (if is_ng line then 1 else 0))%nat (out ++ [line])%list)
      as (lines & -> & Hlen).
    exists (line :: lines). split; [|simpl; by rewrite Hlen].
    rewrite <- app_assoc. simpl. f_equal. f_equal.
    rewrite filter_cons.
    case_decide as Hd; [rewrite Hd | apply not_true_is_false in Hd; rewrite Hd];
      simpl; lia.
Qed.

Lemma test_arbgui_lines base_url exchange symbol :
  exists steps, length steps = 3%nat /\ Forall one_line steps /\
    test_arbgui E base_url exchange symbol = run_checks steps 0.
Proof.
  eexists [_; _; _]. split; [done|]. split; [|reflexivity].
  repeat constructor;
    first [apply check_object_one_line | apply check_array_one_line].
Qed.

Lemma test_openapi_lines base_url exchange symbol :
  exists steps, length steps = 11%nat /\ Forall one_line steps /\
    test_openapi E base_url exchange symbol = run_checks steps 0.
Proof.
  eexists [_; _; _; _; _; _; _; _; _; _; _]. split; [done|]. split; [|reflexivity].
  repeat constructor;
    first [apply check_object_one_line | apply check_array_one_line
          | apply check_health_one_line].
Qed.

(** X1.  When every fetch returns, whatever its status and body, every
    check of the mode runs and prints its line, a summary line
    follows, and the exit status is 0 exactly when no line says
    [NG]. *)
Lemma main_runs_every_check (a : args) :
  exists lines summary,
    let failures := length (filter (fun l => is_ng l = true) lines) in
    length lines = checks (mode a) /\
    run (main E a) = (Returned (if (failures =? 0)%nat then 0 else 1),
                      (lines ++ [summary])%list) /\
    script E a = (if (failures =? 0)%nat then 0 else 1, (lines ++ [summary])%list).
Proof.
  assert (exists steps, length steps = checks (mode a) /\ Forall one_line steps /\
            (if String.eqb (mode a) "arbgui"
             then test_arbgui E (rstrip_slash (base_url a)) (exchange a) (symbol a)
             else test_openapi E (rstrip_slash (base_url a)) (exchange a) (symbol a))
            = run_checks steps 0) as (steps & Hlen & Hsteps & Heq).
  { unfold checks. destruct (String.eqb (mode a) "arbgui").
    - apply test_arbgui_lines.
    - apply test_openapi_lines. }
  destruct (run_checks_lines steps Hsteps 0%nat []) as (lines & Hrun & Hl).
  assert (Hmain : exists summary, run (main E a) =
    (Returned (if (length (filter (fun l => is_ng l = true) lines) =? 0)%nat then 0 else 1),
     (lines ++ [summary])%list)).
  { unfold run, main, IO.bind. rewrite Heq, Hrun. simpl.
    destruct (length (filter _ lines) =? 0)%nat; simpl; unfold print, ret; eauto. }
  destruct Hmain as [summary Hmain].
  exists lines, summary. simpl. split; [congruence|]. split; [done|].
  unfold script. by rewrite Hmain.
Qed.

End Answers.

Lemma answering_fetched (status : Z) (data : json) (url : string) :
  returns (fetch_json (answering status data) url).
Proof. by eexists. Qed.

(** A server that answers 200 with an empty object everywhere fails
    every check of the legacy contract, and all three checks run. *)
Lemma main_runs_every_check_witness :
  exists lines summary,
    length lines = 3%nat /\
    script (answering 200 (JObj [])) default_args = (1, (lines ++ [summary])%list).
Proof.
  destruct (main_runs_every_check (answering 200 (JObj []))
              (answering_fetched 200 (JObj [])) default_args)
    as (lines & summary & Hlen & _ & Hscript).
  exists lines, summary. split; [exact Hlen|].
  rewrite Hscript. f_equal.
  assert (Hrun : (script (answering 200 (JObj [])) default_args).1 = 1) by reflexivity.
  rewrite Hscript in Hrun. exact Hrun.
Defined.

(** C8.  Against a host that refuses every connection, [main] raises
    [URLError] in its first check: nothing is printed, no check after it
    runs, no failure is counted, and the process ends with status 1
    through the uncaught exception.  Against a server whose
    opportunities endpoint alone is down, the first check runs and
    prints its line, the second raises, and the third never runs. *)
Theorem main_aborts_when_fetch_raises (a : args) :
  run (main refusing a) = (Raised URLError, []) /\
  script refusing a = (1, []) /\
  run (main opportunities_down default_args) =
    (Raised URLError,
     ["[NG] orderbook latest keys: exchange,symbol,timestamp,bids,asks,best_bid,best_ask,mid_price,spread"]) /\
  script opportunities_down default_args =
    (1, ["[NG] orderbook latest keys: exchange,symbol,timestamp,bids,asks,best_bid,best_ask,mid_price,spread"]).
Proof.
  assert (H : run (main refusing a) = (Raised URLError, [])).
  { unfold run, main, IO.bind. destruct (String.eqb (mode a) "arbgui"); reflexivity. }
  split; [exact H|]. split; [unfold script; by rewrite H|].
  split; vm_compute; reflexivity.
Qed.

End RunProps.

(** ** Time labels and opportunity rows *)

Module RowProps.
Import StreamlitApp MetricProps.

Section Parser.
Variable fromisoformat : string -> outcome Datetime.t.
Variable repr : json -> string.

Lemma format_time_label_unparsed (timestamp : string) (with_date : bool) :
  fromisoformat (replace_Z timestamp) = Raised ValueError ->
  format_time_label fromisoformat timestamp with_date = Returned timestamp.
Proof. intros H. unfold format_time_label. by rewrite H. Qed.

Lemma format_time_label_parsed (timestamp : string) (with_date : bool) dt :
  fromisoformat (replace_Z timestamp) = Returned dt ->
  format_time_label fromisoformat timestamp with_date =
    match Datetime.astimezone (aware dt) JST with
    | Returned local => Returned (Datetime.strftime local with_date)
    | Raised ValueError => Returned timestamp
    | Raised e => Raised e
    end.
Proof.
  intros H. unfold format_time_label. rewrite H. cbn [Py.bind].
  destruct (Datetime.astimezone (aware dt) JST) as [local|[]]; reflexivity.
Qed.

Lemma add_outcome (dt : Datetime.t) (delta : Z) :
  (exists r, Datetime.add dt delta = Returned r) \/
  Datetime.add dt delta = Raised OverflowError.
Proof. unfold Datetime.add. destruct (_ && _); eauto. Qed.

Lemma astimezone_outcome (dt : Datetime.t) (tz : Z) :
  (exists r, Datetime.astimezone dt tz = Returned r) \/
  Datetime.astimezone dt tz = Raised OverflowError.
Proof.
  unfold Datetime.astimezone.
  destruct (add_outcome dt (- default 0 (Datetime.tzinfo dt))) as [[utc ->] | ->];
    simpl; [|by right].
  destruct (add_outcome (Datetime.replace_tzinfo utc (Some tz)) tz) as [[r ->] | ->];
    simpl; eauto.
Qed.

(** X3.  What [format_time_label] does when the parser raises nothing but
    [ValueError]: a time stamp that does not parse comes back
    unchanged, one that parses is converted and formatted, and the only
    exception left is the [OverflowError] of the conversion. *)
Lemma format_time_label_outcome (timestamp : string) (with_date : bool) :
  (forall e, fromisoformat (replace_Z timestamp) = Raised e -> e = ValueError) ->
  (fromisoformat (replace_Z timestamp) = Raised ValueError /\
   format_time_label fromisoformat timestamp with_date = Returned timestamp) \/
  (exists dt local,
     fromisoformat (replace_Z timestamp) = Returned dt /\
     Datetime.astimezone (aware dt) JST = Returned local /\
     format_time_label fromisoformat timestamp with_date
       = Returned (Datetime.strftime local with_date)) \/
  (exists dt,
     fromisoformat (replace_Z timestamp) = Returned dt /\
     Datetime.astimezone (aware dt) JST = Raised OverflowError /\
     format_time_label fromisoformat timestamp with_date = Raised OverflowError).
Proof.
  intros Hparse. destruct (fromisoformat (replace_Z timestamp)) as [dt|e] eqn:Hp.
  - right. rewrite (format_time_label_parsed timestamp with_date dt Hp).
    destruct (astimezone_outcome (aware dt) JST) as [[local Hl] | Ho].
    + left. exists dt, local. by rewrite Hl.
    + right. exists dt. by rewrite Ho.
  - left. rewrite (Hparse e eq_refl) in *. split; [done|].
    by apply format_time_label_unparsed.
Qed.

End Parser.

(** C10.  For every parser that reads ["9999-12-31T23:59:59+00:00"] as
    the last second of year 9999 in UTC, as [datetime.fromisoformat]
    does, [format_time_label] on ["9999-12-31T23:59:59Z"] raises
    [OverflowError], which its handler for [ValueError] does not catch,
    and [build_opportunity_rows] on a record with that time stamp
    raises it too. *)
Theorem format_time_label_overflow (fromisoformat : string -> outcome Datetime.t)
    (repr : json -> string) :
  fromisoformat "9999-12-31T23:59:59+00:00" =
    Returned (Datetime.Make 9999 12 31 23 59 59 0 (Some 0)) ->
  format_time_label fromisoformat "9999-12-31T23:59:59Z" false = Raised OverflowError /\
  build_opportunity_rows fromisoformat repr
    [JObj [("timestamp", JStr "9999-12-31T23:59:59Z")]] = Raised OverflowError.
Proof.
  intros H.
  assert (Hl : format_time_label fromisoformat "9999-12-31T23:59:59Z" false
               = Raised OverflowError).
  { rewrite (format_time_label_parsed fromisoformat "9999-12-31T23:59:59Z" false _ H).
    reflexivity. }
  split; [done|].
  unfold build_opportunity_rows, opportunity_row, opportunity_row_of.
  cbn -[format_time_label]. by rewrite Hl.
Qed.

Lemma format_time_label_overflow_witness :
  Datetime.fromisoformat_basic "9999-12-31T23:59:59+00:00" =
    Returned (Datetime.Make 9999 12 31 23 59 59 0 (Some 0)) /\
  format_time_label Datetime.fromisoformat_basic "9999-12-31T23:59:59Z" false
    = Raised OverflowError /\
  build_opportunity_rows Datetime.fromisoformat_basic (fun _ => "")
    [JObj [("timestamp", JStr "9999-12-31T23:59:59Z")]] = Raised OverflowError.
Proof.
  split; [reflexivity|].
  apply (format_time_label_overflow Datetime.fromisoformat_basic (fun _ => "")).
  reflexivity.
Defined.

(** Time stamps as the engine sends them, an empty one and the text of
    a missing one. *)
Example format_time_label_samples :
  format_time_label Datetime.fromisoformat_basic "2024-01-01T00:00:00Z" false
    = Returned "09:00:00" /\
  format_time_label Datetime.fromisoformat_basic "2024-12-31T18:30:05" true
    = Returned "2025-01-01 03:30:05" /\
  format_time_label Datetime.fromisoformat_basic "" false = Returned "" /\
  format_time_label Datetime.fromisoformat_basic "None" false = Returned "None".
Proof. repeat split. Qed.

(** *** Rows *)

Lemma is_number_value (x : json) : is_number x = true <-> exists p, as_number x = Some p.
Proof.
  unfold is_number. destruct (as_number x); split; eauto; try done.
  intros [? ?]; discriminate.
Qed.

Lemma min_number (a b : json) :
  is_number a = true -> is_number b = true ->
  exists m, Py.min a b = Returned m /\ (m = a \/ m = b) /\ is_number m = true.
Proof.
  intros Ha Hb. pose proof Ha as [p Hp]%is_number_value.
  pose proof Hb as [q Hq]%is_number_value.
  rewrite (min_numbers a b p q) by done. destruct (Qltb q p); eauto.
Qed.

Lemma mul_number (a b : json) :
  is_number a = true -> is_number b = true ->
  exists m, mul a b = Returned m /\ is_number m = true.
Proof.
  intros Ha Hb.
  destruct a as [|[]| | | | |]; try discriminate Ha;
    destruct b as [|[]| | | | |]; try discriminate Hb;
    eexists; (split; [reflexivity | reflexivity]).
Qed.

Lemma round_number (x : json) (ndigits : nat) :
  is_number x = true -> exists r, round x ndigits = Returned r /\ is_number r = true.
Proof.
  intros Hx. destruct x as [|[]| | | | |]; try discriminate Hx;
    eexists; (split; [reflexivity | reflexivity]).
Qed.

Lemma int_number (x : json) :
  is_number x = true -> exists r, int x = Returned r /\ is_number r = true.
Proof.
  intros Hx. destruct x as [|[]| | | | |]; try discriminate Hx;
    eexists; (split; [reflexivity | reflexivity]).
Qed.

Lemma truthy_number_input (x : json) :
  absent_or_number x = true -> truthy x = true -> is_number x = true.
Proof. unfold absent_or_number. destruct x; simpl; try done. Qed.

Lemma metric_truthy (v : json) : metric v -> truthy v = true -> is_number v = true.
Proof. intros [-> | H]; [done | done]. Qed.

Create HintDb numbers.
#[local] Hint Resolve truthy_number_input metric_truthy : numbers.

Lemma min_available_metric (buy_amount sell_amount : json) :
  absent_or_number buy_amount = true -> absent_or_number sell_amount = true ->
  exists m, min_available buy_amount sell_amount = Returned m /\ metric m /\
    (truthy buy_amount && truthy sell_amount = false -> m = JNull).
Proof.
  intros Hb Hs. unfold min_available.
  destruct (truthy buy_amount) eqn:Tb; [destruct (truthy sell_amount) eqn:Ts|]; simpl.
  - destruct (min_number buy_amount sell_amount) as (m & -> & _ & Hm);
      auto with numbers.
    exists m. split; [done|]. split; [by right | done].
  - exists JNull. split; [done|]. split; [by left | done].
  - exists JNull. split; [done|]. split; [by left | done].
Qed.

Lemma spread_bps_metric (spread_pct : json) :
  exists v, spread_bps spread_pct = Returned v /\ metric v /\
    (is_number spread_pct = false -> v = JNull).
Proof.
  unfold spread_bps. destruct (is_number spread_pct) eqn:Hn.
  - destruct (mul_number spread_pct (JInt 100)) as (m & -> & Hm); [done..|]. simpl.
    destruct (round_number m 2 Hm) as (r & -> & Hr).
    exists r. split; [done|]. split; [by right | done].
  - exists JNull. split; [done|]. split; [by left | done].
Qed.

Lemma estimated_size_jpy_metric (min_amount buy_price sell_price : json) :
  metric min_amount ->
  absent_or_number buy_price = true -> absent_or_number sell_price = true ->
  exists v, estimated_size_jpy min_amount buy_price sell_price = Returned v /\ metric v /\
    (truthy min_amount && truthy buy_price && truthy sell_price = false -> v = JNull).
Proof.
  intros Hm Hb Hs. unfold estimated_size_jpy.
  destruct (truthy min_amount && truthy buy_price && truthy sell_price) eqn:T.
  - apply andb_true_iff in T as [[Tm Tb]%andb_true_iff Ts].
    destruct (min_number buy_price sell_price) as (price & -> & _ & Hp);
      auto with numbers. simpl.
    destruct (mul_number min_amount price) as (product & -> & Hprod);
      auto with numbers. simpl.
    destruct (round_number product 0 Hprod) as (r & -> & Hr).
    exists r. split; [done|]. split; [by right | done].
  - exists JNull. split; [done|]. split; [by left | done].
Qed.

Lemma expected_profit_jpy_metric (spread_jpy min_amount : json) :
  metric min_amount -> absent_or_number spread_jpy = true ->
  exists v, expected_profit_jpy spread_jpy min_amount = Returned v /\ metric v /\
    (truthy min_amount && truthy spread_jpy = false -> v = JNull).
Proof.
  intros Hm Hs. unfold expected_profit_jpy.
  destruct (truthy min_amount && truthy spread_jpy) eqn:T.
  - apply andb_true_iff in T as [Tm Ts].
    destruct (mul_number spread_jpy min_amount) as (product & -> & Hprod);
      auto with numbers. simpl.
    destruct (round_number product 2 Hprod) as (r & -> & Hr).
    exists r. split; [done|]. split; [by right | done].
  - exists JNull. split; [done|]. split; [by left | done].
Qed.

Lemma size_cell_metric (est_size_jpy : json) :
  metric est_size_jpy ->
  exists cell, size_cell est_size_jpy = Returned cell /\
    (est_size_jpy = JNull -> cell = placeholder) /\
    (is_number est_size_jpy = true -> is_number cell = true).
Proof.
  intros [-> | Hn]; unfold size_cell.
  - exists placeholder. done.
  - rewrite Hn. destruct (int_number est_size_jpy Hn) as (r & -> & Hr).
    exists r. split; [done|]. split; [|done]. intros ->. discriminate.
Qed.

Section Rows.
Variable fromisoformat : string -> outcome Datetime.t.
Variable repr : json -> string.

Lemma well_typed_field (opp : dict) (k : string) :
  well_typed opp -> k ∈ numeric_fields -> absent_or_number (get opp k) = true.
Proof.
  intros H Hk. unfold well_typed in H. rewrite Forall_forall in H. by apply H.
Qed.

(** The row of a well-typed record whose time stamp gets a label: each
    derived cell is computed from its own inputs, and is a number or
    the placeholder. *)
Lemma opportunity_row_of_well_typed (opp : dict) (label : string) :
  well_typed opp -> label_of fromisoformat repr opp = Returned label ->
  exists min_amount bps est_size profit size,
    min_available (get opp "buy_available_amount") (get opp "sell_available_amount")
      = Returned min_amount /\
    spread_bps (get opp "spread_pct") = Returned bps /\
    estimated_size_jpy min_amount (get opp "buy_price") (get opp "sell_price")
      = Returned est_size /\
    expected_profit_jpy (get opp "spread_jpy") min_amount = Returned profit /\
    size_cell est_size = Returned size /\
    metric bps /\ metric est_size /\ metric profit /\
    opportunity_row_of fromisoformat repr opp = Returned
      [("時刻", JStr label);
       ("通貨", get_default opp "symbol" (JStr ""));
       ("買い取引所", get_default opp "buy_exchange" (JStr ""));
       ("売り取引所", get_default opp "sell_exchange" (JStr ""));
       ("買値", get opp "buy_price");
       ("売値", get opp "sell_price");
       ("スプレッド(bps)", bps);
       ("スプレッド(円)", get opp "spread_jpy");
       ("想定サイズ", size);
       ("推定利益", profit_cell profit);
       ("_buy_exchange", get opp "buy_exchange");
       ("_sell_exchange", get opp "sell_exchange");
       ("_buy_price", get opp "buy_price");
       ("_sell_price", get opp "sell_price")].
Proof.
  intros Hw Hl.
  assert (Hf : forall k, k ∈ numeric_fields -> absent_or_number (get opp k) = true)
    by (intros k; by apply well_typed_field).
  destruct (min_available_metric (get opp "buy_available_amount")
              (get opp "sell_available_amount")) as (m & Hm & Mm & _);
    [apply Hf; set_solver..|].
  destruct (spread_bps_metric (get opp "spread_pct")) as (bps & Hbps & Mbps & _).
  destruct (estimated_size_jpy_metric m (get opp "buy_price") (get opp "sell_price"))
    as (est & Hest & Mest & _); [done | apply Hf; set_solver..|].
  destruct (expected_profit_jpy_metric (get opp "spread_jpy") m)
    as (profit & Hprofit & Mprofit & _); [done | apply Hf; set_solver |].
  destruct (size_cell_metric est Mest) as (size & Hsize & _).
  exists m, bps, est, profit, size. repeat (split; [done|]).
  unfold opportunity_row_of. rewrite Hm. simpl. rewrite Hbps. simpl.
  rewrite Hest. simpl. rewrite Hprofit. simpl.
  unfold label_of in Hl. rewrite Hl. simpl. rewrite Hsize. reflexivity.
Qed.

(** X5.  In the row of a well-typed record, the spread in basis points is
    derived from [spread_pct] alone, whatever the amounts are; when an
    amount is absent or zero, the size and the profit show the
    placeholder; and the size and the profit are always the placeholder
    or a number. *)
Lemma partial_row (opp row : dict) :
  well_typed opp -> opportunity_row_of fromisoformat repr opp = Returned row ->
  (exists bps, spread_bps (get opp "spread_pct") = Returned bps /\
               Py.lookup row "スプレッド(bps)" = Some bps /\ metric bps) /\
  (truthy (get opp "buy_available_amount") && truthy (get opp "sell_available_amount")
     = false ->
   Py.lookup row "想定サイズ" = Some placeholder /\
   Py.lookup row "推定利益" = Some placeholder) /\
  (exists size, Py.lookup row "想定サイズ" = Some size /\
                (size = placeholder \/ is_number size = true)) /\
  (exists profit, Py.lookup row "推定利益" = Some profit /\
                  (profit = placeholder \/ is_number profit = true)).
Proof.
  intros Hw Hrow.
  assert (Hf : forall k, k ∈ numeric_fields -> absent_or_number (get opp k) = true)
    by (intros k; by apply well_typed_field).
  destruct (min_available_metric (get opp "buy_available_amount")
              (get opp "sell_available_amount")) as (m & Hm & Mm & Habsent);
    [apply Hf; set_solver..|].
  destruct (spread_bps_metric (get opp "spread_pct")) as (bps & Hbps & Mbps & _).
  destruct (estimated_size_jpy_metric m (get opp "buy_price") (get opp "sell_price"))
    as (est & Hest & Mest & Hest0); [done | apply Hf; set_solver..|].
  destruct (expected_profit_jpy_metric (get opp "spread_jpy") m)
    as (profit & Hprofit & Mprofit & Hprofit0); [done | apply Hf; set_solver |].
  destruct (size_cell_metric est Mest) as (size & Hsize & Hsize0 & Hsize1).
  unfold opportunity_row_of in Hrow. rewrite Hm in Hrow. simpl in Hrow.
  rewrite Hbps in Hrow. simpl in Hrow. rewrite Hest in Hrow. simpl in Hrow.
  rewrite Hprofit in Hrow. simpl in Hrow.
  destruct (format_time_label _ _ _) as [label|]; [|discriminate]. simpl in Hrow.
  rewrite Hsize in Hrow. simpl in Hrow. injection Hrow as <-.
  split; [exists bps; by repeat split|].
  split; [|split].
  - intros Hnone. apply Habsent in Hnone as ->.
    rewrite (Hest0 eq_refl) in Hsize0. rewrite (Hsize0 eq_refl).
    by rewrite (Hprofit0 eq_refl).
  - exists size. split; [reflexivity|].
    destruct Mest as [-> | Hn]; [left; by apply Hsize0 | right; by apply Hsize1].
  - exists (profit_cell profit). split; [reflexivity|].
    destruct Mprofit as [-> | Hn]; [by left | right].
    destruct profit; try discriminate Hn; exact Hn.
Qed.

Lemma build_opportunity_rows_Forall2 (opportunities : list json) (rows : list dict) :
  build_opportunity_rows fromisoformat repr opportunities = Returned rows <->
  Forall2 (fun opp row => opportunity_row fromisoformat repr opp = Returned row)
          opportunities rows.
Proof.
  revert rows. induction opportunities as [|opp rest IH]; intros rows; simpl.
  - split; [intros [= <-]; constructor | by inversion 1].
  - destruct (opportunity_row fromisoformat repr opp) as [row|e] eqn:Hrow; simpl.
    + destruct (build_opportunity_rows fromisoformat repr rest) as [rows'|e] eqn:Hrest;
        simpl.
      * split.
        -- intros [= <-]. constructor; [done | by apply IH].
        -- inversion 1 as [|? ? ? rows'' Hr Hrs]; subst.
           apply IH in Hrs. congruence.
      * split; [done|]. inversion 1 as [|? ? ? rows'' Hr Hrs]; subst.
        apply IH in Hrs. discriminate.
    + split; [done|]. inversion 1; congruence.
Qed.

Lemma build_opportunity_rows_raises (before after : list json) (rows : list dict)
    (bad : json) (e : exn) :
  build_opportunity_rows fromisoformat repr before = Returned rows ->
  opportunity_row fromisoformat repr bad = Raised e ->
  build_opportunity_rows fromisoformat repr (before ++ bad :: after) = Raised e.
Proof.
  revert rows. induction before as [|opp before IH]; intros rows; simpl.
  - intros _ ->. done.
  - destruct (opportunity_row fromisoformat repr opp); simpl; [|done].
    destruct (build_opportunity_rows fromisoformat repr before) eqn:Hb; simpl; [|done].
    intros _ Hbad. by rewrite (IH _ eq_refl Hbad).
Qed.

(** X2.  Records that are dictionaries with well-typed inputs and a
    time stamp that gets a label give one row each, in the order of the
    input. *)
Lemma build_opportunity_rows_well_typed (opportunities : list json) :
  Forall (fun opp => exists d, opp = JObj d /\ well_typed d /\
                       returns (label_of fromisoformat repr d)) opportunities ->
  exists rows,
    build_opportunity_rows fromisoformat repr opportunities = Returned rows /\
    length rows = length opportunities /\
    Forall2 (fun opp row => opportunity_row fromisoformat repr opp = Returned row)
            opportunities rows.
Proof.
  intros H.
  assert (exists rows, Forall2 (fun opp row => opportunity_row fromisoformat repr opp
                                                = Returned row) opportunities rows)
    as [rows Hrows].
  { induction H as [|opp rest (d & -> & Hw & [label Hl]) _ [rows IH]].
    - exists []. constructor.
    - destruct (opportunity_row_of_well_typed d label Hw Hl)
        as (? & ? & ? & ? & ? & _ & _ & _ & _ & _ & _ & _ & _ & Hrow).
      eexists (_ :: rows). constructor; [exact Hrow | exact IH]. }
  exists rows. split; [by apply build_opportunity_rows_Forall2|].
  split; [symmetry; by eapply Forall2_length | done].
Qed.

End Rows.

Lemma build_opportunity_rows_well_typed_witness :
  exists rows,
    build_opportunity_rows Datetime.fromisoformat_basic (fun _ => "")
      [JObj [("buy_available_amount", JInt 3); ("spread_pct", JFloat 0.0059)];
       JObj [("timestamp", JStr "2024-01-01T00:00:00Z")]] = Returned rows /\
    length rows = 2%nat.
Proof.
  destruct (build_opportunity_rows_well_typed Datetime.fromisoformat_basic (fun _ => "")
              [JObj [("buy_available_amount", JInt 3); ("spread_pct", JFloat 0.0059)];
               JObj [("timestamp", JStr "2024-01-01T00:00:00Z")]])
    as (rows & Hrows & Hlen & _).
  - constructor; [|constructor; [|constructor]];
      (eexists; split; [reflexivity|]; split;
       [unfold well_typed, numeric_fields; repeat constructor
       | eexists; vm_compute; reflexivity]).
  - exists rows. split; [exact Hrows | exact Hlen].
Defined.

Lemma partial_row_witness :
  Py.lookup [("時刻", JStr ""); ("通貨", JStr ""); ("買い取引所", JStr "");
             ("売り取引所", JStr ""); ("買値", JNull); ("売値", JNull);
             ("スプレッド(bps)", JFloat 0.59); ("スプレッド(円)", JNull);
             ("想定サイズ", JStr "—"); ("推定利益", JStr "—");
             ("_buy_exchange", JNull); ("_sell_exchange", JNull);
             ("_buy_price", JNull); ("_sell_price", JNull)] "想定サイズ"
    = Some placeholder.
Proof.
  apply (partial_row Datetime.fromisoformat_basic (fun _ => "")
           [("buy_available_amount", JInt 3); ("spread_pct", JFloat 0.0059)]).
  - repeat constructor.
  - reflexivity.
  - reflexivity.
Defined.

Lemma format_time_label_outcome_witness :
  format_time_label Datetime.fromisoformat_basic "not a time" false
    = Returned "not a time".
Proof.
  destruct (format_time_label_outcome Datetime.fromisoformat_basic "not a time" false)
    as [[_ H] | [(dt & local & Hp & _) | (dt & Hp & _)]].
  - intros e He. vm_compute in He. by inversion He.
  - exact H.
  - vm_compute in Hp. discriminate Hp.
  - vm_compute in Hp. discriminate Hp.
Defined.

(** C6.  A record whose available amount is a string makes
    [build_opportunity_rows] raise [TypeError] at [min]: the call
    returns no row at all, neither for that record nor for the records
    before and after it. *)
Theorem build_opportunity_rows_type_error (fromisoformat : string -> outcome Datetime.t)
    (repr : json -> string) (before after : list json) (rows : list dict) :
  build_opportunity_rows fromisoformat repr before = Returned rows ->
  build_opportunity_rows fromisoformat repr (before ++ stringly :: after) = Raised TypeError.
Proof.
  intros H. by apply (build_opportunity_rows_raises _ _ _ _ rows).
Qed.

Lemma build_opportunity_rows_type_error_witness :
  build_opportunity_rows Datetime.fromisoformat_basic (fun _ => "")
    [JObj [("buy_available_amount", JInt 3)]]
  = Returned [[("時刻", JStr ""); ("通貨", JStr ""); ("買い取引所", JStr "");
               ("売り取引所", JStr ""); ("買値", JNull); ("売値", JNull);
               ("スプレッド(bps)", JNull); ("スプレッド(円)", JNull);
               ("想定サイズ", JStr "—"); ("推定利益", JStr "—");
               ("_buy_exchange", JNull); ("_sell_exchange", JNull);
               ("_buy_price", JNull); ("_sell_price", JNull)]] /\
  build_opportunity_rows Datetime.fromisoformat_basic (fun _ => "")
    ([JObj [("buy_available_amount", JInt 3)]] ++ stringly :: []) = Raised TypeError.
Proof.
  split; [reflexivity|].
  eapply (build_opportunity_rows_type_error Datetime.fromisoformat_basic (fun _ => "")
            [JObj [("buy_available_amount", JInt 3)]] []).
  reflexivity.
Defined.

(** The record of the specification's first scenario maps to the row
    it describes. *)
Example scenario_row :
  exists row,
    opportunity_row Datetime.fromisoformat_basic (fun _ => "")
      (JObj [("symbol", JStr "XRP/JPY"); ("buy_exchange", JStr "bitbank");
             ("sell_exchange", JStr "zaif"); ("buy_price", JFloat 85.0);
             ("sell_price", JFloat 85.5); ("spread_jpy", JFloat 0.5);
             ("spread_pct", JFloat 0.0059); ("buy_available_amount", JInt 1000);
             ("sell_available_amount", JInt 1500);
             ("timestamp", JStr "2024-01-01T00:00:00Z")]) = Returned row /\
    Py.lookup row "スプレッド(bps)" = Some (JFloat 0.59) /\
    Py.lookup row "想定サイズ" = Some (JInt 85000) /\
    valued (Py.get row "推定利益") 500 /\
    Py.lookup row "時刻" = Some (JStr "09:00:00").
Proof.
  eexists. split; [vm_compute; reflexivity|].
  repeat split. eexists. split; [reflexivity | reflexivity].
Qed.

End RowProps.

(** ** Base URLs and path segments *)

Module UrlProps.
Import Net CheckApi StreamlitApp Text.

Lemma rstrip_slash_slashes (n : nat) : rstrip_slash (repeat_str "/" n) = "".
Proof.
  induction n as [|n IH]; [done|].
  change (repeat_str "/" (S n)) with (String "/" (repeat_str "/" n)).
  cbn [rstrip_slash]. by rewrite IH.
Qed.

Lemma rstrip_slash_app (s : string) (n : nat) :
  rstrip_slash (s ++ repeat_str "/" n) = rstrip_slash s.
Proof.
  induction s as [|c s IH]; simpl.
  - apply rstrip_slash_slashes.
  - by rewrite IH.
Qed.

Lemma rstrip_slash_decompose (s : string) :
  exists n, s = rstrip_slash s ++ repeat_str "/" n.
Proof.
  induction s as [|c s [n IH]]; [by exists 0%nat|].
  simpl. destruct (rstrip_slash s) as [|d r] eqn:E.
  - destruct (Ascii.eqb c "/") eqn:Ec.
    + apply Ascii.eqb_eq in Ec as ->. exists (S n). simpl. by rewrite IH at 1.
    + exists n. simpl. by rewrite IH at 1.
  - exists n. simpl. by rewrite IH at 1.
Qed.

Lemma rstrip_slash_last (s : string) : last_char (rstrip_slash s) <> Some "/"%char.
Proof.
  induction s as [|c s IH]; [done|].
  simpl. destruct (rstrip_slash s) as [|d r] eqn:E.
  - destruct (Ascii.eqb c "/") eqn:Ec; [done|].
    apply Ascii.eqb_neq in Ec. simpl. congruence.
  - exact IH.
Qed.

Lemma rstrip_slash_fixed (s : string) :
  last_char s <> Some "/"%char -> rstrip_slash s = s.
Proof.
  induction s as [|c s IH]; [done|].
  intros H. simpl. destruct s as [|d s].
  - simpl in *. destruct (Ascii.eqb c "/") eqn:Ec; [|done].
    apply Ascii.eqb_eq in Ec. congruence.
  - rewrite IH by exact H. done.
Qed.

(** X7.  [normalize_base_url], and the [rstrip("/")] of the checker's
    [main], remove the slashes that end the base URL and nothing else:
    the input is the result followed by slashes only, the result does
    not end in a slash, normalising twice changes nothing, and base
    URLs that differ in their number of final slashes are requested
    alike by the three fetchers. *)
Theorem normalize_base_url_trailing_slashes (api_base_url : string) :
  (exists n, api_base_url = normalize_base_url api_base_url ++ repeat_str "/" n) /\
  last_char (normalize_base_url api_base_url) <> Some "/"%char /\
  normalize_base_url (normalize_base_url api_base_url) = normalize_base_url api_base_url /\
  (forall (n : nat) (E : env) (exchange symbol params : string) (depth : Z),
     let slashed := api_base_url ++ repeat_str "/" n in
     normalize_base_url slashed = normalize_base_url api_base_url /\
     fetch_orderbook E slashed exchange symbol depth =
       fetch_orderbook E api_base_url exchange symbol depth /\
     fetch_opportunities E slashed params = fetch_opportunities E api_base_url params /\
     fetch_portfolio E slashed = fetch_portfolio E api_base_url).
Proof.
  unfold normalize_base_url. split; [apply rstrip_slash_decompose|].
  split; [apply rstrip_slash_last|].
  split; [apply rstrip_slash_fixed, rstrip_slash_last|].
  intros n E exchange symbol params depth.
  unfold fetch_orderbook, fetch_opportunities, fetch_portfolio, normalize_base_url.
  by rewrite rstrip_slash_app.
Qed.

(** A prefix without a slash outlives [rstrip("/")] and what is put
    after the base URL. *)
Lemma is_prefix_app (p s t : string) :
  is_prefix p s = true -> is_prefix p (s ++ t) = true.
Proof.
  revert s. induction p as [|c p IH]; intros [|d s]; simpl; try done.
  intros H. apply andb_true_iff in H as [Hc Hp]. rewrite Hc. simpl. by apply IH.
Qed.

Lemma is_prefix_slashes (p r : string) (n : nat) :
  ("/"%char ∉ chars p) ->
  is_prefix p (r ++ repeat_str "/" n) = true -> is_prefix p r = true.
Proof.
  unfold chars. revert r. induction p as [|c p IH]; intros r Hp H; [by destruct r|].
  cbn [list_ascii_of_string] in Hp. apply not_elem_of_cons in Hp as [Hc Hp].
  destruct r as [|d r].
  - exfalso. destruct n as [|n]; [discriminate H|].
    change (is_prefix (String c p) (String "/" (repeat_str "/" n)) = true) in H.
    simpl in H. apply andb_true_iff in H as [H _]. apply Ascii.eqb_eq in H. congruence.
  - change (is_prefix (String c p) (String d (r ++ repeat_str "/" n)) = true) in H.
    simpl in H. apply andb_true_iff in H as [H1 H2]. simpl. rewrite H1. simpl.
    by apply IH.
Qed.

Lemma is_prefix_rstrip_slash (p s : string) :
  ("/"%char ∉ chars p) -> is_prefix p s = true -> is_prefix p (rstrip_slash s) = true.
Proof.
  intros Hp H. destruct (rstrip_slash_decompose s) as [n Hs].
  rewrite Hs in H. by apply is_prefix_slashes in H.
Qed.

(** The URLs made from a base URL of the scheme [http] or [https] are
    of that scheme. *)
Lemma http_url_request (api_base_url suffix : string) :
  Contract.http_url api_base_url = true ->
  Contract.http_url (normalize_base_url api_base_url ++ suffix) = true.
Proof.
  unfold Contract.http_url, normalize_base_url. intros H.
  apply orb_true_iff in H as [H|H]; apply orb_true_iff; [left | right];
    apply is_prefix_app, is_prefix_rstrip_slash; try done;
    unfold chars; cbn [list_ascii_of_string]; rewrite !not_elem_of_cons;
    repeat split; try discriminate; apply not_elem_of_nil.
Qed.

Lemma hex_digit_safe (k : nat) : (k < 16)%nat -> always_safe (hex_digit k) = true.
Proof.
  intros H. do 16 (destruct k as [|k]; [reflexivity|]). lia.
Qed.

Lemma is_substring_char (c : ascii) (s : string) :
  is_substring (String c "") s = true <-> c ∈ chars s.
Proof.
  unfold chars. induction s as [|d s IH]; simpl.
  - split; [discriminate | intros H; inversion H].
  - rewrite orb_true_iff, IH, andb_true_iff, Ascii.eqb_eq, elem_of_cons.
    split; intros [H|H]; auto. left. by destruct H.
Qed.

Lemma quote_chars (s safe : string) (c : ascii) :
  c ∈ chars (quote s safe) ->
  always_safe c = true \/ c = "%"%char \/ c ∈ chars safe.
Proof.
  unfold chars. induction s as [|d s IH]; intros Hc; [inversion Hc|].
  cbn [quote] in Hc.
  destruct (always_safe d || is_substring (String d "") safe) eqn:E;
    cbn [list_ascii_of_string] in Hc.
  - apply elem_of_cons in Hc as [-> | H]; [|auto].
    apply orb_true_iff in E as [E|E]; [auto|].
    right. right. by apply is_substring_char.
  - rewrite !elem_of_cons in Hc. destruct Hc as [-> | [-> | [-> | H]]]; auto; left.
    + apply hex_digit_safe. apply Nat.Div0.div_lt_upper_bound.
      pose proof (nat_ascii_bounded d). lia.
    + apply hex_digit_safe. apply Nat.mod_upper_bound. lia.
Qed.

Lemma quote_safe (s safe : string) :
  Forall (fun c => always_safe c = true) (chars s) -> quote s safe = s.
Proof.
  unfold chars. induction s as [|d s IH]; [done|].
  simpl. intros H. apply Forall_cons in H as [Hd Hs]. rewrite Hd. simpl.
  by rewrite IH.
Qed.

(** X8.  The path segment [symbol_path = quote(symbol, safe="")] that
    [test_arbgui], [test_openapi] and [fetch_orderbook] put in the URL
    consists of letters, digits, [_.-~] and [%] only, whatever the
    symbol is: it holds no [/], [?], [#] or [&], so the symbol cannot
    add a path segment or a parameter to the request; and a symbol made
    of letters, digits and [_.-~] is left as it is. *)
Theorem symbol_path_one_segment (symbol : string) :
  let symbol_path := quote symbol "" in
  (forall c, c ∈ chars symbol_path -> always_safe c = true \/ c = "%"%char) /\
  ("/"%char ∉ chars symbol_path) /\ ("?"%char ∉ chars symbol_path) /\
  ("#"%char ∉ chars symbol_path) /\ ("&"%char ∉ chars symbol_path) /\
  (Forall (fun c => always_safe c = true) (chars symbol) -> symbol_path = symbol) /\
  quote "XRP/JPY" "" = "XRP%2FJPY".
Proof.
  assert (H : forall c, c ∈ chars (quote symbol "") ->
                        always_safe c = true \/ c = "%"%char).
  { intros c Hc. destruct (quote_chars _ _ _ Hc) as [?|[?|Hin]]; auto. inversion Hin. }
  simpl. split; [exact H|].
  repeat split; try (intros Hc; destruct (H _ Hc); discriminate).
  apply quote_safe.
Qed.

End UrlProps.

(** ** The fetchers of the two programs, side by side *)

Module FetcherProps.
Import Net CheckApi StreamlitApp.

(** The exceptions [request_json] handles, once the request is
    built. *)
Lemma request_json_handled (E : env) (url : string) :
  urlopen E url <> UnknownUrlType ->
  (forall e, urlopen E url = Failure e ->
     e = URLError \/ e = ValueError \/ exists code fp, e = HTTPError code fp) ->
  returns (request_json E url).
Proof.
  intros Hbuilt H. unfold request_json, request, attempt.
  destruct (urlopen E url) as [status text|e|] eqn:Hu; [| |done]; cbn [Py.bind].
  - unfold read_response, decode, loads. destruct text as [body|]; simpl; [|by eexists].
    destruct (String.eqb body ""); simpl; [by eexists|].
    destruct (json_loads E body); simpl; by eexists.
  - destruct (H e eq_refl) as [-> | [-> | (code & fp & ->)]]; simpl; by eexists.
Qed.

(** X9.  [fetch_json] of the checker and [request_json] of the
    dashboard report the same status: whenever [fetch_json] returns a
    status and a body, [request_json] returns the same status, with the
    same body when the server answered and with [None] in place of the
    text of an [HTTPError]; and an exception that [request_json] lets
    through, [fetch_json] lets through as well. *)
Theorem fetchers_agree (E : env) (url : string) :
  (forall status data,
     fetch_json E url = Returned (status, data) ->
     exists data', request_json E url = Returned (status, data') /\
                   (data' = data \/
                    data' = JNull /\ exists fp, urlopen E url = Failure (HTTPError status fp))) /\
  (forall e, request_json E url = Raised e -> fetch_json E url = Raised e) /\
  (forall status data,
     attempt E url = Returned (status, data) ->
     fetch_json E url = Returned (status, data) /\
     request_json E url = Returned (status, data)).
Proof.
  unfold fetch_json, request_json, request, attempt.
  destruct (urlopen E url) as [st text|e|]; cbn [Py.bind]; unfold catch.
  - destruct (read_response E st text) as [[s d]|e] eqn:Hr.
    + split; [|split].
      * intros status data [= <- <-]. exists d. auto.
      * discriminate.
      * intros status data [= <- <-]. done.
    + rewrite (FetchProps.read_response_raises _ _ _ _ Hr).
      split; [|split]; discriminate.
  - split; [|split; [|discriminate]].
    + intros status data H. destruct e; try discriminate H.
      destruct (match fp with Some text => decode text | None => Returned "" end)
        as [body|]; [|discriminate H].
      simpl in H. inversion H; subst. exists JNull. split; [done|]. right.
      split; [done|]. by exists fp.
    + intros e'. destruct e; try discriminate; done.
  - split; [|split]; [discriminate | done | discriminate].
Qed.

(** X10.  The fetchers of the dashboard never hand another shape to
    the tabs than the one they declare: on a network whose failures
    are [HTTPError], [URLError] or [ValueError], [fetch_orderbook] and
    [fetch_portfolio] return an object or [None], and
    [fetch_opportunities] returns a list, without raising, when the
    base URL is of the scheme [http] or [https], for which [Request]
    builds the request; and an answer whose status is not 200 gives
    [None] and the empty list whatever its body is. *)
Theorem fetchers_return_declared_shape (E : env)
    (api_base_url exchange symbol params : string) (depth : Z) :
  Contract.http_url api_base_url = true ->
  Contract.builds_http_requests E ->
  (forall url e, urlopen E url = Failure e ->
     e = URLError \/ e = ValueError \/ exists code fp, e = HTTPError code fp) ->
  (exists ob, fetch_orderbook E api_base_url exchange symbol depth = Returned ob /\
              (ob = JNull \/ is_dict ob = true)) /\
  (exists items, fetch_opportunities E api_base_url params = Returned (JArr items)) /\
  (exists portfolio, fetch_portfolio E api_base_url = Returned portfolio /\
                     (portfolio = JNull \/ is_dict portfolio = true)) /\
  (forall status data,
     request_json E (normalize_base_url api_base_url ++ "/api/v1/opportunities?" ++ params)
       = Returned (status, data) ->
     status <> 200 ->
     fetch_opportunities E api_base_url params = Returned (JArr [])) /\
  (forall status data,
     request_json E (normalize_base_url api_base_url ++ "/api/v1/portfolio")
       = Returned (status, data) ->
     status <> 200 ->
     fetch_portfolio E api_base_url = Returned JNull).
Proof.
  intros Hbase Hbuilds H.
  assert (Hbuilt : forall suffix,
            urlopen E (normalize_base_url api_base_url ++ suffix) <> UnknownUrlType)
    by (intros suffix; by apply Hbuilds, UrlProps.http_url_request).
  unfold fetch_orderbook, fetch_opportunities, fetch_portfolio.
  split; [|split; [|split; [|split]]].
  - match goal with |- context [request_json E ?u] =>
      destruct (request_json_handled E u (Hbuilt _) (H u)) as [[status data] ->] end.
    simpl.
    destruct (negb (status =? 200) || negb (is_dict data)) eqn:Hc; eexists; split;
      try reflexivity; [by left|].
    right. apply orb_false_iff in Hc as [_ Hd]. by apply negb_false_iff in Hd.
  - match goal with |- context [request_json E ?u] =>
      destruct (request_json_handled E u (Hbuilt _) (H u)) as [[status data] ->] end.
    simpl.
    destruct (negb (status =? 200) || negb (is_list data)) eqn:Hc; [by eexists|].
    apply orb_false_iff in Hc as [_ Hd]. apply negb_false_iff in Hd.
    destruct data; try discriminate Hd. by eexists.
  - match goal with |- context [request_json E ?u] =>
      destruct (request_json_handled E u (Hbuilt _) (H u)) as [[status data] ->] end.
    simpl.
    destruct (negb (status =? 200) || negb (is_dict data)) eqn:Hc; eexists; split;
      try reflexivity; [by left|].
    right. apply orb_false_iff in Hc as [_ Hd]. by apply negb_false_iff in Hd.
  - intros status data Hr Hs. rewrite Hr. simpl.
    apply Z.eqb_neq in Hs. by rewrite Hs.
  - intros status data Hr Hs. rewrite Hr. simpl.
    apply Z.eqb_neq in Hs. by rewrite Hs.
Qed.

(** Against a server that is reachable and answers every request with
    503 and an HTML page. *)
Lemma fetchers_return_declared_shape_witness :
  (exists ob, fetch_orderbook Contract.unavailable "http://localhost:8000/" "bitbank"
                "XRP/JPY" 5 = Returned ob /\ (ob = JNull \/ is_dict ob = true)) /\
  (exists items, fetch_opportunities Contract.unavailable "http://localhost:8000/" ""
                 = Returned (JArr items)).
Proof.
  destruct (fetchers_return_declared_shape Contract.unavailable "http://localhost:8000/"
              "bitbank" "XRP/JPY" "" 5) as (Hob & Hopp & _).
  - reflexivity.
  - intros url _. discriminate.
  - intros url e [= <-]. right. right. by eexists _, _.
  - split; [exact Hob | exact Hopp].
Defined.

End FetcherProps.

(** ** The exit status of the contract checker *)

Module ContractProps.
Import IO Net CheckApi Contract ValidatorProps RunProps.

Lemma missing_none (d : dict) (required : list string) :
  filter (λ k, k ∉ d.*1) required = [] <-> forall k, k ∈ required -> k ∈ keys d.
Proof.
  unfold keys. induction required as [|r required IH];
    [split; [intros _ k Hk; inversion Hk | done]|].
  rewrite filter_cons. case_decide as Hd.
  - split; [discriminate|]. intros H. exfalso. apply Hd, H. left.
  - rewrite IH. split.
    + intros H k Hk. apply elem_of_cons in Hk as [-> | Hk]; auto.
    + intros H k Hk. apply H. by right.
Qed.

Lemma print_result_ok label detail out :
  exists line, print_result true label detail out = (Returned tt, (out ++ [line])%list).
Proof. destruct (print_result_line true label detail out) as (line & H & _). eauto. Qed.

Lemma print_result_ng label detail out :
  exists line, print_result false label detail out = (Returned tt, (out ++ [line])%list).
Proof. destruct (print_result_line false label detail out) as (line & H & _). eauto. Qed.

(** The line of the [print_result] call in the goal, for either
    verdict. *)
Ltac verdict_line :=
  match goal with
  | |- context [print_result true ?label ?detail ?out] =>
      destruct (print_result_ok label detail out) as (? & ->)
  | |- context [print_result false ?label ?detail ?out] =>
      destruct (print_result_ng label detail out) as (? & ->)
  end.

Section Server.
Variable E : env.

Lemma check_object_decides url label required :
  decides (check_object E url label required) (answers_object E url required).
Proof.
  intros n out. unfold check_object, answers_object, IO.bind, lift.
  destruct (fetch_json E url) as [[status data]|e] eqn:Hf.
  - destruct (negb (status =? 200) || negb (is_dict data)) eqn:Hc.
    + right. split.
      * intros (d & [= -> ->] & _). discriminate Hc.
      * left. verdict_line. unfold ret. rewrite Nat.add_1_r. eauto.
    + apply orb_false_iff in Hc as [Hs Hd]. apply negb_false_iff in Hs, Hd.
      apply Z.eqb_eq in Hs as ->. destruct data as [| | | | | |d]; try discriminate Hd.
      rewrite ensure_keys_dict.
      destruct (filter (λ k, k ∉ d.*1) required) as [|k missing] eqn:Hm;
        cbn [is_empty].
      * left. split; [exists d; split; [done | by apply missing_none]|].
        verdict_line. unfold ret. rewrite Nat.add_0_r. eauto.
      * right. split.
        -- intros (d' & [= <-] & Hall). apply missing_none in Hall. congruence.
        -- left. verdict_line. unfold ret. rewrite Nat.add_1_r. eauto.
  - right. split; [intros (d & [=] & _)|]. right. eauto.
Qed.

Lemma check_array_decides url label keys_label required :
  required <> [] ->
  decides (check_array E url label keys_label required) (answers_array E url required).
Proof.
  intros Hreq n out. unfold check_array, answers_array, IO.bind, lift.
  destruct (fetch_json E url) as [[status data]|e] eqn:Hf.
  - destruct (negb (status =? 200) || negb (ensure_list data)) eqn:Hc.
    + right. split.
      * intros (d & [= -> ->] & _). discriminate Hc.
      * left. verdict_line. unfold ret. rewrite Nat.add_1_r. eauto.
    + apply orb_false_iff in Hc as [Hs Hd]. apply negb_false_iff in Hs, Hd.
      apply Z.eqb_eq in Hs as ->.
      destruct data as [| | | | |items|]; try discriminate Hd.
      destruct items as [|first items]; cbn -[print_result missing_keys].
      * left. split; [by exists []|]. verdict_line. unfold ret. eauto.
      * destruct first as [| | | | | |d];
          try (cbn [missing_keys is_dict]; destruct required as [|r required];
               [done|]; cbn [is_empty]; right; split;
               [intros (items' & [= <-] & d' & [=] & _)
               |left; verdict_line; unfold ret; rewrite Nat.add_1_r; eauto]).
        rewrite missing_keys_dict, ensure_keys_dict.
        destruct (filter (λ k, k ∉ d.*1) required) as [|k missing] eqn:Hm;
          cbn [is_empty].
        -- left. split; [exists (JObj d :: items); split; [done|];
                         exists d; split; [done | by apply missing_none]|].
           verdict_line. unfold ret. rewrite Nat.add_0_r. eauto.
        -- right. split.
           ++ intros (items' & [= <-] & d' & [= <-] & Hall).
              apply missing_none in Hall. congruence.
           ++ left. verdict_line. unfold ret. rewrite Nat.add_1_r. eauto.
  - right. split; [intros (d & [=] & _)|]. right. eauto.
Qed.

Lemma check_health_decides url :
  decides (check_health E url) (answers_object E url ["status"]).
Proof.
  intros n out. unfold check_health, answers_object, IO.bind, lift.
  destruct (fetch_json E url) as [[status data]|e] eqn:Hf.
  - destruct (negb (status =? 200)) eqn:Hs.
    + right. split; [intros (d & [= -> ->] & _); discriminate Hs|].
      left. verdict_line. unfold ret. rewrite Nat.add_1_r. eauto.
    + apply negb_false_iff, Z.eqb_eq in Hs as ->.
      destruct data as [| | | | | |d];
        try (cbn [is_dict negb]; right; split; [intros (d' & [=] & _)|];
             left; verdict_line; unfold ret; rewrite Nat.add_1_r; eauto).
      cbn [is_dict negb py_in]. destruct (contains d "status") eqn:Hk.
      * left. split.
        -- exists d. split; [done|]. intros k Hk'. apply list_elem_of_singleton in Hk' as ->.
           by apply contains_true.
        -- verdict_line. unfold ret. rewrite Nat.add_0_r. eauto.
      * right. split.
        -- intros (d' & [= <-] & Hall). apply contains_false in Hk. apply Hk, Hall. left.
        -- left. verdict_line. unfold ret. rewrite Nat.add_1_r. eauto.
  - right. split; [intros (d & [=] & _)|]. right. eauto.
Qed.

(** Checks in a row: the count of failures stays where it was
    exactly when every check passes. *)
Lemma run_checks_decides (steps : list (nat -> io nat)) (oks : list Prop) :
  Forall2 decides steps oks ->
  forall n out,
    (Forall (fun ok => ok) oks /\
     exists lines, run_checks steps n out = (Returned n, (out ++ lines)%list)) \/
    (~ Forall (fun ok => ok) oks /\
     ((exists m out', (n < m)%nat /\ run_checks steps n out = (Returned m, out')) \/
      (exists e out', run_checks steps n out = (Raised e, out')))).
Proof.
  induction 1 as [|step ok steps oks Hstep _ IH]; intros n out.
  - left. split; [constructor|]. exists []. simpl. unfold ret. by rewrite app_nil_r.
  - simpl. unfold IO.bind.
    destruct (Hstep n out) as [(Hok & line & ->) | (Hno & [(line & ->) | (e & out' & ->)])].
    + destruct (IH n (out ++ [line])%list)
        as [(Hall & lines & ->) | (Hnot & [(m & out' & Hm & ->) | (e & out' & ->)])].
      * left. split; [by constructor|]. exists (line :: lines). by rewrite <- app_assoc.
      * right. split; [intros Hall; apply Forall_cons in Hall as [_ ?]; auto|]. left. eauto.
      * right. split; [intros Hall; apply Forall_cons in Hall as [_ ?]; auto|]. right. eauto.
    + right. split; [intros Hall; apply Forall_cons in Hall as [? _]; auto|].
      destruct (IH (S n) (out ++ [line])%list)
        as [(_ & lines & ->) | (_ & [(m & out' & Hm & ->) | (e & out' & ->)])].
      * left. exists (S n). eexists. split; [lia | done].
      * left. exists m, out'. split; [lia | done].
      * right. eauto.
    + right. split; [intros Hall; apply Forall_cons in Hall as [? _]; auto|]. right. eauto.
Qed.

(** The exit status of [main] from the verdicts of the checks of its
    mode. *)
Lemma script_decides (a : args) (steps : list (nat -> io nat)) (oks : list Prop) :
  (if String.eqb (mode a) "arbgui"
   then test_arbgui E (rstrip_slash (base_url a)) (exchange a) (symbol a)
   else test_openapi E (rstrip_slash (base_url a)) (exchange a) (symbol a))
    = run_checks steps 0 ->
  Forall2 decides steps oks ->
  ((script E a).1 = 0 <-> Forall (fun ok => ok) oks) /\
  ((script E a).1 = 0 \/ (script E a).1 = 1).
Proof.
  intros Heq Hsteps. unfold script, run, main, IO.bind. rewrite Heq.
  destruct (run_checks_decides steps oks Hsteps 0%nat [])
    as [(Hall & lines & ->) | (Hnot & [(m & out' & Hm & ->) | (e & out' & ->)])].
  - simpl. split; [split; auto | auto].
  - destruct m as [|m]; [lia|]. simpl. split; [split; [discriminate | done] | auto].
  - simpl. split; [split; [discriminate | done] | auto].
Qed.

End Server.

(** X11.  [check_api.py --mode arbgui] ends with status 0 exactly
    when the server conforms to the legacy contract: the order book,
    the opportunities and the portfolio endpoints answer 200, the
    first and the last with an object that has every required key, the
    second with a list that is empty or whose first element is an
    object with every required key; in every other case, an exception
    of a fetch included, the status is 1.  Elements of the list after
    the first are not looked at. *)
Theorem arbgui_exit_status (E : env) (a : args) :
  mode a = "arbgui" ->
  let base := rstrip_slash (base_url a) in
  ((script E a).1 = 0 <->
     answers_object E
       (base ++ "/v1/orderbook/" ++ exchange a ++ "/" ++ quote (symbol a) "" ++ "/latest")
       ["exchange"; "symbol"; "timestamp"; "bids"; "asks"; "best_bid"; "best_ask";
        "mid_price"; "spread"] /\
     answers_array E (base ++ "/v1/opportunities/latest")
       ["timestamp"; "base_symbol"; "buy_exchange"; "sell_exchange"; "buy_price";
        "sell_price"; "spread_bps"; "estimated_size_jpy"; "expected_profit_jpy"] /\
     answers_object E (base ++ "/v1/portfolio")
       ["updated_at"; "total_value_jpy"; "exchanges"]) /\
  ((script E a).1 = 0 \/ (script E a).1 = 1).
Proof.
  intros Hmode base.
  match goal with
  | |- (_ <-> ?A /\ ?B /\ ?C) /\ _ =>
      cut (((script E a).1 = 0 <-> Forall (fun ok => ok) [A; B; C]) /\
           ((script E a).1 = 0 \/ (script E a).1 = 1))
  end.
  - intros [Hiff Hcode]. split; [|exact Hcode]. rewrite Hiff. split.
    + intros H. apply Forall_cons in H as [H1 H]. apply Forall_cons in H as [H2 H].
      apply Forall_cons in H as [H3 _]. auto.
    + intros (H1 & H2 & H3). repeat constructor; assumption.
  - eapply (script_decides E a [_; _; _]).
    + rewrite Hmode. reflexivity.
    + repeat first [apply Forall2_cons_2 | apply Forall2_nil_2
                   | apply check_object_decides | apply check_array_decides; discriminate].
Qed.

(** X12.  [check_api.py --mode openapi] ends with status 0 exactly
    when each of the eleven endpoints of the OpenAPI contract answers
    200 with the shape and the keys its check requires, and with
    status 1 in every other case. *)
Theorem openapi_exit_status (E : env) (a : args) :
  mode a = "openapi" ->
  let base := rstrip_slash (base_url a) in
  let ex := quote (exchange a) "/" in
  let sym := quote (symbol a) "" in
  ((script E a).1 = 0 <->
     answers_object E (base ++ "/api/v1/health") ["status"] /\
     answers_array E
       (base ++ "/api/v1/orderbooks?" ++ "exchange=" ++ ex ++ "&symbol=" ++ sym ++
        "&depth=5") ["exchange"; "symbol"; "timestamp"; "bids"; "asks"] /\
     answers_object E (base ++ "/api/v1/orderbooks/" ++ ex ++ "/" ++ sym ++ "?depth=5")
       ["exchange"; "symbol"; "timestamp"; "bids"; "asks"] /\
     answers_array E (base ++ "/api/v1/orderbooks/history?limit=5")
       ["exchange"; "symbol"; "timestamp"; "bids"; "asks"] /\
     answers_array E (base ++ "/api/v1/opportunities")
       ["symbol"; "buy_exchange"; "sell_exchange"; "buy_price"; "sell_price";
        "spread_jpy"; "spread_pct"; "timestamp"] /\
     answers_array E (base ++ "/api/v1/opportunities/history?limit=5")
       ["symbol"; "buy_exchange"; "sell_exchange"; "buy_price"; "sell_price";
        "spread_jpy"; "spread_pct"; "timestamp"] /\
     answers_object E (base ++ "/api/v1/portfolio")
       ["balances"; "total_value_jpy"; "last_updated"] /\
     answers_object E (base ++ "/api/v1/executions/summary")
       ["active_orders"; "recent_executions"; "total_trades"; "successful_trades";
        "failed_trades"; "total_profit_jpy"] /\
     answers_array E (base ++ "/api/v1/executions/history?limit=5")
       ["id"; "opportunity"; "buy_order_id"; "sell_order_id"; "status"; "created_at";
        "one_sided_risk"] /\
     answers_object E (base ++ "/api/v1/stats")
       ["total_orderbooks"; "orderbook_history_size"; "current_opportunities";
        "opportunity_history_size"; "active_orders"; "execution_history_size";
        "total_trades"; "successful_trades"; "failed_trades"; "total_profit_jpy"] /\
     answers_object E (base ++ "/api/v1/data/all")
       ["orderbooks"; "opportunities"; "execution_summary"; "timestamp"]) /\
  ((script E a).1 = 0 \/ (script E a).1 = 1).
Proof.
  intros Hmode base ex sym.
  match goal with
  | |- (_ <-> ?A /\ ?B /\ ?C /\ ?D /\ ?F /\ ?G /\ ?H /\ ?I /\ ?J /\ ?K /\ ?L) /\ _ =>
      cut (((script E a).1 = 0 <->
            Forall (fun ok => ok) [A; B; C; D; F; G; H; I; J; K; L]) /\
           ((script E a).1 = 0 \/ (script E a).1 = 1))
  end.
  - intros [Hiff Hcode]. split; [|exact Hcode]. split.
    + intros H0. apply Hiff in H0. repeat (apply Forall_cons in H0 as [? H0]).
      repeat split; assumption.
    + intros H0. apply Hiff. do 10 (destruct H0 as [? H0]).
      repeat constructor; assumption.
  - eapply (script_decides E a [_; _; _; _; _; _; _; _; _; _; _]).
    + rewrite Hmode. reflexivity.
    + repeat first [apply Forall2_cons_2 | apply Forall2_nil_2
                   | apply check_object_decides | apply check_health_decides
                   | apply check_array_decides; discriminate].
Qed.

(** The membership of a given string in a given list. *)
Ltac listed :=
  repeat first [apply list_elem_of_here | apply list_elem_of_further].

Ltac conforms :=
  eexists; split; [reflexivity|];
  try (eexists; split; [reflexivity|]);
  try done;
  let k := fresh "k" in let Hk := fresh "Hk" in
  intros k Hk; unfold keys;
  repeat (apply elem_of_cons in Hk as [-> | Hk]); [listed.. | inversion Hk].

(** A server of the legacy contract passes, with the default
    arguments. *)
Lemma arbgui_exit_status_witness :
  mode default_args = "arbgui" /\ (script legacy_server default_args).1 = 0.
Proof.
  split; [reflexivity|].
  destruct (arbgui_exit_status legacy_server default_args eq_refl) as [Hiff _].
  apply Hiff. split; [|split]; conforms.
Defined.

(** A server of the OpenAPI contract passes. *)
Lemma openapi_exit_status_witness :
  (script openapi_server (Args "http://0.0.0.0:8000/" "openapi" "bitbank" "XRP/JPY")).1 = 0.
Proof.
  destruct (openapi_exit_status openapi_server
              (Args "http://0.0.0.0:8000/" "openapi" "bitbank" "XRP/JPY") eq_refl)
    as [Hiff _].
  apply Hiff. repeat split; conforms.
Defined.

End ContractProps.

(** ** HTTP errors in the contract checker *)

Module ReportProps.
Import IO Net CheckApi.

Lemma fetch_json_http_error (E : env) (url : string) (code : Z)
    (fp : option (option string)) :
  urlopen E url = Failure (HTTPError code fp) ->
  fetch_json E url =
    match fp with
    | None => Returned (code, JStr "")
    | Some (Some text) => Returned (code, JStr text)
    | Some None => Raised ValueError
    end.
Proof.
  intros H. unfold fetch_json, request, attempt. rewrite H. simpl.
  by destruct fp as [[text|]|].
Qed.

(** X13.  An answer with an HTTP error status does not stop the
    checker, unlike a refused connection: [fetch_json] returns the
    status with the text of the error page, and each kind of check
    counts one failure and prints [[NG] label: status=code], whatever
    the code and the page are.  The exception is an error page that is
    not UTF-8: decoding it in the handler raises [ValueError]
    ([UnicodeDecodeError]) out of [fetch_json], and the check raises
    without printing. *)
Theorem http_error_is_reported (E : env) (url label keys_label : string)
    (required : list string) (code : Z) (fp : option (option string))
    (n : nat) (out : list string) :
  urlopen E url = Failure (HTTPError code fp) ->
  (fp <> Some None ->
   let line := "[NG] " ++ label ++ ": status=" ++ pretty code in
   (exists text, fetch_json E url = Returned (code, JStr text)) /\
   check_object E url label required n out = (Returned (n + 1)%nat, (out ++ [line])%list) /\
   check_array E url label keys_label required n out
     = (Returned (n + 1)%nat, (out ++ [line])%list) /\
   check_health E url n out
     = (Returned (n + 1)%nat,
        (out ++ [("[NG] health: status=" ++ pretty code)%string])%list)) /\
  (fp = Some None ->
   fetch_json E url = Raised ValueError /\
   check_object E url label required n out = (Raised ValueError, out) /\
   check_array E url label keys_label required n out = (Raised ValueError, out) /\
   check_health E url n out = (Raised ValueError, out)).
Proof.
  intros H. pose proof (fetch_json_http_error E url code fp H) as Hf. split.
  - intros Hfp line.
    assert (Htext : exists text, fetch_json E url = Returned (code, JStr text)).
    { destruct fp as [[text|]|]; [by exists text | done | by exists ""]. }
    destruct Htext as [text Ht]. split; [by exists text|].
    unfold check_object, check_array, check_health, IO.bind, lift. rewrite Ht.
    cbn [is_dict ensure_list is_list negb]. rewrite !orb_true_r.
    destruct (negb (code =? 200)); done.
  - intros ->. split; [done|].
    unfold check_object, check_array, check_health, IO.bind, lift. by rewrite Hf.
Qed.

(** A server that answers 503 with an HTML page fails the three
    checks of the legacy contract, one line each. *)
Lemma http_error_is_reported_witness :
  check_object Contract.unavailable "http://0.0.0.0:8000/v1/portfolio" "portfolio"
    ["updated_at"; "total_value_jpy"; "exchanges"] 2 []
    = (Returned 3%nat, ["[NG] portfolio: status=503"]) /\
  script Contract.unavailable default_args =
    (1, ["[NG] orderbook latest: status=503"; "[NG] opportunities latest: status=503";
         "[NG] portfolio: status=503";
         newline ++ "FAILED: 3 check(s) failed."]).
Proof.
  split; [|vm_compute; reflexivity].
  destruct (http_error_is_reported Contract.unavailable "http://0.0.0.0:8000/v1/portfolio"
              "portfolio" "" ["updated_at"; "total_value_jpy"; "exchanges"] 503
              (Some (Some "<html>")) 2 [] eq_refl) as [Hok _].
  destruct (Hok ltac:(discriminate)) as (_ & Hobject & _).
  rewrite Hobject. reflexivity.
Defined.

End ReportProps.

(** ** The lines of the key checks *)

Module LineProps.
Import IO Net CheckApi Contract ValidatorProps.

Lemma append_assoc (s t u : string) : (s ++ t) ++ u = s ++ t ++ u.
Proof.
  induction s as [|c s IH]; [reflexivity|].
  change (String c ((s ++ t) ++ u) = String c (s ++ t ++ u)). by rewrite IH.
Qed.

Lemma join_not_empty (k : string) (rest : list string) :
  k <> "" -> String.eqb (join "," (k :: rest)) "" = false.
Proof.
  intros Hk. apply String.eqb_neq. destruct k as [|c k]; [done|].
  unfold join. destruct rest; simpl; [discriminate|].
  change (String c k ++ "," ++ String.concat "," (s :: rest))
    with (String c (k ++ "," ++ String.concat "," (s :: rest))).
  discriminate.
Qed.

Lemma print_keys_line (label : string) (missing : list string) (out : list string) :
  "" ∉ missing ->
  print_result (is_empty missing) (label ++ " keys") (join "," missing) out =
    (Returned tt,
     (out ++ [(if is_empty missing then "[OK] " ++ label ++ " keys"
               else "[NG] " ++ label ++ " keys: " ++ join "," missing)%string])%list).
Proof.
  intros Hm. unfold print_result. destruct missing as [|k rest]; [reflexivity|].
  rewrite join_not_empty; [|intros ->; apply Hm; left].
  cbn [negb is_empty]. by rewrite append_assoc.
Qed.

(** X14.  What a key check prints: for an answer that is an object
    (or a list whose first element is looked at), the line is
    [[OK] label keys] when no required key is missing, and otherwise
    [[NG] label keys: ] followed by the missing keys, separated by
    commas, in the order of the required list, and one failure is
    counted.  When the first element of a list is not an object, every
    required key is listed.  Required keys are not empty strings. *)
Theorem key_check_lists_missing_keys (E : env) (url label stem : string)
    (required : list string) (n : nat) (out : list string) :
  "" ∉ required ->
  (forall d,
     fetch_json E url = Returned (200, JObj d) ->
     let missing := filter (λ k, k ∉ keys d) required in
     check_object E url label required n out =
       (Returned (n + (if is_empty missing then 0 else 1))%nat,
        (out ++ [(if is_empty missing then "[OK] " ++ label ++ " keys"
                  else "[NG] " ++ label ++ " keys: " ++ join "," missing)%string])%list)) /\
  (forall first rest,
     fetch_json E url = Returned (200, JArr (first :: rest)) ->
     let missing := match first with
                    | JObj d => filter (λ k, k ∉ keys d) required
                    | _ => required
                    end in
     check_array E url label (stem ++ " keys") required n out =
       (Returned (n + (if is_empty missing then 0 else 1))%nat,
        (out ++ [(if is_empty missing then "[OK] " ++ stem ++ " keys"
                  else "[NG] " ++ stem ++ " keys: " ++ join "," missing)%string])%list)).
Proof.
  intros Hreq.
  assert (Hfilter : forall d, "" ∉ filter (λ k, k ∉ keys d) required).
  { intros d Hin. apply list_elem_of_filter in Hin as [_ Hin]. by apply Hreq. }
  split.
  - intros d Hf missing. unfold check_object, IO.bind, lift. rewrite Hf.
    cbn [Z.eqb Pos.eqb negb is_dict orb]. rewrite ensure_keys_dict.
    fold (keys d). fold missing. rewrite print_keys_line by apply Hfilter.
    reflexivity.
  - intros first rest Hf missing. unfold check_array, IO.bind, lift. rewrite Hf.
    cbn -[print_result missing_keys is_empty join].
    assert (Hm : missing_keys first required = Returned missing).
    { subst missing. destruct first; try reflexivity. apply ensure_keys_dict. }
    rewrite Hm. rewrite print_keys_line; [reflexivity|].
    subst missing. destruct first; solve [done | apply Hfilter].
Qed.

(** An empty object for the portfolio of the legacy contract. *)
Lemma key_check_lists_missing_keys_witness :
  check_object (answering 200 (JObj [("updated_at", JNull)]))
    "http://0.0.0.0:8000/v1/portfolio" "portfolio"
    ["updated_at"; "total_value_jpy"; "exchanges"] 0 []
  = (Returned 1%nat, ["[NG] portfolio keys: total_value_jpy,exchanges"]).
Proof.
  destruct (key_check_lists_missing_keys (answering 200 (JObj [("updated_at", JNull)]))
              "http://0.0.0.0:8000/v1/portfolio" "portfolio" ""
              ["updated_at"; "total_value_jpy"; "exchanges"] 0 []) as [Hobject _].
  - intros H. repeat (apply elem_of_cons in H as [H|H]; [discriminate|]). inversion H.
  - rewrite (Hobject [("updated_at", JNull)] eq_refl). reflexivity.
Defined.

End LineProps.

(** ** The validator and values that are not mappings *)

Module GuardProps.
Import IO Net CheckApi Contract ValidatorProps LineProps.

Lemma eq_str (k : string) (x : json) : Py.eq (JStr k) x = true <-> x = JStr k.
Proof.
  destruct x; simpl; try (split; [discriminate | congruence]).
  rewrite String.eqb_eq. split; congruence.
Qed.

Lemma in_list (k : string) (items : list json) :
  existsb (Py.eq (JStr k)) items = true <-> k ∈ strings items.
Proof.
  unfold strings. rewrite existsb_exists, list_elem_of_omap. split.
  - intros (x & Hin & Heq). apply eq_str in Heq as ->.
    exists (JStr k). split; [by apply list_elem_of_In | done].
  - intros (x & Hin & Hs). exists x. split; [by apply list_elem_of_In|].
    apply eq_str. destruct x; congruence.
Qed.

Lemma ensure_keys_list (items : list json) (keys : list string) :
  ensure_keys (JArr items) keys = Returned (filter (λ k, k ∉ strings items) keys).
Proof.
  induction keys as [|k keys IH]; [done|].
  cbn [ensure_keys py_in Py.bind]. rewrite IH. cbn [Py.bind]. rewrite filter_cons.
  destruct (existsb (Py.eq (JStr k)) items) eqn:E.
  - apply in_list in E. by rewrite decide_False by (intros H; by apply H).
  - rewrite decide_True; [done|]. intros Hin. apply in_list in Hin. congruence.
Qed.

Lemma ensure_keys_str (s : string) (keys : list string) :
  ensure_keys (JStr s) keys = Returned (filter (λ k, is_substring k s = false) keys).
Proof.
  induction keys as [|k keys IH]; [done|].
  simpl. rewrite IH. simpl. rewrite filter_cons.
  destruct (is_substring k s) eqn:E.
  - by rewrite decide_False by congruence.
  - by rewrite decide_True.
Qed.

(** C7, as amended.  [ensure_keys] is declared on a mapping, and the
    checks apply it to a mapping only.  Where a check looks at the
    first element of an array (lines 85, 127, 152, 175, 198 and 249)
    and that element is not a mapping, [isinstance] answers for
    [ensure_keys] and every required key is reported as missing, in
    one [NG] line.  Where a check expects an object and the answer is
    not a mapping, the check fails on the status line and lists no
    key.  [ensure_keys] itself evaluates [k not in obj]: of a list it
    returns the required keys that are not elements of it, of a
    string those that are not substrings of it, and on a number or
    [None] it raises [TypeError] as soon as a key is required. *)
Theorem ensure_keys_not_mapping (required_keys : list string) :
  (forall (E : env) (url label stem : string) (n : nat) (out : list string) first rest,
     fetch_json E url = Returned (200, JArr (first :: rest)) ->
     is_dict first = false ->
     required_keys <> [] -> ("" ∉ required_keys) ->
     check_array E url label (stem ++ " keys") required_keys n out =
       (Returned (n + 1)%nat,
        (out ++ [("[NG] " ++ stem ++ " keys: " ++ join "," required_keys)%string])%list)) /\
  (forall (E : env) (url label : string) (n : nat) (out : list string) document,
     fetch_json E url = Returned (200, document) ->
     is_dict document = false ->
     check_object E url label required_keys n out =
       (Returned (n + 1)%nat, (out ++ [("[NG] " ++ label ++ ": status=200")%string])%list)) /\
  (forall items,
     ensure_keys (JArr items) required_keys
       = Returned (filter (λ k, k ∉ strings items) required_keys)) /\
  (forall s,
     ensure_keys (JStr s) required_keys
       = Returned (filter (λ k, is_substring k s = false) required_keys)) /\
  (forall document,
     document = JNull \/ is_number document = true ->
     required_keys <> [] ->
     ensure_keys document required_keys = Raised TypeError).
Proof.
  split; [|split; [|split; [|split]]].
  - intros E url label stem n out first rest Hf Hd Hne Hreq.
    unfold check_array, IO.bind, lift. rewrite Hf.
    cbn -[print_result missing_keys is_empty join].
    unfold missing_keys. rewrite Hd. rewrite print_keys_line by done.
    by destruct required_keys.
  - intros E url label n out document Hf Hd.
    unfold check_object, IO.bind, lift. rewrite Hf.
    cbn [Z.eqb Pos.eqb negb orb]. rewrite Hd. reflexivity.
  - intros items. apply ensure_keys_list.
  - intros s. apply ensure_keys_str.
  - intros document Hdoc Hne. destruct required_keys as [|k keys]; [done|].
    destruct Hdoc as [-> | Hnum]; [done|]. by destruct document.
Qed.

End GuardProps.

(** ** A fetch that raises *)

Module AbortProps.
Import IO Net CheckApi ValidatorProps RunProps.

Section Server.
Variable E : env.

Lemma check_object_raises url label required n out e :
  fetch_json E url = Raised e ->
  check_object E url label required n out = (Raised e, out).
Proof. intros H. unfold check_object, IO.bind, lift. by rewrite H. Qed.

Lemma check_array_raises url label keys_label required n out e :
  fetch_json E url = Raised e ->
  check_array E url label keys_label required n out = (Raised e, out).
Proof. intros H. unfold check_array, IO.bind, lift. by rewrite H. Qed.

Lemma check_object_returns url label required n out :
  returns (fetch_json E url) ->
  exists n' line,
    check_object E url label required n out = (Returned n', (out ++ [line])%list).
Proof.
  intros [[status data] H]. unfold check_object, IO.bind, lift. rewrite H.
  destruct (negb (status =? 200) || negb (is_dict data)) eqn:Hc.
  - printed_line line Hng. by eexists _, _.
  - apply orb_false_iff in Hc as [_ Hd]. apply negb_false_iff in Hd.
    destruct data; try discriminate Hd. rewrite ensure_keys_dict.
    printed_line line Hng. by eexists _, _.
Qed.

Lemma check_array_returns url label keys_label required n out :
  returns (fetch_json E url) ->
  exists n' line,
    check_array E url label keys_label required n out
      = (Returned n', (out ++ [line])%list).
Proof.
  intros [[status data] H]. unfold check_array, IO.bind, lift. rewrite H.
  destruct (negb (status =? 200) || negb (ensure_list data)) eqn:Hc.
  - printed_line line Hng. by eexists _, _.
  - apply orb_false_iff in Hc as [_ Hd]. apply negb_false_iff in Hd.
    destruct data as [| | | | |items|]; try discriminate Hd.
    destruct items as [|first items]; cbn -[print_result missing_keys is_ng].
    + printed_line line Hng. by eexists _, _.
    + destruct (missing_keys_returns first required) as [missing ->].
      printed_line line Hng. by eexists _, _.
Qed.

(** X15.  The checker of the legacy contract stops at the first
    fetch that raises: the lines printed are those of the checks
    before it, one each, no later check runs, no summary is printed,
    and the process ends with status 1 through the exception. *)
Theorem arbgui_stops_at_first_exception (a : args) (e : exn) :
  mode a = "arbgui" ->
  let base := rstrip_slash (base_url a) in
  let orderbook_url :=
    base ++ "/v1/orderbook/" ++ exchange a ++ "/" ++ quote (symbol a) "" ++ "/latest" in
  let opp_url := base ++ "/v1/opportunities/latest" in
  let portfolio_url := base ++ "/v1/portfolio" in
  (fetch_json E orderbook_url = Raised e ->
   run (main E a) = (Raised e, []) /\ script E a = (1, [])) /\
  (returns (fetch_json E orderbook_url) -> fetch_json E opp_url = Raised e ->
   exists line,
     run (main E a) = (Raised e, [line]) /\ script E a = (1, [line])) /\
  (returns (fetch_json E orderbook_url) -> returns (fetch_json E opp_url) ->
   fetch_json E portfolio_url = Raised e ->
   exists line1 line2,
     run (main E a) = (Raised e, [line1; line2]) /\ script E a = (1, [line1; line2])).
Proof.
  intros Hmode base orderbook_url opp_url portfolio_url.
  assert (Hmain : forall out,
            test_arbgui E base (exchange a) (symbol a) [] = (Raised e, out) ->
            run (main E a) = (Raised e, out) /\ script E a = (1, out)).
  { intros out Ht.
    assert (Hrun : run (main E a) = (Raised e, out)).
    { unfold run, main, IO.bind. rewrite Hmode, String.eqb_refl. fold base.
      by rewrite Ht. }
    split; [exact Hrun|]. unfold script. by rewrite Hrun. }
  unfold test_arbgui in Hmain. fold orderbook_url opp_url portfolio_url in Hmain.
  split; [|split].
  - intros H1. apply Hmain. unfold IO.bind.
    by rewrite (check_object_raises _ _ _ _ _ e H1).
  - intros H1 H2.
    destruct (check_object_returns orderbook_url "orderbook latest"
                ["exchange"; "symbol"; "timestamp"; "bids"; "asks"; "best_bid";
                 "best_ask"; "mid_price"; "spread"] 0%nat [] H1) as (n1 & line1 & Hc1).
    exists line1. apply Hmain. unfold IO.bind. rewrite Hc1.
    by rewrite (check_array_raises _ _ _ _ _ _ e H2).
  - intros H1 H2 H3.
    destruct (check_object_returns orderbook_url "orderbook latest"
                ["exchange"; "symbol"; "timestamp"; "bids"; "asks"; "best_bid";
                 "best_ask"; "mid_price"; "spread"] 0%nat [] H1) as (n1 & line1 & Hc1).
    destruct (check_array_returns opp_url "opportunities latest" "opportunities keys"
                ["timestamp"; "base_symbol"; "buy_exchange"; "sell_exchange"; "buy_price";
                 "sell_price"; "spread_bps"; "estimated_size_jpy"; "expected_profit_jpy"]
                n1 ([] ++ [line1])%list H2) as (n2 & line2 & Hc2).
    exists line1, line2. apply Hmain. unfold IO.bind. rewrite Hc1, Hc2.
    by rewrite (check_object_raises _ _ _ _ _ e H3).
Qed.

End Server.

(** With the opportunities endpoint down and the others answering,
    one line is printed before the exception. *)
Lemma arbgui_stops_at_first_exception_witness :
  exists line, script opportunities_down default_args = (1, [line]).
Proof.
  destruct (arbgui_stops_at_first_exception opportunities_down default_args URLError
              eq_refl) as (_ & Hsecond & _).
  destruct Hsecond as (line & _ & Hscript); [by eexists | reflexivity |].
  by exists line.
Defined.

End AbortProps.

(** ** The positions of the portfolio tab *)

Module PortfolioProps.
Import StreamlitApp.

(** The rows of one exchange and of all exchanges, as
    comprehensions. *)
Lemma exchange_positions_app (ex : string) (ex_balances : dict) (positions : list dict) :
  exchange_positions ex ex_balances positions =
    (positions ++
     flat_map (fun item => match item.2 with
                           | JObj fields => [position ex item.1 fields]
                           | _ => []
                           end) ex_balances)%list.
Proof.
  revert positions. induction ex_balances as [|[currency balance] rest IH];
    intros positions; simpl; [by rewrite app_nil_r|].
  destruct balance; simpl; rewrite IH; try done. by rewrite <- app_assoc.
Qed.

Lemma balances_positions_app (balances : dict) (positions : list dict) :
  balances_positions balances positions =
    (positions ++
     flat_map (fun entry =>
                 match entry.2 with
                 | JObj ex_balances =>
                     flat_map (fun item => match item.2 with
                                           | JObj fields => [position entry.1 item.1 fields]
                                           | _ => []
                                           end) ex_balances
                 | _ => []
                 end) balances)%list.
Proof.
  revert positions. induction balances as [|[ex ex_balances] rest IH];
    intros positions; simpl; [by rewrite app_nil_r|].
  destruct ex_balances; simpl; rewrite IH; try done.
  by rewrite exchange_positions_app, <- app_assoc.
Qed.

(** X16.  [build_portfolio_positions] returns one row for every
    currency whose balance is an object, under every exchange whose
    entry is an object, in the order of the document; an exchange or a
    balance of another shape is passed over without an error.  A
    portfolio without [balances] has no rows.  When [balances] is
    present and is not an object ([null], a list, a number), the call
    raises [AttributeError]. *)
Theorem build_portfolio_positions_rows (portfolio : dict) :
  (lookup portfolio "balances" = None ->
   build_portfolio_positions (JObj portfolio) = Returned []) /\
  (forall balances,
     lookup portfolio "balances" = Some (JObj balances) ->
     exists rows,
       build_portfolio_positions (JObj portfolio) = Returned rows /\
       rows = flat_map (fun entry =>
                match entry.2 with
                | JObj ex_balances =>
                    flat_map (fun item => match item.2 with
                                          | JObj fields => [position entry.1 item.1 fields]
                                          | _ => []
                                          end) ex_balances
                | _ => []
                end) balances /\
       (forall row, row ∈ rows <->
          exists ex ex_balances currency fields,
            (ex, JObj ex_balances) ∈ balances /\
            (currency, JObj fields) ∈ ex_balances /\
            row = position ex currency fields)) /\
  (forall v, lookup portfolio "balances" = Some v -> is_dict v = false ->
             build_portfolio_positions (JObj portfolio) = Raised AttributeError).
Proof.
  unfold build_portfolio_positions, get_default. split; [|split].
  - by intros ->.
  - intros balances ->. eexists. split; [reflexivity|].
    rewrite balances_positions_app. simpl. split; [reflexivity|].
    intros row. rewrite list_elem_of_In, in_flat_map. split.
    + intros ([ex v] & Hin & Hrow). simpl in Hrow.
      destruct v as [| | | | | |ex_balances]; try done.
      apply in_flat_map in Hrow as ([currency b] & Hin' & Hrow). simpl in Hrow.
      destruct b as [| | | | | |fields]; try done.
      destruct Hrow as [<- | []].
      exists ex, ex_balances, currency, fields.
      by rewrite !list_elem_of_In.
    + intros (ex & ex_balances & currency & fields & Hin & Hin' & ->).
      exists (ex, JObj ex_balances). split; [by apply list_elem_of_In|].
      simpl. apply in_flat_map. exists (currency, JObj fields).
      split; [by apply list_elem_of_In | by left].
  - intros v -> Hv. by destruct v.
Qed.

End PortfolioProps.

(** ** The figures of an opportunity row *)

Module FormulaProps.
Import StreamlitApp MetricProps RowProps.

(** Integers, with [True] and [False] among them, stay integers
    under the operations of the row: no float arithmetic takes
    part. *)
Lemma as_int_is_number (x : json) (z : Z) : as_int x = Some z -> is_number x = true.
Proof. by destruct x. Qed.

Lemma as_int_truthy (x : json) (z : Z) : as_int x = Some z -> z <> 0 -> truthy x = true.
Proof.
  destruct x as [|b|i| | | |]; try discriminate; simpl; intros [= <-] Hz.
  - by destruct b.
  - apply negb_true_iff. by apply Z.eqb_neq.
Qed.

Lemma Qltb_inject_Z (x y : Z) : Qltb (inject_Z x) (inject_Z y) = (x <? y).
Proof.
  unfold Qltb, Qcompare, Z.ltb. simpl. by rewrite !Z.mul_1_r.
Qed.

Lemma lt_int (a b : json) (x y : Z) :
  as_int a = Some x -> as_int b = Some y -> lt a b = Returned (x <? y).
Proof.
  intros Ha Hb. rewrite <- Qltb_inject_Z.
  pose proof (as_int_number _ _ Ha) as Na. pose proof (as_int_number _ _ Hb) as Nb.
  destruct a; try discriminate Ha; destruct b; try discriminate Hb;
    cbn [lt]; by rewrite Na, Nb.
Qed.

Lemma min_int (a b : json) (x y : Z) :
  as_int a = Some x -> as_int b = Some y ->
  exists m, Py.min a b = Returned m /\ as_int m = Some (Z.min x y).
Proof.
  intros Ha Hb. unfold Py.min. rewrite (lt_int b a y x) by done.
  destruct (y <? x) eqn:E.
  - exists b. split; [done|]. apply Z.ltb_lt in E. rewrite Z.min_r by lia. done.
  - exists a. split; [done|]. apply Z.ltb_ge in E. rewrite Z.min_l by lia. done.
Qed.

Lemma mul_int (a b : json) (x y : Z) :
  as_int a = Some x -> as_int b = Some y -> mul a b = Returned (JInt (x * y)).
Proof.
  intros Ha Hb.
  destruct a; try discriminate Ha; destruct b; try discriminate Hb;
    simpl in Ha, Hb; inversion Ha; inversion Hb; reflexivity.
Qed.

Lemma round_int (x : json) (z : Z) (ndigits : nat) :
  as_int x = Some z -> round x ndigits = Returned (JInt z).
Proof. intros H. destruct x; try discriminate H; simpl in *; by inversion H. Qed.

Lemma int_int (x : json) (z : Z) : as_int x = Some z -> int x = Returned (JInt z).
Proof. intros H. destruct x; try discriminate H; simpl in *; by inversion H. Qed.

Section Figures.
Variable fromisoformat : string -> outcome Datetime.t.
Variable repr : json -> string.

(** X17.  The figures of a row, for a record whose amounts, prices
    and spread are integers other than zero: the estimated size is the
    smaller amount times the smaller price, the expected profit is the
    spread in yen times the smaller amount, and the spread in basis
    points is [spread_pct] times 100 when [spread_pct] is an integer.
    All three are integers: on integers [round] changes nothing. *)
Theorem opportunity_row_figures (opp row : dict)
    (buy_amount sell_amount buy_price sell_price spread_jpy : Z) :
  as_int (get opp "buy_available_amount") = Some buy_amount ->
  as_int (get opp "sell_available_amount") = Some sell_amount ->
  as_int (get opp "buy_price") = Some buy_price ->
  as_int (get opp "sell_price") = Some sell_price ->
  as_int (get opp "spread_jpy") = Some spread_jpy ->
  buy_amount <> 0 -> sell_amount <> 0 ->
  buy_price <> 0 -> sell_price <> 0 -> spread_jpy <> 0 ->
  opportunity_row_of fromisoformat repr opp = Returned row ->
  lookup row "想定サイズ"
    = Some (JInt (Z.min buy_amount sell_amount * Z.min buy_price sell_price)) /\
  lookup row "推定利益" = Some (JInt (spread_jpy * Z.min buy_amount sell_amount)) /\
  (forall spread_pct,
     as_int (get opp "spread_pct") = Some spread_pct ->
     lookup row "スプレッド(bps)" = Some (JInt (spread_pct * 100))).
Proof.
  intros Hba Hsa Hbp Hsp Hsj Nba Nsa Nbp Nsp Nsj Hrow.
  unfold opportunity_row_of in Hrow.
  (* the smaller amount *)
  destruct (min_int _ _ _ _ Hba Hsa) as (m & Hm & Vm).
  assert (Nm : Z.min buy_amount sell_amount <> 0) by lia.
  unfold min_available in Hrow.
  rewrite (as_int_truthy _ _ Hba Nba), (as_int_truthy _ _ Hsa Nsa), Hm in Hrow.
  cbn [andb Py.bind] in Hrow.
  (* the spread in basis points *)
  destruct (spread_bps (get opp "spread_pct")) as [bps|] eqn:Hbps; [|discriminate Hrow].
  cbn [Py.bind] in Hrow.
  (* the estimated size *)
  destruct (min_int _ _ _ _ Hbp Hsp) as (price & Hprice & Vprice).
  unfold estimated_size_jpy in Hrow.
  rewrite (as_int_truthy _ _ Vm Nm), (as_int_truthy _ _ Hbp Nbp),
    (as_int_truthy _ _ Hsp Nsp), Hprice in Hrow.
  cbn [andb Py.bind] in Hrow. rewrite (mul_int _ _ _ _ Vm Vprice) in Hrow.
  cbn [Py.bind] in Hrow. rewrite (round_int (JInt _) _ 0 eq_refl) in Hrow.
  cbn [Py.bind] in Hrow.
  (* the expected profit *)
  unfold expected_profit_jpy in Hrow.
  rewrite (as_int_truthy _ _ Vm Nm), (as_int_truthy _ _ Hsj Nsj),
    (mul_int _ _ _ _ Hsj Vm) in Hrow.
  cbn [andb Py.bind] in Hrow. rewrite (round_int (JInt _) _ 2 eq_refl) in Hrow.
  cbn [Py.bind] in Hrow.
  (* the label and the cells *)
  destruct (format_time_label _ _ _) as [label|]; [|discriminate Hrow].
  cbn [Py.bind] in Hrow. unfold size_cell in Hrow.
  cbn [is_number as_number int as_int Py.bind profit_cell] in Hrow.
  inversion Hrow as [Hcells]. clear Hrow Hcells.
  split; [reflexivity|]. split; [reflexivity|].
  intros spread_pct Vpct. unfold spread_bps in Hbps.
  rewrite (as_int_is_number _ _ Vpct), (mul_int _ (JInt 100) _ 100 Vpct eq_refl) in Hbps.
  cbn [Py.bind] in Hbps. rewrite (round_int (JInt _) _ 2 eq_refl) in Hbps.
  inversion Hbps; subst. reflexivity.
Qed.

End Figures.

(** Three units at 100 and 101 yen with a spread of one yen: a size
    of 300 yen and a profit of 3 yen. *)
Lemma opportunity_row_figures_witness :
  exists row,
    opportunity_row_of Datetime.fromisoformat_basic (fun _ => "")
      [("buy_available_amount", JInt 3); ("sell_available_amount", JInt 4);
       ("buy_price", JInt 100); ("sell_price", JInt 101); ("spread_jpy", JInt 1)]
      = Returned row /\
    lookup row "想定サイズ" = Some (JInt 300) /\
    lookup row "推定利益" = Some (JInt 3).
Proof.
  eexists. split; [reflexivity|].
  match goal with
  | |- lookup ?row _ = _ /\ _ =>
      destruct (opportunity_row_figures Datetime.fromisoformat_basic (fun _ => "")
                  [("buy_available_amount", JInt 3); ("sell_available_amount", JInt 4);
                   ("buy_price", JInt 100); ("sell_price", JInt 101);
                   ("spread_jpy", JInt 1)]
                  row 3 4 100 101 1) as (Hsize & Hprofit & _)
  end; [reflexivity | reflexivity | reflexivity | reflexivity | reflexivity
       | discriminate | discriminate | discriminate | discriminate | discriminate
       | reflexivity | split; [exact Hsize | exact Hprofit]].
Defined.

End FormulaProps.

(** ** The highlighted level of the order book tab *)

Module HighlightProps.
Import StreamlitApp MetricProps.

Lemma eq_str_l (s : string) (b : json) : Py.eq (JStr s) b = true <-> b = JStr s.
Proof.
  destruct b; simpl; split; try discriminate.
  - intros H. apply String.eqb_eq in H. by subst.
  - intros [= ->]. apply String.eqb_refl.
Qed.

Lemma eq_str_r (a : json) (s : string) : Py.eq a (JStr s) = true <-> a = JStr s.
Proof.
  destruct a; simpl; split; try discriminate.
  - intros H. apply String.eqb_eq in H. by subst.
  - intros [= ->]. apply String.eqb_refl.
Qed.

Lemma eq_str_neq (s : string) (b : json) : b <> JStr s -> Py.eq (JStr s) b = false.
Proof.
  intros H. destruct (Py.eq (JStr s) b) eqn:E; [|done]. by apply eq_str_l in E.
Qed.

Section Bounds.
Variable key : dict -> outcome json.

(** [min] returns an index of the range it is given. *)
Lemma min_index_from_bound (rest : list dict) (i best r : nat) (best_key : json) :
  min_index_from key rest i best best_key = Returned r ->
  (best < i)%nat -> (r < i + length rest)%nat.
Proof.
  revert i best best_key. induction rest as [|level rest IH]; intros i best bk; simpl.
  - intros [= ->]. lia.
  - destruct (key level) as [k|]; [|discriminate]. simpl.
    destruct (lt k bk) as [smaller|]; [|discriminate]. simpl.
    destruct smaller; intros H Hb; apply IH in H; lia.
Qed.

Lemma min_index_bound (levels : list dict) (r : nat) :
  min_index key levels = Returned r -> (r < length levels)%nat.
Proof.
  destruct levels as [|level rest]; [discriminate|]. simpl.
  destruct (key level) as [k|]; [|discriminate]. simpl.
  intros H. apply min_index_from_bound in H; lia.
Qed.

End Bounds.

(** X18.  Whatever the highlight is, [render_orderbook_table] marks a
    row on at most one side of the book, and a marked row exists: an
    index of the asks is below their number, an index of the bids
    below theirs.  Without a highlight, or with a price that is
    [None], no row is marked. *)
Theorem hit_indices_one_side (asks bids : list dict) (highlight : option dict)
    (ask_hit_idx bid_hit_idx : option nat) :
  hit_indices asks bids highlight = Returned (ask_hit_idx, bid_hit_idx) ->
  (ask_hit_idx = None \/ bid_hit_idx = None) /\
  (forall i, ask_hit_idx = Some i -> (i < length asks)%nat) /\
  (forall j, bid_hit_idx = Some j -> (j < length bids)%nat) /\
  (highlight = None -> ask_hit_idx = None /\ bid_hit_idx = None) /\
  (forall h, highlight = Some h -> get h "price" = JNull ->
             ask_hit_idx = None /\ bid_hit_idx = None).
Proof.
  unfold hit_indices.
  set (role := match highlight with
               | Some h => if match highlight with
                              | Some h0 => truthy (JObj h0)
                              | None => false
                              end then get h "role" else JNull
               | None => JNull
               end).
  set (price := match highlight with
                | Some h => if match highlight with
                               | Some h0 => truthy (JObj h0)
                               | None => false
                               end then get h "price" else JNull
                | None => JNull
                end).
  assert (Hnone : highlight = None -> price = JNull) by (by intros ->).
  assert (Hprice : forall h, highlight = Some h -> get h "price" = JNull -> price = JNull).
  { intros h -> Hp. subst price. simpl. rewrite Hp. by destruct h. }
  destruct (is_none price) eqn:Hp; simpl.
  - intros [= <- <-]. repeat split; auto; discriminate.
  - assert (Hsome : price <> JNull) by (intros Heq; by rewrite Heq in Hp).
    assert (Hgiven : (highlight = None -> False) /\
                     (forall h, highlight = Some h -> get h "price" = JNull -> False)).
    { split; [intros H; by apply Hnone in H | intros h H H'; by apply (Hprice h) in H']. }
    destruct Hgiven as [Hg1 Hg2].
    destruct (Py.eq role (JStr "buy")) eqn:Hbuy.
    + assert (Py.eq role (JStr "sell") = false) as ->.
      { apply eq_str_r in Hbuy. by rewrite Hbuy. }
      simpl. destruct (CheckApi.is_empty (rev asks)); simpl.
      * intros [= <- <-]. repeat split; auto; try discriminate; exfalso; eauto.
      * destruct (min_index (distance price) (rev asks)) as [i|] eqn:Hi; [|discriminate].
        simpl. intros [= <- <-]. apply min_index_bound in Hi. rewrite length_rev in Hi.
        repeat split; auto; try discriminate;
          solve [by intros ? [= <-] | exfalso; eauto].
    + simpl. destruct (Py.eq role (JStr "sell") && negb (CheckApi.is_empty bids)); simpl.
      * destruct (min_index (distance price) bids) as [j|] eqn:Hj; [|discriminate].
        simpl. intros [= <- <-]. apply min_index_bound in Hj.
        repeat split; auto; try discriminate;
          solve [by intros ? [= <-] | exfalso; eauto].
      * intros [= <- <-]. repeat split; auto; discriminate.
Qed.

Lemma hit_indices_one_side_witness :
  (Some 1%nat = None \/ @None nat = None) /\
  (forall i, Some 1%nat = Some i -> (i < 3)%nat).
Proof.
  destruct (hit_indices_one_side
              [level_at 100; level_at 105; level_at 110] [level_at 99]
              (Some [("role", JStr "buy"); ("price", JInt 106)])
              (Some 1%nat) None eq_refl) as (H1 & H2 & _).
  split; [exact H1 | exact H2].
Defined.

Section Selection.
Variable fromisoformat : string -> outcome Datetime.t.
Variable repr : json -> string.

(** The cells of a row that the highlight reads. *)
Lemma opportunity_row_of_cells (opp row : dict) :
  opportunity_row_of fromisoformat repr opp = Returned row ->
  exists label bps size profit,
    row =
      [("時刻", JStr label);
       ("通貨", get_default opp "symbol" (JStr ""));
       ("買い取引所", get_default opp "buy_exchange" (JStr ""));
       ("売り取引所", get_default opp "sell_exchange" (JStr ""));
       ("買値", get opp "buy_price");
       ("売値", get opp "sell_price");
       ("スプレッド(bps)", bps);
       ("スプレッド(円)", get opp "spread_jpy");
       ("想定サイズ", size);
       ("推定利益", profit);
       ("_buy_exchange", get opp "buy_exchange");
       ("_sell_exchange", get opp "sell_exchange");
       ("_buy_price", get opp "buy_price");
       ("_sell_price", get opp "sell_price")].
Proof.
  unfold opportunity_row_of. intros H.
  destruct (min_available _ _) as [m|]; [|discriminate]. cbn [Py.bind] in H.
  destruct (spread_bps _) as [bps|]; [|discriminate]. cbn [Py.bind] in H.
  destruct (estimated_size_jpy _ _ _) as [est|]; [|discriminate]. cbn [Py.bind] in H.
  destruct (expected_profit_jpy _ _) as [profit|]; [|discriminate]. cbn [Py.bind] in H.
  destruct (format_time_label _ _ _) as [label|]; [|discriminate]. cbn [Py.bind] in H.
  destruct (size_cell _) as [size|]; [|discriminate]. cbn [Py.bind] in H.
  inversion H. by eexists _, _, _, _.
Qed.

(** What the state of the selected row holds for the highlight. *)
Lemma highlight_state_cells (opp row : dict) (selected_idx : nat) :
  opportunity_row_of fromisoformat repr opp = Returned row ->
  let h_state := highlight_state selected_idx row in
  truthy (JObj h_state) = true /\
  get h_state "買い取引所" = get_default opp "buy_exchange" (JStr "") /\
  get h_state "売り取引所" = get_default opp "sell_exchange" (JStr "") /\
  get h_state "買値" = get opp "buy_price" /\
  get h_state "売値" = get opp "sell_price" /\
  get h_state "row" = JInt (Z.of_nat selected_idx).
Proof.
  intros Hrow. destruct (opportunity_row_of_cells opp row Hrow)
    as (label & bps & size & profit & ->).
  repeat split; reflexivity.
Qed.

Lemma highlight_buy (opp row : dict) (selected_idx : nat) (ex : string) :
  opportunity_row_of fromisoformat repr opp = Returned row ->
  get_default opp "buy_exchange" (JStr "") = JStr ex ->
  highlight ex (highlight_state selected_idx row)
    = Some [("role", JStr "buy"); ("price", get opp "buy_price")].
Proof.
  intros Hrow Hb.
  destruct (highlight_state_cells opp row selected_idx Hrow) as (Ht & Hbx & _ & Hbp & _).
  unfold highlight. rewrite Ht, Hbx, Hbp, Hb. simpl. by rewrite String.eqb_refl.
Qed.

Lemma highlight_sell (opp row : dict) (selected_idx : nat) (ex : string) :
  opportunity_row_of fromisoformat repr opp = Returned row ->
  get_default opp "buy_exchange" (JStr "") <> JStr ex ->
  get_default opp "sell_exchange" (JStr "") = JStr ex ->
  highlight ex (highlight_state selected_idx row)
    = Some [("role", JStr "sell"); ("price", get opp "sell_price")].
Proof.
  intros Hrow Hb Hs.
  destruct (highlight_state_cells opp row selected_idx Hrow)
    as (Ht & Hbx & Hsx & _ & Hsp & _).
  unfold highlight. rewrite Ht, Hbx, Hsx, Hsp, (eq_str_neq _ _ Hb), Hs. simpl.
  by rewrite String.eqb_refl.
Qed.

(** X19.  From the record of an opportunity to the highlight of a
    table: once the row built from [opp] is the selected one, the table
    of the exchange the record buys at gets the role [buy] and the
    record's buy price, the table of the exchange it sells at gets the
    role [sell] and its sell price, buying taking precedence when both
    are the same exchange, and the table of every other exchange gets no
    highlight; the state remembers the selected index. *)
Theorem highlight_of_selected_row (opp row : dict) (selected_idx : nat) (ex : string) :
  opportunity_row_of fromisoformat repr opp = Returned row ->
  let h_state := highlight_state selected_idx row in
  let buy_exchange := get_default opp "buy_exchange" (JStr "") in
  let sell_exchange := get_default opp "sell_exchange" (JStr "") in
  (buy_exchange = JStr ex ->
   highlight ex h_state = Some [("role", JStr "buy"); ("price", get opp "buy_price")]) /\
  (buy_exchange <> JStr ex -> sell_exchange = JStr ex ->
   highlight ex h_state = Some [("role", JStr "sell"); ("price", get opp "sell_price")]) /\
  (buy_exchange <> JStr ex -> sell_exchange <> JStr ex -> highlight ex h_state = None) /\
  get h_state "row" = JInt (Z.of_nat selected_idx).
Proof.
  intros Hrow h_state buy_exchange sell_exchange.
  split; [by apply highlight_buy|]. split; [by apply highlight_sell|].
  destruct (highlight_state_cells opp row selected_idx Hrow)
    as (Ht & Hbx & Hsx & _ & _ & Hidx).
  split; [|exact Hidx].
  intros Hb Hs. subst h_state buy_exchange sell_exchange. unfold highlight.
  by rewrite Ht, Hbx, Hsx, (eq_str_neq _ _ Hb), (eq_str_neq _ _ Hs).
Qed.

(** The nearest level among levels whose prices are numbers. *)
Lemma nearest_level_numbers (levels : list dict) (highlight_price : json) (t : Q)
    (prices : list Q) :
  as_number highlight_price = Some t ->
  Forall2 (fun level p => as_number (get_default level "price" (JInt 0)) = Some p)
          levels prices ->
  levels <> [] ->
  exists i p,
    nearest_level levels highlight_price = Returned (Some i) /\
    prices !! i = Some p /\
    (forall j e, prices !! j = Some e -> (Qabs (p - t) <= Qabs (e - t))%Q) /\
    (forall j e, (j < i)%nat -> prices !! j = Some e -> (Qabs (p - t) < Qabs (e - t))%Q).
Proof.
  intros Ht Hp Hne.
  assert (Hk : Forall2 (keyed (distance highlight_price)) levels
                       ((fun p => Qabs (p - t)) <$> prices)).
  { clear Hne. induction Hp as [|level p levels prices Hl _ IH]; [constructor|].
    simpl. constructor; [|done].
    destruct (distance_valued highlight_price level t p Ht Hl) as (d & Hd & Hv).
    by exists d. }
  destruct (min_index_first _ _ _ Hk Hne) as (i & q & Hi & Hq & Hmin & Hfirst).
  apply list_lookup_fmap_Some_1 in Hq as (p & -> & Hpi).
  exists i, p. split.
  - unfold nearest_level. rewrite Hi.
    destruct highlight_price; try discriminate Ht; by destruct levels.
  - split; [done|]. split.
    + intros j e He. apply (Hmin j). by rewrite list_lookup_fmap, He.
    + intros j e Hj He. apply (Hfirst j); [done|]. by rewrite list_lookup_fmap, He.
Qed.

(** X20.  From the selected opportunity to the marked row: in the
    table of the exchange the record buys at, the marked row is the
    ask, in the order shown (highest first), whose price is nearest to
    the record's buy price, the first such row among equals, and no bid
    is marked; in the table of the exchange it sells at (when it is
    another one), the marked row is the bid nearest to the sell price
    and no ask is marked.  Prices are numbers. *)
Theorem selected_opportunity_marks_nearest (opp row : dict) (selected_idx : nat)
    (ex : string) (asks bids : list dict) :
  opportunity_row_of fromisoformat repr opp = Returned row ->
  let marked := hit_indices asks bids (highlight ex (highlight_state selected_idx row)) in
  (forall (t : Q) (prices : list Q),
     get_default opp "buy_exchange" (JStr "") = JStr ex ->
     as_number (get opp "buy_price") = Some t ->
     Forall2 (fun level p => as_number (get_default level "price" (JInt 0)) = Some p)
             (rev asks) prices ->
     asks <> [] ->
     exists i p,
       marked = Returned (Some i, None) /\ prices !! i = Some p /\
       (forall j e, prices !! j = Some e -> (Qabs (p - t) <= Qabs (e - t))%Q) /\
       (forall j e, (j < i)%nat -> prices !! j = Some e ->
                    (Qabs (p - t) < Qabs (e - t))%Q)) /\
  (forall (t : Q) (prices : list Q),
     get_default opp "buy_exchange" (JStr "") <> JStr ex ->
     get_default opp "sell_exchange" (JStr "") = JStr ex ->
     as_number (get opp "sell_price") = Some t ->
     Forall2 (fun level p => as_number (get_default level "price" (JInt 0)) = Some p)
             bids prices ->
     bids <> [] ->
     exists i p,
       marked = Returned (None, Some i) /\ prices !! i = Some p /\
       (forall j e, prices !! j = Some e -> (Qabs (p - t) <= Qabs (e - t))%Q) /\
       (forall j e, (j < i)%nat -> prices !! j = Some e ->
                    (Qabs (p - t) < Qabs (e - t))%Q)).
Proof.
  intros Hrow marked. split.
  - intros t prices Hb Ht Hp Hne. subst marked.
    rewrite (highlight_buy opp row selected_idx ex Hrow Hb).
    destruct (nearest_level_numbers (rev asks) _ t prices Ht Hp)
      as (i & p & Hi & Hrest).
    { intros Hnil. apply Hne. apply (f_equal (@rev dict)) in Hnil.
      by rewrite rev_involutive in Hnil. }
    exists i, p. split; [|exact Hrest].
    etrans; [exact (proj1 (hit_indices_nearest asks bids
                      [("role", JStr "buy"); ("price", get opp "buy_price")]
                      ltac:(discriminate)) eq_refl)|].
    change (get [("role", JStr "buy"); ("price", get opp "buy_price")] "price")
      with (get opp "buy_price").
    by rewrite Hi.
  - intros t prices Hb Hs Ht Hp Hne. subst marked.
    rewrite (highlight_sell opp row selected_idx ex Hrow Hb Hs).
    destruct (nearest_level_numbers bids _ t prices Ht Hp Hne) as (i & p & Hi & Hrest).
    exists i, p. split; [|exact Hrest].
    etrans; [exact (proj2 (hit_indices_nearest asks bids
                      [("role", JStr "sell"); ("price", get opp "sell_price")]
                      ltac:(discriminate)) eq_refl)|].
    change (get [("role", JStr "sell"); ("price", get opp "sell_price")] "price")
      with (get opp "sell_price").
    by rewrite Hi.
Qed.

End Selection.

(** A record bought at bitbank and sold at zaif. *)
Lemma highlight_of_selected_row_witness :
  exists row,
    opportunity_row_of Datetime.fromisoformat_basic (fun _ => "")
      [("buy_exchange", JStr "bitbank"); ("sell_exchange", JStr "zaif");
       ("buy_price", JInt 105); ("sell_price", JInt 107)] = Returned row /\
    highlight "bitbank" (highlight_state 0 row)
      = Some [("role", JStr "buy"); ("price", JInt 105)] /\
    highlight "zaif" (highlight_state 0 row)
      = Some [("role", JStr "sell"); ("price", JInt 107)] /\
    highlight "gmocoin" (highlight_state 0 row) = None.
Proof.
  eexists. split; [reflexivity|].
  split; [|split].
  - apply (highlight_of_selected_row Datetime.fromisoformat_basic (fun _ => "")
             [("buy_exchange", JStr "bitbank"); ("sell_exchange", JStr "zaif");
              ("buy_price", JInt 105); ("sell_price", JInt 107)] _ 0 "bitbank" eq_refl).
    reflexivity.
  - apply (highlight_of_selected_row Datetime.fromisoformat_basic (fun _ => "")
             [("buy_exchange", JStr "bitbank"); ("sell_exchange", JStr "zaif");
              ("buy_price", JInt 105); ("sell_price", JInt 107)] _ 0 "zaif" eq_refl);
      [discriminate | reflexivity].
  - apply (highlight_of_selected_row Datetime.fromisoformat_basic (fun _ => "")
             [("buy_exchange", JStr "bitbank"); ("sell_exchange", JStr "zaif");
              ("buy_price", JInt 105); ("sell_price", JInt 107)] _ 0 "gmocoin" eq_refl);
      discriminate.
Defined.

(** The same record against a book of three asks: the ask at 105 is
    marked, the second row of the table. *)
Lemma selected_opportunity_marks_nearest_witness :
  exists row i p,
    opportunity_row_of Datetime.fromisoformat_basic (fun _ => "")
      [("buy_exchange", JStr "bitbank"); ("sell_exchange", JStr "zaif");
       ("buy_price", JInt 106); ("sell_price", JInt 107)] = Returned row /\
    hit_indices [level_at 100; level_at 105; level_at 110] [level_at 99]
      (highlight "bitbank" (highlight_state 0 row)) = Returned (Some i, None) /\
    [inject_Z 110; inject_Z 105; inject_Z 100] !! i = Some p.
Proof.
  eexists.
  destruct (selected_opportunity_marks_nearest Datetime.fromisoformat_basic (fun _ => "")
              [("buy_exchange", JStr "bitbank"); ("sell_exchange", JStr "zaif");
               ("buy_price", JInt 106); ("sell_price", JInt 107)] _ 0 "bitbank"
              [level_at 100; level_at 105; level_at 110] [level_at 99] eq_refl)
    as [Hbuy _].
  destruct (Hbuy (inject_Z 106) [inject_Z 110; inject_Z 105; inject_Z 100])
    as (i & p & Hi & Hp & _).
  - reflexivity.
  - reflexivity.
  - repeat constructor.
  - discriminate.
  - exists i, p. split; [reflexivity|]. split; [exact Hi | exact Hp].
Defined.

End HighlightProps.

(** ** The rows of the order book table *)

Module TableProps.
Import CheckApi StreamlitApp.

Section Rows.
Variable row : bool -> dict -> string.
Variable hit_idx : option nat.

(** [is_hit] for the row at [idx]. *)
Lemma build_rows_imap (levels : list dict) (rows : list string) :
  build_rows row hit_idx levels rows =
    (rows ++ imap (fun i lvl =>
                     row (match hit_idx with
                          | Some h => (length rows + i =? h)%nat
                          | None => false
                          end) lvl) levels)%list.
Proof.
  revert rows. induction levels as [|lvl rest IH]; intros rows; simpl.
  - by rewrite app_nil_r.
  - rewrite IH, <- app_assoc. simpl. rewrite Nat.add_0_r. do 2 f_equal.
    apply imap_ext. intros i x _. simpl. rewrite length_app. simpl.
    by replace (length rows + 1 + i)%nat with (length rows + S i)%nat by lia.
Qed.

Lemma build_rows_lookup (levels : list dict) (idx : nat) (line : string) :
  build_rows row hit_idx levels [] !! idx = Some line ->
  exists lvl, levels !! idx = Some lvl /\
              line = row (bool_decide (hit_idx = Some idx)) lvl.
Proof.
  rewrite build_rows_imap. simpl. rewrite list_lookup_imap.
  destruct (levels !! idx) as [lvl|]; [|discriminate]. simpl. intros [= <-].
  exists lvl. split; [done|]. f_equal. destruct hit_idx as [h|]; [|done].
  destruct (idx =? h)%nat eqn:E.
  - apply Nat.eqb_eq in E as ->. by rewrite bool_decide_eq_true_2.
  - apply Nat.eqb_neq in E. rewrite bool_decide_eq_false_2; [done|]. congruence.
Qed.

End Rows.

(** X21.  The rows of the order book table: one row per level, in
    the order given, and the row at the marked index is the only one
    that carries the class [highlight]; with no marked index no row
    carries it.  This holds for the asks (red rows) and for the bids
    (green rows), whatever the amounts and prices are. *)
Theorem marked_row_is_the_only_highlight (repr : json -> string)
    (hit_idx : option nat) (levels : list dict) :
  let asks := build_rows (ask_row repr) hit_idx levels [] in
  let bids := build_rows (bid_row repr) hit_idx levels [] in
  build_ask_rows repr hit_idx levels = join "" asks /\
  build_bid_rows repr hit_idx levels = join "" bids /\
  length asks = length levels /\ length bids = length levels /\
  (forall idx line, asks !! idx = Some line ->
     (exists lvl, levels !! idx = Some lvl /\
                  line = ask_row repr (bool_decide (hit_idx = Some idx)) lvl) /\
     is_prefix "<tr class='red-row" line = true /\
     (is_prefix "<tr class='red-row highlight'>" line = true <-> hit_idx = Some idx)) /\
  (forall idx line, bids !! idx = Some line ->
     (exists lvl, levels !! idx = Some lvl /\
                  line = bid_row repr (bool_decide (hit_idx = Some idx)) lvl) /\
     is_prefix "<tr class='green-row" line = true /\
     (is_prefix "<tr class='green-row highlight'>" line = true <-> hit_idx = Some idx)).
Proof.
  intros asks bids. split; [reflexivity|]. split; [reflexivity|].
  split; [subst asks; by rewrite build_rows_imap, length_app, length_imap|].
  split; [subst bids; by rewrite build_rows_imap, length_app, length_imap|].
  split.
  - intros idx line Hl. apply build_rows_lookup in Hl as (lvl & Hlvl & ->).
    split; [by exists lvl|]. case_bool_decide as Hd.
    + split; [reflexivity|]. by split.
    + split; [reflexivity|]. split; [discriminate | done].
  - intros idx line Hl. apply build_rows_lookup in Hl as (lvl & Hlvl & ->).
    split; [by exists lvl|]. case_bool_decide as Hd.
    + split; [reflexivity|]. by split.
    + split; [reflexivity|]. split; [discriminate | done].
Qed.

End TableProps.

(** ** The order book tab: cached order books and opportunities *)

Module TabProps.
Import RefreshCache StreamlitApp CacheProps RowProps HighlightProps.

Section Pass.
Context {W : Type}.
Variable fetch : string -> W -> json * W.
Variable sym : string.
Variable refresh_tick : Z.

Lemma refresh_fresh key (f : W -> json * W) (c : RefreshCache.t json) (w : W) :
  cache_ver (refresh key refresh_tick f c w).1 !! key = Some refresh_tick.
Proof.
  destruct (decide (cache_ver c !! key = Some refresh_tick)) as [Heq|Hne].
  - by rewrite refresh_hit.
  - rewrite refresh_miss by done. apply store_fresh.
Qed.

(** A refresh leaves alone every entry that is of this tick. *)
Lemma refresh_keeps_any key (f : W -> json * W) (c : RefreshCache.t json) (w : W) k :
  cache_ver c !! k = Some refresh_tick ->
  cache_ver (refresh key refresh_tick f c w).1 !! k = Some refresh_tick /\
  cache (refresh key refresh_tick f c w).1 !! k = cache c !! k.
Proof.
  intros Hk. destruct (decide (k = key)) as [->|Hne].
  - by rewrite refresh_hit.
  - destruct (refresh_other key refresh_tick f c w k Hne) as [-> ->]. done.
Qed.

(** A pass over exchanges whose entries are all of this tick reads
    the session and changes nothing. *)
Lemma available_fresh (exchanges : list string) :
  forall found (c : RefreshCache.t json) (w : W),
    consistent c ->
    (forall ex, ex ∈ exchanges -> cache_ver c !! ob_key ex sym = Some refresh_tick) ->
    available fetch sym refresh_tick exchanges found c w =
      (Returned (found ++ cached_books c sym exchanges)%list, c, w).
Proof.
  induction exchanges as [|ex rest IH]; intros found c w Hc Hfresh.
  - simpl. by rewrite app_nil_r.
  - assert (Hex : cache_ver c !! ob_key ex sym = Some refresh_tick)
      by (apply Hfresh; left).
    destruct (Hc (ob_key ex sym)) as [ob Hob]; [by rewrite Hex|].
    cbn [available]. rewrite (get_or_compute_hit _ _ _ _ _ ob Hex Hob).
    rewrite IH; [|done|intros ex' Hin; apply Hfresh; by right].
    unfold cached_books. cbn [omap list_omap]. rewrite Hob.
    destruct (truthy ob); [by rewrite <- app_assoc | done].
Qed.

(** A pass from any consistent session: it returns, every exchange
    of the list is of this tick afterwards, and what it found is what
    the session then holds. *)
Lemma available_pass (exchanges : list string) :
  forall found (c : RefreshCache.t json) (w : W),
    consistent c ->
    exists c1 w1,
      available fetch sym refresh_tick exchanges found c w =
        (Returned (found ++ cached_books c1 sym exchanges)%list, c1, w1) /\
      consistent c1 /\
      (forall ex, ex ∈ exchanges -> cache_ver c1 !! ob_key ex sym = Some refresh_tick) /\
      (forall k, cache_ver c !! k = Some refresh_tick ->
                 cache_ver c1 !! k = Some refresh_tick /\ cache c1 !! k = cache c !! k).
Proof.
  induction exchanges as [|ex rest IH]; intros found c w Hc.
  - exists c, w. simpl. rewrite app_nil_r. repeat split; auto.
    intros ex Hin. inversion Hin.
  - cbn [available]. unfold get_or_compute.
    destruct (refresh (ob_key ex sym) refresh_tick (fetch ex) c w) as [c' w'] eqn:Hr.
    assert (Hc' : consistent c').
    { pose proof (consistent_refresh (ob_key ex sym) refresh_tick (fetch ex) c w Hc) as H.
      by rewrite Hr in H. }
    assert (Hex : cache_ver c' !! ob_key ex sym = Some refresh_tick).
    { pose proof (refresh_fresh (ob_key ex sym) (fetch ex) c w) as H. by rewrite Hr in H. }
    destruct (Hc' (ob_key ex sym)) as [ob Hob]; [by rewrite Hex|].
    rewrite Hob.
    destruct (IH (if truthy ob then (found ++ [(ex, ob)])%list else found) c' w' Hc')
      as (c1 & w1 & Hrun & Hc1 & Hfresh & Hkeep).
    exists c1, w1. rewrite Hrun. split; [|split; [done|split]].
    + destruct (Hkeep _ Hex) as [_ Hsame].
      unfold cached_books. cbn [omap list_omap]. rewrite Hsame, Hob.
      destruct (truthy ob); [by rewrite <- app_assoc | done].
    + intros ex' Hin. apply elem_of_cons in Hin as [-> | Hin]; [|by apply Hfresh].
      by apply Hkeep.
    + intros k Hk.
      pose proof (refresh_keeps_any (ob_key ex sym) (fetch ex) c w k Hk) as [Hv Hs].
      rewrite Hr in Hv, Hs. simpl in Hv, Hs.
      destruct (Hkeep k Hv) as [Hv1 Hs1]. split; [done | congruence].
Qed.

Lemma cached_books_sublist (c : RefreshCache.t json) (exchanges : list string) :
  sublist (cached_books c sym exchanges).*1 exchanges /\
  Forall (fun item => truthy item.2 = true /\
                      cache c !! ob_key item.1 sym = Some item.2)
         (cached_books c sym exchanges).
Proof.
  unfold cached_books. induction exchanges as [|ex rest [IH1 IH2]]; simpl.
  - split; constructor.
  - destruct (cache c !! ob_key ex sym) as [ob|] eqn:Hob;
      [destruct (truthy ob) eqn:Ht|]; simpl.
    + split; [by constructor | by constructor].
    + split; [by constructor | done].
    + split; [by constructor | done].
Qed.

(** X22.  The loop that collects the order books of a symbol, on a
    consistent session: it returns (no [KeyError]); afterwards the
    entry of every selected exchange is of this tick; the books it
    found are those the session holds, in the order of the selected
    exchanges, each one non-empty; and running the loop again in the
    same tick fetches nothing: it returns the same books and leaves
    the session and the world as they are. *)
Theorem available_same_tick (exchanges : list string) (c : RefreshCache.t json) (w : W) :
  consistent c ->
  exists found c1 w1,
    available fetch sym refresh_tick exchanges [] c w = (Returned found, c1, w1) /\
    available fetch sym refresh_tick exchanges [] c1 w1 = (Returned found, c1, w1) /\
    consistent c1 /\
    (forall ex, ex ∈ exchanges -> cache_ver c1 !! ob_key ex sym = Some refresh_tick) /\
    found = cached_books c1 sym exchanges /\
    sublist found.*1 exchanges /\
    Forall (fun item => truthy item.2 = true /\
                        cache c1 !! ob_key item.1 sym = Some item.2) found.
Proof.
  intros Hc.
  destruct (available_pass exchanges [] c w Hc) as (c1 & w1 & Hrun & Hc1 & Hfresh & _).
  exists (cached_books c1 sym exchanges), c1, w1.
  split; [exact Hrun|]. split; [by rewrite available_fresh|].
  split; [done|]. split; [done|]. split; [done|]. apply cached_books_sublist.
Qed.

End Pass.

(** Two exchanges on a new session; the world counts the fetches. *)
Lemma available_same_tick_witness :
  exists found c1 (w1 : nat),
    available (fun ex n => (if String.eqb ex "zaif" then JNull
                            else JObj [("exchange", JStr ex)], S n))
      "XRP/JPY" 1 ["bitbank"; "zaif"] [] initial 0%nat = (Returned found, c1, w1) /\
    available (fun ex n => (if String.eqb ex "zaif" then JNull
                            else JObj [("exchange", JStr ex)], S n))
      "XRP/JPY" 1 ["bitbank"; "zaif"] [] c1 w1 = (Returned found, c1, w1) /\
    found.*1 = ["bitbank"] /\ w1 = 2%nat.
Proof.
  destruct (available_same_tick
              (fun ex n => (if String.eqb ex "zaif" then JNull
                            else JObj [("exchange", JStr ex)], S n))
              "XRP/JPY" 1 ["bitbank"; "zaif"] initial 0%nat consistent_initial)
    as (found & c1 & w1 & Hrun & Hagain & _).
  exists found, c1, w1. split; [exact Hrun|]. split; [exact Hagain|].
  assert (Hfirst : exists c, available
            (fun ex n => (if String.eqb ex "zaif" then JNull
                          else JObj [("exchange", JStr ex)], S n))
            "XRP/JPY" 1 ["bitbank"; "zaif"] [] initial 0%nat
            = (Returned [("bitbank", JObj [("exchange", JStr "bitbank")])], c, 2%nat)).
  { eexists. vm_compute. reflexivity. }
  destruct Hfirst as [c Hfirst]. rewrite Hfirst in Hrun.
  inversion Hrun; subst. split; reflexivity.
Defined.

Section Rows.
Variable fromisoformat : string -> outcome Datetime.t.
Variable repr : json -> string.

Lemma filtered_filter (sym : string) (all_opps selected : list json) :
  filtered sym all_opps = Returned selected ->
  selected = List.filter (matches sym) all_opps /\
  Forall (fun opp => is_dict opp = true) all_opps.
Proof.
  revert selected. induction all_opps as [|opp rest IH]; intros selected; simpl.
  - intros [= <-]. split; [done | constructor].
  - destruct opp as [| | | | | |fields]; try discriminate.
    destruct (filtered sym rest) as [selected'|]; [|discriminate]. simpl.
    intros [= <-]. destruct (IH selected' eq_refl) as [-> Hd].
    split; [|by constructor]. by destruct (Py.eq _ _).
Qed.

Lemma matches_symbol (sym : string) (opp : json) (row : dict) :
  matches sym opp = true ->
  opportunity_row fromisoformat repr opp = Returned row ->
  get row "通貨" = JStr sym.
Proof.
  destruct opp as [| | | | | |fields]; try discriminate. simpl.
  intros Hm Hrow. apply eq_str_r in Hm.
  destruct (opportunity_row_of_cells fromisoformat repr fields row Hrow)
    as (label & bps & size & profit & ->).
  change (get_default fields "symbol" (JStr "") = JStr sym).
  unfold get, get_default in *. destruct (lookup fields "symbol"); [done | discriminate].
Qed.

(** X23.  The opportunities cached for a symbol of the order book
    tab: when the computation returns, every record of the answer is an
    object, the rows are those of the first five records whose symbol
    equals the tab's, in the order of the answer, so there are at most
    five, and every row shows that symbol.  Rows are built for all
    matching records before the first five are kept. *)
Theorem top_opps_of_symbol (sym : string) (all_opps : list json) (rows : list dict) :
  top_opps fromisoformat repr sym all_opps = Returned rows ->
  (length rows <= 5)%nat /\
  Forall (fun row => get row "通貨" = JStr sym) rows /\
  Forall (fun opp => is_dict opp = true) all_opps /\
  Forall2 (fun opp row => opportunity_row fromisoformat repr opp = Returned row)
          (take 5 (List.filter (matches sym) all_opps)) rows /\
  returns (build_opportunity_rows fromisoformat repr (List.filter (matches sym) all_opps)).
Proof.
  unfold top_opps. destruct (filtered sym all_opps) as [selected|] eqn:Hf; [|discriminate].
  simpl. destruct (build_opportunity_rows fromisoformat repr selected) as [all_rows|] eqn:Hb;
    [|discriminate].
  simpl. intros [= <-]. apply filtered_filter in Hf as [-> Hd].
  pose proof Hb as Hall. apply build_opportunity_rows_Forall2 in Hall.
  assert (Htake : Forall2 (fun opp row => opportunity_row fromisoformat repr opp
                                           = Returned row)
                    (take 5 (List.filter (matches sym) all_opps)) (take 5 all_rows))
    by (by apply Forall2_take).
  split; [rewrite length_take; lia|]. split; [|split; [done|split; [done | by eexists]]].
  assert (Hsel : Forall (fun opp => matches sym opp = true)
                   (take 5 (List.filter (matches sym) all_opps))).
  { apply Forall_take. apply Forall_forall. intros opp Hin.
    apply list_elem_of_In, filter_In in Hin. tauto. }
  revert Hsel. induction Htake as [|opp row opps rows' Hrow _ IH]; [constructor|].
  intros Hsel. apply Forall_cons in Hsel as [Hm Hsel].
  constructor; [by eapply matches_symbol | by apply IH].
Qed.

End Rows.

(** Three records, two of them of the symbol. *)
Lemma top_opps_of_symbol_witness :
  exists rows,
    top_opps Datetime.fromisoformat_basic (fun _ => "") "XRP/JPY"
      [JObj [("symbol", JStr "XRP/JPY"); ("buy_exchange", JStr "bitbank")];
       JObj [("symbol", JStr "LTC/JPY")];
       JObj [("symbol", JStr "XRP/JPY"); ("buy_exchange", JStr "zaif")]] = Returned rows /\
    length rows = 2%nat /\
    Forall (fun row => get row "通貨" = JStr "XRP/JPY") rows.
Proof.
  eexists. split; [vm_compute; reflexivity|]. split; [reflexivity|].
  apply (top_opps_of_symbol Datetime.fromisoformat_basic (fun _ => "") "XRP/JPY"
           [JObj [("symbol", JStr "XRP/JPY"); ("buy_exchange", JStr "bitbank")];
            JObj [("symbol", JStr "LTC/JPY")];
            JObj [("symbol", JStr "XRP/JPY"); ("buy_exchange", JStr "zaif")]]).
  vm_compute. reflexivity.
Defined.

End TabProps.

(** ** The keys of the order book cache *)

Module KeyProps.
Import RefreshCache StreamlitApp CacheProps Text.

Lemma ob_key_nil (sym : string) : ob_key "" sym = String ":" sym.
Proof. reflexivity. Qed.

Lemma ob_key_cons (c : ascii) (ex sym : string) :
  ob_key (String c ex) sym = String c (ob_key ex sym).
Proof. reflexivity. Qed.

(** A key names one exchange and one symbol, provided the names of
    the exchanges hold no colon. *)
Lemma ob_key_injective (ex ex' sym sym' : string) :
  ":"%char ∉ chars ex -> ":"%char ∉ chars ex' ->
  ob_key ex sym = ob_key ex' sym' -> ex = ex' /\ sym = sym'.
Proof.
  unfold chars. revert ex'.
  induction ex as [|c ex IH]; intros [|c' ex'] Hex Hex';
    rewrite ?ob_key_nil, ?ob_key_cons; simpl in Hex, Hex'.
  - intros [= Heq]. by subst.
  - intros [= <- _]. exfalso. apply Hex'. left.
  - intros [= -> _]. exfalso. apply Hex. left.
  - intros [= <- Heq]. destruct (IH ex') as [-> ->]; try done.
    + intros Hin. apply Hex. by right.
    + intros Hin. apply Hex'. by right.
Qed.

Section Frame.
Context {W : Type}.
Variable fetch : string -> W -> json * W.
Variable sym : string.
Variable refresh_tick : Z.

Lemma available_other_keys (exchanges : list string) :
  forall found (c : RefreshCache.t json) (w : W) r c1 w1 k,
    available fetch sym refresh_tick exchanges found c w = (r, c1, w1) ->
    (forall ex, ex ∈ exchanges -> k <> ob_key ex sym) ->
    cache c1 !! k = cache c !! k /\ cache_ver c1 !! k = cache_ver c !! k.
Proof.
  induction exchanges as [|ex rest IH]; intros found c w r c1 w1 k; simpl.
  - by intros [= _ <- _].
  - unfold get_or_compute.
    destruct (refresh (ob_key ex sym) refresh_tick (fetch ex) c w) as [c' w'] eqn:Hr.
    intros Hrun Hk.
    assert (Hne : k <> ob_key ex sym) by (apply Hk; left).
    pose proof (refresh_other (ob_key ex sym) refresh_tick (fetch ex) c w k Hne)
      as [Hv Hs].
    rewrite Hr in Hv, Hs. simpl in Hv, Hs.
    destruct (cache c' !! ob_key ex sym) as [ob|].
    + apply IH with (k := k) in Hrun as [Hv1 Hs1];
        [split; congruence | intros ex' Hin; apply Hk; by right].
    + inversion Hrun; subst. done.
Qed.

(** X24.  The loop that collects the order books of a symbol touches
    no entry of the session but those of the selected exchanges for
    that symbol: with exchange names that hold no colon (as the four
    the application offers), the value and the tick stored for another
    symbol, or for an exchange that is not selected, are left as they
    were, whether the loop returns or raises.  A key is
    [exchange:symbol], so names with a colon could share an entry. *)
Theorem available_leaves_other_entries (exchanges : list string)
    (found : list (string * json)) (c c1 : RefreshCache.t json) (w w1 : W)
    (r : outcome (list (string * json))) :
  Forall (fun ex => ":"%char ∉ chars ex) exchanges ->
  available fetch sym refresh_tick exchanges found c w = (r, c1, w1) ->
  (forall ex' sym',
     ":"%char ∉ chars ex' -> sym' <> sym \/ ex' ∉ exchanges ->
     cache c1 !! ob_key ex' sym' = cache c !! ob_key ex' sym' /\
     cache_ver c1 !! ob_key ex' sym' = cache_ver c !! ob_key ex' sym') /\
  ob_key "a:b" "c" = ob_key "a" "b:c".
Proof.
  intros Hnames Hrun. split; [|reflexivity].
  intros ex' sym' Hex' Hother.
  apply (available_other_keys exchanges found c w r c1 w1 _ Hrun).
  intros ex Hin Heq. rewrite Forall_forall in Hnames.
  apply ob_key_injective in Heq as [-> ->]; [|done|by apply Hnames].
  destruct Hother as [Hs | He]; [by apply Hs | by apply He].
Qed.

End Frame.

(** The characters of a given string are not colons. *)
Ltac no_colon :=
  unfold chars; simpl;
  let H := fresh "H" in
  intros H; repeat (apply elem_of_cons in H as [H|H]; [discriminate|]); inversion H.

(** A session that holds the book of LTC/JPY at bitbank keeps it
    while the books of XRP/JPY are collected. *)
Lemma available_leaves_other_entries_witness :
  cache (available (fun (ex : string) (n : nat) => (JNull, S n)) "XRP/JPY" 2
           ["bitbank"; "zaif"] []
           (store initial "bitbank:LTC/JPY" 1 (JObj [("exchange", JStr "bitbank")]))
           0%nat).1.2
    !! ob_key "bitbank" "LTC/JPY"
  = Some (JObj [("exchange", JStr "bitbank")]).
Proof.
  destruct (available (fun (ex : string) (n : nat) => (JNull, S n)) "XRP/JPY" 2
              ["bitbank"; "zaif"] []
              (store initial "bitbank:LTC/JPY" 1 (JObj [("exchange", JStr "bitbank")]))
              0%nat) as [[r c1] w1] eqn:Hrun.
  assert (Hnames : Forall (fun ex => ":"%char ∉ chars ex) ["bitbank"; "zaif"])
    by (repeat constructor; no_colon).
  destruct (available_leaves_other_entries
              (fun (ex : string) (n : nat) => (JNull, S n)) "XRP/JPY" 2
              ["bitbank"; "zaif"] []
              (store initial "bitbank:LTC/JPY" 1 (JObj [("exchange", JStr "bitbank")]))
              c1 0%nat w1 r Hnames Hrun) as [Hframe _].
  destruct (Hframe "bitbank" "LTC/JPY") as [Hvalue _]; [no_colon | by left |].
  simpl. rewrite Hvalue. apply store_value.
Defined.

End KeyProps.

(** ** The clock of a time label *)

Module TimeProps.
Import StreamlitApp Datetime RowProps.

(** Minutes of the day into hours and minutes, and the clock of a
    number of microseconds. *)
Lemma minutes_split (T : Z) :
  T mod 1440 / 60 = T / 60 mod 24 /\ T mod 1440 mod 60 = T mod 60.
Proof. Z.div_mod_to_equations. lia. Qed.

Lemma clock_of_minutes (D T s us : Z) :
  0 <= s < 60 -> 0 <= us < 1000000 ->
  let r := (D * 86400000000 + T * 60000000 + s * 1000000 + us) mod 86400000000 in
  r / 3600000000 = T / 60 mod 24 /\
  r mod 3600000000 / 60000000 = T mod 60 /\
  r mod 60000000 / 1000000 = s.
Proof.
  intros Hs Hus r.
  pose proof (Z.div_mod T 1440 ltac:(lia)) as HT.
  pose proof (Z.mod_pos_bound T 1440 ltac:(lia)) as Ht.
  set (t := T mod 1440) in *. set (q := T / 1440) in *.
  pose proof (Z.div_mod t 60 ltac:(lia)) as Hab.
  pose proof (Z.mod_pos_bound t 60 ltac:(lia)) as Hb.
  assert (Ha : 0 <= t / 60 < 24).
  { split; [apply Z.div_pos; lia | apply Z.div_lt_upper_bound; lia]. }
  destruct (minutes_split T) as [H1 H2]. fold t in H1, H2. rewrite <- H1, <- H2.
  set (a := t / 60) in *. set (b := t mod 60) in *.
  assert (Hr : r = a * 3600000000 + b * 60000000 + s * 1000000 + us).
  { subst r. symmetry. apply Z.mod_unique with (q := D + q); lia. }
  rewrite Hr. split; [|split].
  - symmetry. apply Z.div_unique with (r := b * 60000000 + s * 1000000 + us); lia.
  - assert (Hm : (a * 3600000000 + b * 60000000 + s * 1000000 + us) mod 3600000000
                 = b * 60000000 + s * 1000000 + us).
    { symmetry. apply Z.mod_unique with (q := a); lia. }
    rewrite Hm. symmetry. apply Z.div_unique with (r := s * 1000000 + us); lia.
  - assert (Hm : (a * 3600000000 + b * 60000000 + s * 1000000 + us) mod 60000000
                 = s * 1000000 + us).
    { symmetry. apply Z.mod_unique with (q := a * 60 + b); lia. }
    rewrite Hm. symmetry. apply Z.div_unique with (r := us); lia.
Qed.

(** The clock of [of_us]: hours, minutes, seconds and microseconds of
    the microseconds of a day. *)
Lemma clock_recompose (r : Z) :
  0 <= r < day_us ->
  r / hour_us * hour_us + r mod hour_us / (60 * second_us) * 60 * second_us +
  r mod (60 * second_us) / second_us * second_us + r mod second_us = r.
Proof. unfold day_us, hour_us, second_us. intros H. Z.div_mod_to_equations. lia. Qed.

Lemma to_us_of_us_clock (us : Z) (tz tz' : option Z) :
  to_us (replace_tzinfo (of_us us tz) tz') mod day_us = us mod day_us.
Proof.
  unfold of_us. destruct (ord2ymd (us / day_us)) as [[y m] d].
  unfold to_us, replace_tzinfo. cbn [year month day hour minute second microsecond].
  assert (Hr : 0 <= us mod day_us < day_us) by (apply Z.mod_pos_bound; reflexivity).
  pose proof (clock_recompose (us mod day_us) Hr) as Hc.
  replace (ymd2ord y m d * day_us + us mod day_us / hour_us * hour_us +
           us mod day_us mod hour_us / (60 * second_us) * 60 * second_us +
           us mod day_us mod (60 * second_us) / second_us * second_us +
           us mod day_us mod second_us)
    with (us mod day_us + ymd2ord y m d * day_us) by lia.
  rewrite Z.mod_add by discriminate. by rewrite Z.mod_mod.
Qed.

(** The clock that [astimezone] gives: the microseconds of the day
    move by the difference of the offsets. *)
Lemma astimezone_clock (dt local : Datetime.t) (tz : Z) :
  astimezone dt tz = Returned local ->
  exists r, r = (to_us dt - default 0 (tzinfo dt) + tz) mod day_us /\
    hour local = r / hour_us /\
    minute local = r mod hour_us / (60 * second_us) /\
    second local = r mod (60 * second_us) / second_us.
Proof.
  unfold astimezone, add.
  destruct (_ && _); [|discriminate]. cbn [Py.bind].
  destruct (_ && _); [|discriminate]. cbn [Py.bind].
  intros [= <-]. eexists. split; [reflexivity|].
  set (us1 := to_us dt + - default 0 (tzinfo dt)).
  set (us2 := to_us (replace_tzinfo (of_us us1 (tzinfo dt)) (Some tz)) + tz).
  assert (Hus2 : us2 mod day_us = (to_us dt - default 0 (tzinfo dt) + tz) mod day_us).
  { subst us2. rewrite Z.add_mod by discriminate. rewrite to_us_of_us_clock.
    rewrite <- Z.add_mod by discriminate. subst us1. f_equal; lia. }
  rewrite <- Hus2. unfold of_us. destruct (ord2ymd (us2 / day_us)) as [[y m] d].
  cbn [hour minute second]. done.
Qed.

Section Clock.
Variable fromisoformat : string -> outcome Datetime.t.

(** X25.  The label of a time stamp that parses shows the clock of
    UTC+9: with the offset of the time stamp in whole minutes (none
    for a time stamp without offset, which is read as UTC), the minute
    of the day [hour * 60 + minute - offset + 540] gives the hour
    (modulo 24) and the minute of the label, and the seconds are those
    of the time stamp.  A time stamp in UTC is shown nine hours
    later. *)
Theorem format_time_label_clock (timestamp label : string) (dt : Datetime.t)
    (offset_minutes : Z) :
  fromisoformat (replace_Z timestamp) = Returned dt ->
  default 0 (tzinfo dt) = offset_minutes * (60 * second_us) ->
  0 <= hour dt < 24 -> 0 <= minute dt < 60 -> 0 <= second dt < 60 ->
  0 <= microsecond dt < 1000000 ->
  format_time_label fromisoformat timestamp false = Returned label ->
  let minutes := hour dt * 60 + minute dt - offset_minutes + 9 * 60 in
  label = pad 2 (minutes / 60 mod 24) ++ ":" ++ pad 2 (minutes mod 60) ++ ":" ++
          pad 2 (second dt) /\
  (offset_minutes = 0 ->
   label = pad 2 ((hour dt + 9) mod 24) ++ ":" ++ pad 2 (minute dt) ++ ":" ++
           pad 2 (second dt)).
Proof.
  intros Hparse Hoff Hh Hm Hs Hus Hlabel minutes.
  rewrite (format_time_label_parsed fromisoformat timestamp false dt Hparse) in Hlabel.
  destruct (astimezone (aware dt) JST) as [local|e] eqn:Hlocal.
  2: { destruct (astimezone_outcome (aware dt) JST) as [[r Hr] | Ho]; [congruence|].
       rewrite Hlocal in Ho. inversion Ho; subst. discriminate Hlabel. }
  assert (Hl : label = strftime local false) by (inversion Hlabel; reflexivity).
  clear Hlabel.
  destruct (astimezone_clock _ _ _ Hlocal) as (r & Hr & Hhour & Hmin & Hsec).
  assert (Hdefault : default 0 (tzinfo (aware dt)) = default 0 (tzinfo dt)).
  { unfold aware. destruct (tzinfo dt) eqn:E; [by rewrite E | reflexivity]. }
  assert (Hto : to_us (aware dt) = to_us dt).
  { unfold aware. by destruct (tzinfo dt). }
  rewrite Hdefault, Hto, Hoff in Hr.
  assert (Hfields : hour local = minutes / 60 mod 24 /\
                    minute local = minutes mod 60 /\ second local = second dt).
  { rewrite Hhour, Hmin, Hsec, Hr. subst minutes. unfold to_us, JST.
    change day_us with 86400000000. change hour_us with 3600000000.
    change second_us with 1000000. change (60 * 1000000) with 60000000.
    replace (ymd2ord (year dt) (month dt) (day dt) * 86400000000 +
             hour dt * 3600000000 + minute dt * 60 * 1000000 + second dt * 1000000 +
             microsecond dt - offset_minutes * 60000000 + 9 * 3600000000)
      with (ymd2ord (year dt) (month dt) (day dt) * 86400000000 +
            (hour dt * 60 + minute dt - offset_minutes + 9 * 60) * 60000000 +
            second dt * 1000000 + microsecond dt) by lia.
    by apply clock_of_minutes. }
  destruct Hfields as (Hf1 & Hf2 & Hf3).
  assert (Hfirst : label = pad 2 (minutes / 60 mod 24) ++ ":" ++ pad 2 (minutes mod 60) ++
                           ":" ++ pad 2 (second dt)).
  { rewrite Hl. unfold strftime. by rewrite Hf1, Hf2, Hf3. }
  split; [exact Hfirst|]. intros H0.
  assert (Hsame : minutes / 60 mod 24 = (hour dt + 9) mod 24 /\ minutes mod 60 = minute dt).
  { subst minutes. rewrite H0. clear - Hh Hm. Z.div_mod_to_equations. lia. }
  destruct Hsame as [Hs1 Hs2]. by rewrite Hfirst, Hs1, Hs2.
Qed.

End Clock.

(** Half past eight in the evening, UTC, is half past five in the
    morning in Japan. *)
Lemma format_time_label_clock_witness :
  format_time_label fromisoformat_basic "2024-01-01T20:30:15Z" false = Returned "05:30:15" /\
  "05:30:15" = pad 2 ((20 + 9) mod 24) ++ ":" ++ pad 2 30 ++ ":" ++ pad 2 15.
Proof.
  split; [reflexivity|].
  apply (format_time_label_clock fromisoformat_basic "2024-01-01T20:30:15Z" "05:30:15"
           (Make 2024 1 1 20 30 15 0 (Some 0)) 0); try reflexivity; simpl; lia.
Defined.

End TimeProps.
